(** * ConfigurableFirmata: the protocol engine of [ConfigurableFirmata.cpp]

    A shallow embedding of [FirmataClass] (ConfigurableFirmata.h /
    ConfigurableFirmata.cpp): the incremental parser [parse], the block
    reader [processInput], the sysex dispatcher [processSysexMessage], the
    pin table accessors, [systemReset] and the packed-integer codec.

    Conventions.
    - [byte], [int], [uint16_t], [uint32_t] and [uint64_t] values are [Z];
      every narrowing the C++ performs is written out ([to_byte],
      [to_uint32], ...).
    - The arrays [storedInputData], [pinConfig] and [pinState] are lists read
      with stdpp's [!!] and updated with [<[i:=x]>]; an index outside the
      array is undefined behaviour in C++ and is reported here as a [fault].
      The size of the pin table ([TOTAL_PINS], from Boards.h) is the length
      of the two pin lists.
    - The bytes written to [FirmataStream] are collected in the field [out],
      the bytes printed on the [Serial] console in [console].
    - A callback slot is an [option]; an attached handler is a function on
      the engine state (it may call the public API and write to the
      transport). The registry is a parameter of the engine functions:
      handlers do not attach or detach handlers.
    - [LARGE_MEM_DEVICE] is a boolean parameter: it selects
      [MAX_DATA_BYTES] and the block-reading body of [processInput].
    The start-up code ([begin], [blinkVersion]) is not part of the
    embedding. *)

From Stdlib Require Import ZArith List Lia Bool String Ascii.
From stdpp Require Import base list.

Local Open Scope Z_scope.

(** ** Protocol constants (ConfigurableFirmata.h) *)

Definition DIGITAL_MESSAGE : Z := 0x90.
Definition ANALOG_MESSAGE : Z := 0xE0.
Definition REPORT_ANALOG : Z := 0xC0.
Definition REPORT_DIGITAL : Z := 0xD0.
Definition SET_PIN_MODE : Z := 0xF4.
Definition SET_DIGITAL_PIN_VALUE : Z := 0xF5.
Definition REPORT_VERSION : Z := 0xF9.
Definition SYSTEM_RESET : Z := 0xFF.
Definition START_SYSEX : Z := 0xF0.
Definition END_SYSEX : Z := 0xF7.

Definition EXTENDED_ANALOG : Z := 0x6F.
Definition STRING_DATA : Z := 0x71.
Definition REPORT_FIRMWARE : Z := 0x79.

Definition PIN_MODE_INPUT : Z := 0x00.
Definition PIN_MODE_IGNORE : Z := 0x7F.

Definition FIRMATA_PROTOCOL_MAJOR_VERSION : Z := 2.
Definition FIRMATA_PROTOCOL_MINOR_VERSION : Z := 7.

Definition LARGE_MEM_RCV_BUF_SIZE : Z := 4096.

(** [MAX_DATA_BYTES] is 252 when [LARGE_MEM_DEVICE] is defined and 64
    otherwise. *)
Definition MAX_DATA_BYTES (LARGE_MEM_DEVICE : bool) : Z :=
  if LARGE_MEM_DEVICE then 252 else 64.

(** ** Integer conversions *)

Definition to_byte (z : Z) : Z := z mod 256.
Definition to_uint16 (z : Z) : Z := z mod 2 ^ 16.
Definition to_uint32 (z : Z) : Z := z mod 2 ^ 32.
Definition to_uint64 (z : Z) : Z := z mod 2 ^ 64.

(** ** Engine state (the data members of [FirmataClass]) *)

Record Firmata := mkFirmata {
  firmwareVersionName : list Z;
  firmwareVersionMajor : Z;
  firmwareVersionMinor : Z;
  waitForData : Z;
  executeMultiByteCommand : Z;
  multiByteChannel : Z;
  storedInputData : list Z;
  parsingSysex : bool;
  sysexBytesRead : Z;
  pinConfig : list Z;
  pinState : list Z;
  resetting : bool;
  outputIsConsole : bool;
  out : list Z;
  console : list Z
}.

Definition set_waitForData (v : Z) (s : Firmata) : Firmata :=
  mkFirmata (firmwareVersionName s) (firmwareVersionMajor s)
    (firmwareVersionMinor s) v (executeMultiByteCommand s)
    (multiByteChannel s) (storedInputData s) (parsingSysex s)
    (sysexBytesRead s) (pinConfig s) (pinState s) (resetting s)
    (outputIsConsole s) (out s) (console s).

Definition set_executeMultiByteCommand (v : Z) (s : Firmata) : Firmata :=
  mkFirmata (firmwareVersionName s) (firmwareVersionMajor s)
    (firmwareVersionMinor s) (waitForData s) v
    (multiByteChannel s) (storedInputData s) (parsingSysex s)
    (sysexBytesRead s) (pinConfig s) (pinState s) (resetting s)
    (outputIsConsole s) (out s) (console s).

Definition set_multiByteChannel (v : Z) (s : Firmata) : Firmata :=
  mkFirmata (firmwareVersionName s) (firmwareVersionMajor s)
    (firmwareVersionMinor s) (waitForData s) (executeMultiByteCommand s)
    v (storedInputData s) (parsingSysex s)
    (sysexBytesRead s) (pinConfig s) (pinState s) (resetting s)
    (outputIsConsole s) (out s) (console s).

Definition set_storedInputData (v : list Z) (s : Firmata) : Firmata :=
  mkFirmata (firmwareVersionName s) (firmwareVersionMajor s)
    (firmwareVersionMinor s) (waitForData s) (executeMultiByteCommand s)
    (multiByteChannel s) v (parsingSysex s)
    (sysexBytesRead s) (pinConfig s) (pinState s) (resetting s)
    (outputIsConsole s) (out s) (console s).

Definition set_parsingSysex (v : bool) (s : Firmata) : Firmata :=
  mkFirmata (firmwareVersionName s) (firmwareVersionMajor s)
    (firmwareVersionMinor s) (waitForData s) (executeMultiByteCommand s)
    (multiByteChannel s) (storedInputData s) v
    (sysexBytesRead s) (pinConfig s) (pinState s) (resetting s)
    (outputIsConsole s) (out s) (console s).

Definition set_sysexBytesRead (v : Z) (s : Firmata) : Firmata :=
  mkFirmata (firmwareVersionName s) (firmwareVersionMajor s)
    (firmwareVersionMinor s) (waitForData s) (executeMultiByteCommand s)
    (multiByteChannel s) (storedInputData s) (parsingSysex s)
    v (pinConfig s) (pinState s) (resetting s)
    (outputIsConsole s) (out s) (console s).

Definition set_pinConfig (v : list Z) (s : Firmata) : Firmata :=
  mkFirmata (firmwareVersionName s) (firmwareVersionMajor s)
    (firmwareVersionMinor s) (waitForData s) (executeMultiByteCommand s)
    (multiByteChannel s) (storedInputData s) (parsingSysex s)
    (sysexBytesRead s) v (pinState s) (resetting s)
    (outputIsConsole s) (out s) (console s).

Definition set_pinState (v : list Z) (s : Firmata) : Firmata :=
  mkFirmata (firmwareVersionName s) (firmwareVersionMajor s)
    (firmwareVersionMinor s) (waitForData s) (executeMultiByteCommand s)
    (multiByteChannel s) (storedInputData s) (parsingSysex s)
    (sysexBytesRead s) (pinConfig s) v (resetting s)
    (outputIsConsole s) (out s) (console s).

Definition set_resetting (v : bool) (s : Firmata) : Firmata :=
  mkFirmata (firmwareVersionName s) (firmwareVersionMajor s)
    (firmwareVersionMinor s) (waitForData s) (executeMultiByteCommand s)
    (multiByteChannel s) (storedInputData s) (parsingSysex s)
    (sysexBytesRead s) (pinConfig s) (pinState s) v
    (outputIsConsole s) (out s) (console s).

Definition set_out (v : list Z) (s : Firmata) : Firmata :=
  mkFirmata (firmwareVersionName s) (firmwareVersionMajor s)
    (firmwareVersionMinor s) (waitForData s) (executeMultiByteCommand s)
    (multiByteChannel s) (storedInputData s) (parsingSysex s)
    (sysexBytesRead s) (pinConfig s) (pinState s) (resetting s)
    (outputIsConsole s) v (console s).

Definition set_console (v : list Z) (s : Firmata) : Firmata :=
  mkFirmata (firmwareVersionName s) (firmwareVersionMajor s)
    (firmwareVersionMinor s) (waitForData s) (executeMultiByteCommand s)
    (multiByteChannel s) (storedInputData s) (parsingSysex s)
    (sysexBytesRead s) (pinConfig s) (pinState s) (resetting s)
    (outputIsConsole s) (out s) v.

(** ** Callback registry

    The eight function-pointer slots used by the parser and the pin table.
    A handler receives the decoded arguments and acts on the engine. *)

Record Callbacks := mkCallbacks {
  currentDigitalCallback : option (Z -> Z -> Firmata -> Firmata);
  currentReportAnalogCallback : option (Z -> Z -> Firmata -> Firmata);
  currentReportDigitalCallback : option (Z -> Z -> Firmata -> Firmata);
  currentPinModeCallback : option (Z -> Z -> Firmata -> Firmata);
  currentPinValueCallback : option (Z -> Z -> Firmata -> Firmata);
  currentSystemResetCallback : option (Firmata -> Firmata);
  currentStringCallback : option (list Z -> Firmata -> Firmata);
  currentSysexCallback : option (Z -> Z -> list Z -> Firmata -> Firmata)
}.

(** No handler attached (every slot [NULL]). *)
Definition no_callbacks : Callbacks :=
  mkCallbacks None None None None None None None None.

(** Invoke the handler of a slot when the slot is not [NULL]. *)
Definition call2 (h : option (Z -> Z -> Firmata -> Firmata))
    (a b : Z) (s : Firmata) : Firmata :=
  match h with Some f => f a b s | None => s end.

Definition call0 (h : option (Firmata -> Firmata)) (s : Firmata) : Firmata :=
  match h with Some f => f s | None => s end.

(** ** Faults and the result monad *)

Inductive fault := BufferOutOfBounds | PinOutOfBounds.

Inductive res (A : Type) :=
  | Ok (a : A)
  | Err (f : fault).
Arguments Ok {A} a.
Arguments Err {A} f.

Definition bind {A B : Type} (m : res A) (k : A -> res B) : res B :=
  match m with
  | Ok a => k a
  | Err f => Err f
  end.

Notation "x <- m ;; k" := (bind m (fun x => k))
  (at level 100, m at next level, right associativity).

(** ** Array accesses *)

Definition in_range {A : Type} (l : list A) (i : Z) : bool :=
  (0 <=? i) && (i <? Z.of_nat (length l)).

(** [storedInputData[i]] as an rvalue. *)
Definition buf_get (i : Z) (s : Firmata) : res Z :=
  if in_range (storedInputData s) i then
    match storedInputData s !! Z.to_nat i with
    | Some v => Ok v
    | None => Err BufferOutOfBounds
    end
  else Err BufferOutOfBounds.

(** [storedInputData[i] = v]. *)
Definition buf_set (i v : Z) (s : Firmata) : res Firmata :=
  if in_range (storedInputData s) i then
    Ok (set_storedInputData (<[Z.to_nat i := v]> (storedInputData s)) s)
  else Err BufferOutOfBounds.

(** ** Output stream handling *)

(** [FirmataStream->write(c)]. *)
Definition write (c : Z) (s : Firmata) : Firmata :=
  set_out (out s ++ [to_byte c]) s.

Definition sendValueAsTwo7bitBytes (value : Z) (s : Firmata) : Firmata :=
  let s := write (Z.land value 0x7F) s in
  write (Z.land (Z.shiftr value 7) 0x7F) s.

Definition startSysex (s : Firmata) : Firmata := write START_SYSEX s.

Definition endSysex (s : Firmata) : Firmata := write END_SYSEX s.

Definition printVersion (s : Firmata) : Firmata :=
  let s := write REPORT_VERSION s in
  let s := write FIRMATA_PROTOCOL_MAJOR_VERSION s in
  write FIRMATA_PROTOCOL_MINOR_VERSION s.

(** [for (i = 0; i < len; ++i) sendValueAsTwo7bitBytes(text[i]);] *)
Definition send_chars (text : list Z) (s : Firmata) : Firmata :=
  fold_left (fun acc c => sendValueAsTwo7bitBytes c acc) text s.

(** The transport is attached ([FirmataStream] is not null).
    [firmwareVersionName] holds the characters of the name before its
    terminating NUL, each as the [int] the code passes to
    [sendValueAsTwo7bitBytes] (the byte itself for an ASCII character). *)
Definition printFirmwareVersion (s : Firmata) : Firmata :=
  if negb (firmwareVersionMajor s =? 0) then
    let s := startSysex s in
    let s := write REPORT_FIRMWARE s in
    let s := write (firmwareVersionMajor s) s in
    let s := write (firmwareVersionMinor s) s in
    let s := send_chars (firmwareVersionName s) s in
    endSysex s
  else s.

(** The characters of a string literal. *)
Definition chars (t : string) : list Z :=
  map (fun c => Z.of_nat (nat_of_ascii c)) (list_ascii_of_string t).

(** [Serial.println(text)]. *)
Definition Serial_println (text : list Z) (s : Firmata) : Firmata :=
  set_console (console s ++ text ++ [13; 10]) s.

(** [sendString(const FlashString* flashString)]. *)
Definition sendString (flashString : list Z) (s : Firmata) : Firmata :=
  let s := if negb (outputIsConsole s) then Serial_println flashString s
           else s in
  let s := startSysex s in
  let s := write STRING_DATA s in
  let s := send_chars flashString s in
  endSysex s.

(** ** Packed integers *)

Definition sendPackedUInt32 (value : Z) (s : Firmata) : Firmata :=
  let s := write (to_byte (Z.land value 0x7F)) s in
  let s := write (to_byte (Z.land (Z.shiftr value 7) 0x7F)) s in
  let s := write (to_byte (Z.land (Z.shiftr value 14) 0x7F)) s in
  let s := write (to_byte (Z.land (Z.shiftr value 21) 0x7F)) s in
  write (to_byte (Z.land (Z.shiftr value 28) 0x0F)) s.

Definition sendPackedUInt64 (value : Z) (s : Firmata) : Firmata :=
  let s := sendPackedUInt32 (to_uint32 (Z.land value 0xFFFFFFFF)) s in
  sendPackedUInt32 (to_uint32 (Z.shiftr value 32)) s.

Definition sendPackedUInt14 (value : Z) (s : Firmata) : Firmata :=
  let s := write (to_byte (Z.land value 0x7F)) s in
  write (to_byte (Z.land (Z.shiftr value 7) 0x7F)) s.

(** [argv[i]] for a pointer into a byte array: the bytes from the pointer
    on; past the end of the array the read yields no value. *)
Definition arg (argv : list Z) (i : nat) : option Z := argv !! i.

Definition decodePackedUInt32 (argv : list Z) : option Z :=
  b0 ← arg argv 0; b1 ← arg argv 1; b2 ← arg argv 2;
  b3 ← arg argv 3; b4 ← arg argv 4;
  let result := b0 in
  let result := Z.lor result (to_uint32 (Z.shiftl b1 7)) in
  let result := Z.lor result (to_uint32 (Z.shiftl b2 14)) in
  let result := Z.lor result (to_uint32 (Z.shiftl b3 21)) in
  let result := Z.lor result (to_uint32 (Z.shiftl b4 28)) in
  Some result.

Definition decodePackedUInt64 (argv : list Z) : option Z :=
  lo ← decodePackedUInt32 argv;
  hi ← decodePackedUInt32 (drop 5 argv);
  let result := 0 in
  let result := to_uint64 (result + lo) in
  let result := to_uint64 (result + to_uint64 (Z.shiftl hi 32)) in
  Some result.

Definition decodePackedUInt14 (argv : list Z) : option Z :=
  b0 ← arg argv 0; b1 ← arg argv 1;
  let result := b0 in
  let result := Z.lor result (to_uint32 (Z.shiftl b1 7)) in
  Some (to_uint16 result).

(** The bytes a call appended to the transport. *)
Definition written (before after : Firmata) : list Z :=
  drop (length (out before)) (out after).

(** ** Pin table *)

Definition pin_get (table : list Z) (pin : Z) : res Z :=
  if in_range table pin then
    match table !! Z.to_nat pin with
    | Some v => Ok v
    | None => Err PinOutOfBounds
    end
  else Err PinOutOfBounds.

Definition getPinMode (pin : Z) (s : Firmata) : res Z :=
  pin_get (pinConfig s) pin.

Definition getPinState (pin : Z) (s : Firmata) : res Z :=
  pin_get (pinState s) pin.

Definition setPinState (pin state : Z) (s : Firmata) : res Firmata :=
  if in_range (pinState s) pin then
    Ok (set_pinState (<[Z.to_nat pin := state]> (pinState s)) s)
  else Err PinOutOfBounds.

(** The NUL-terminated string a [char*] into a byte array denotes. *)
Fixpoint cstring (l : list Z) : list Z :=
  match l with
  | [] => []
  | c :: l' => if c =? 0 then [] else c :: cstring l'
  end.

Section Engine.

(** The build configuration and the attached handlers. *)
Variable LARGE_MEM_DEVICE : bool.
Variable cb : Callbacks.

Definition setPinMode (pin config : Z) (s : Firmata) : res Firmata :=
  mode <- pin_get (pinConfig s) pin ;;
  if mode =? PIN_MODE_IGNORE then Ok s
  else
    s <- setPinState pin 0 s ;;
    let s := set_pinConfig (<[Z.to_nat pin := config]> (pinConfig s)) s in
    Ok (call2 (currentPinModeCallback cb) pin config s).

(** The [while (j < bufferLength)] loop of the [STRING_DATA] case;
    [j] takes the values [0 .. bufferLength - 1], so [bufferLength]
    rounds are all the loop can make. *)
Fixpoint decode_string (rounds : nat) (bufferLength i j : Z) (s : Firmata)
    : res (Z * Firmata) :=
  match rounds with
  | O => Ok (j, s)
  | S rounds' =>
      if j <? bufferLength then
        c <- buf_get i s ;;
        s <- buf_set j c s ;;
        let i := to_byte (i + 1) in
        lo <- buf_get j s ;;
        hi <- buf_get i s ;;
        s <- buf_set j (to_byte (lo + Z.shiftl hi 7)) s ;;
        let i := to_byte (i + 1) in
        let j := to_byte (j + 1) in
        decode_string rounds' bufferLength i j s
      else Ok (j, s)
  end.

Definition processSysexMessage (s : Firmata) : res Firmata :=
  command <- buf_get 0 s ;;
  if command =? REPORT_FIRMWARE then Ok (printFirmwareVersion s)
  else if command =? STRING_DATA then
    match currentStringCallback cb with
    | Some handler =>
        let bufferLength := to_byte (Z.quot (sysexBytesRead s - 1) 2) in
        if bufferLength <=? 0 then Ok s
        else
          r <- decode_string (Z.to_nat bufferLength) bufferLength 1 0 s ;;
          let '(j, s) := r in
          last <- buf_get (j - 1) s ;;
          s <- (if negb (last =? 0) then buf_set j 0 s else Ok s) ;;
          Ok (handler (cstring (storedInputData s)) s)
    | None => Ok s
    end
  else
    match currentSysexCallback cb with
    | Some handler =>
        Ok (handler command (to_byte (sysexBytesRead s - 1))
              (drop 1 (storedInputData s)) s)
    | None => Ok s
    end.

(** [for (i = 0; i < MAX_DATA_BYTES; i++) storedInputData[i] = 0;] *)
Fixpoint clear_buffer (rounds : nat) (i : Z) (s : Firmata) : res Firmata :=
  match rounds with
  | O => Ok s
  | S rounds' =>
      if i <? MAX_DATA_BYTES LARGE_MEM_DEVICE then
        s <- buf_set i 0 s ;;
        clear_buffer rounds' (i + 1) s
      else Ok s
  end.

Definition systemReset (s : Firmata) : res Firmata :=
  let s := set_resetting true s in
  let s := set_waitForData 0 s in
  let s := set_executeMultiByteCommand 0 s in
  let s := set_multiByteChannel 0 s in
  s <- clear_buffer (Z.to_nat (MAX_DATA_BYTES LARGE_MEM_DEVICE)) 0 s ;;
  let s := set_parsingSysex false s in
  let s := set_sysexBytesRead 0 s in
  let s := call0 (currentSystemResetCallback cb) s in
  Ok (set_resetting false s).

Definition resetParser (s : Firmata) : Firmata :=
  let s := set_parsingSysex false s in
  let s := set_sysexBytesRead 0 s in
  let s := set_waitForData 0 s in
  set_executeMultiByteCommand 0 s.

(** The [switch (executeMultiByteCommand)] run when a fixed-length
    message is complete. *)
Definition execute_command (s : Firmata) : res Firmata :=
  let command := executeMultiByteCommand s in
  if command =? ANALOG_MESSAGE then
    b0 <- buf_get 0 s ;;
    b1 <- buf_get 1 s ;;
    s <- buf_set 0 EXTENDED_ANALOG s ;;
    s <- buf_set 1 (multiByteChannel s) s ;;
    s <- buf_set 2 b1 s ;;
    s <- buf_set 3 b0 s ;;
    s <- buf_set 4 END_SYSEX s ;;
    let s := set_sysexBytesRead 4 s in
    processSysexMessage s
  else if command =? DIGITAL_MESSAGE then
    match currentDigitalCallback cb with
    | Some handler =>
        d0 <- buf_get 0 s ;;
        d1 <- buf_get 1 s ;;
        Ok (handler (multiByteChannel s) (Z.shiftl d0 7 + d1) s)
    | None => Ok s
    end
  else if command =? SET_PIN_MODE then
    pin <- buf_get 1 s ;;
    config <- buf_get 0 s ;;
    setPinMode pin config s
  else if command =? SET_DIGITAL_PIN_VALUE then
    match currentPinValueCallback cb with
    | Some handler =>
        pin <- buf_get 1 s ;;
        value <- buf_get 0 s ;;
        Ok (handler pin value s)
    | None => Ok s
    end
  else if command =? REPORT_ANALOG then
    match currentReportAnalogCallback cb with
    | Some handler =>
        d0 <- buf_get 0 s ;;
        Ok (handler (multiByteChannel s) d0 s)
    | None => Ok s
    end
  else if command =? REPORT_DIGITAL then
    match currentReportDigitalCallback cb with
    | Some handler =>
        d0 <- buf_get 0 s ;;
        Ok (handler (multiByteChannel s) d0 s)
    | None => Ok s
    end
  else Ok s.

(** The [switch (command)] on a command byte. *)
Definition start_command (command : Z) (s : Firmata) : res Firmata :=
  if (command =? ANALOG_MESSAGE) || (command =? DIGITAL_MESSAGE)
     || (command =? SET_PIN_MODE) || (command =? SET_DIGITAL_PIN_VALUE)
  then
    let s := set_waitForData 2 s in
    Ok (set_executeMultiByteCommand (to_byte command) s)
  else if (command =? REPORT_ANALOG) || (command =? REPORT_DIGITAL) then
    let s := set_waitForData 1 s in
    Ok (set_executeMultiByteCommand (to_byte command) s)
  else if command =? START_SYSEX then
    let s := set_parsingSysex true s in
    Ok (set_sysexBytesRead 0 s)
  else if command =? SYSTEM_RESET then systemReset s
  else if command =? REPORT_VERSION then Ok (printVersion s)
  else Ok s.

Definition overflow_text : list Z :=
  chars "Discarding input message, out of buffer".

Definition parse (inputData : Z) (s : Firmata) : res Firmata :=
  if inputData =? SYSTEM_RESET then
    let s := set_parsingSysex false s in
    let s := set_sysexBytesRead 0 s in
    let s := set_waitForData 0 s in
    systemReset s
  else if parsingSysex s then
    if inputData =? END_SYSEX then
      let s := set_parsingSysex false s in
      processSysexMessage s
    else
      s <- buf_set (sysexBytesRead s) inputData s ;;
      let s := set_sysexBytesRead (sysexBytesRead s + 1) s in
      if sysexBytesRead s =? MAX_DATA_BYTES LARGE_MEM_DEVICE then
        let s := sendString overflow_text s in
        let s := set_parsingSysex false s in
        let s := set_sysexBytesRead 0 s in
        Ok (set_waitForData 0 s)
      else Ok s
  else if (0 <? waitForData s) && (inputData <? 128) then
    let s := set_waitForData (to_byte (waitForData s - 1)) s in
    s <- buf_set (waitForData s) inputData s ;;
    if (waitForData s =? 0) && negb (executeMultiByteCommand s =? 0) then
      s <- execute_command s ;;
      Ok (set_executeMultiByteCommand 0 s)
    else Ok s
  else
    if inputData <? 0xF0 then
      let command := Z.land inputData 0xF0 in
      let s := set_multiByteChannel (Z.land inputData 0x0F) s in
      start_command command s
    else
      let command := inputData in
      start_command command s.

Definition isParsingMessage (s : Firmata) : bool :=
  (0 <? waitForData s) || parsingSysex s.

Definition isResetting (s : Firmata) : bool := resetting s.

(** Bytes handed to [parse] one after the other. *)
Fixpoint parse_bytes (input : list Z) (s : Firmata) : res Firmata :=
  match input with
  | [] => Ok s
  | inputData :: input' => s <- parse inputData s ;; parse_bytes input' s
  end.

(** [*(uint32_t* )(readCache + readCachePos)] on a little-endian target. *)
Definition load_word (b0 b1 b2 b3 : Z) : Z :=
  Z.lor (Z.lor b0 (Z.shiftl b1 8))
        (Z.lor (Z.shiftl b2 16) (Z.shiftl b3 24)).

(** [*(uint32_t* )(storedInputData + pos) = word]. *)
Definition store_word (pos word : Z) (s : Firmata) : res Firmata :=
  s <- buf_set pos (Z.land word 0xFF) s ;;
  s <- buf_set (pos + 1) (Z.land (Z.shiftr word 8) 0xFF) s ;;
  s <- buf_set (pos + 2) (Z.land (Z.shiftr word 16) 0xFF) s ;;
  buf_set (pos + 3) (Z.land (Z.shiftr word 24) 0xFF) s.

(** The first loop of the block reader: the unread part of [readCache]
    has more than four bytes exactly when [writeCachePos > readCachePos + 4].
    Returns the unread part and the state. *)
Fixpoint fast_scan (unread : list Z) (s : Firmata)
    : res (list Z * Firmata) :=
  match unread with
  | b0 :: b1 :: b2 :: b3 :: ((_ :: _) as unread') =>
      if parsingSysex s then
        let nextWord := load_word b0 b1 b2 b3 in
        if negb (Z.land nextWord 0x80808080 =? 0) then Ok (unread, s)
        else
          s <- store_word (sysexBytesRead s) nextWord s ;;
          fast_scan unread' (set_sysexBytesRead (sysexBytesRead s + 4) s)
      else Ok (unread, s)
  | _ => Ok (unread, s)
  end.

(** [processInput]: [rx] is what the transport holds; the result carries
    what is left of it. With [LARGE_MEM_DEVICE] a block of at most
    [LARGE_MEM_RCV_BUF_SIZE] bytes is read, otherwise a single byte. *)
Definition processInput (rx : list Z) (s : Firmata)
    : res (list Z * Firmata) :=
  if LARGE_MEM_DEVICE then
    let readCache := take (Z.to_nat LARGE_MEM_RCV_BUF_SIZE) rx in
    r <- fast_scan readCache s ;;
    let '(unread, s) := r in
    s <- parse_bytes unread s ;;
    Ok (drop (Z.to_nat LARGE_MEM_RCV_BUF_SIZE) rx, s)
  else
    match rx with
    | [] => Ok ([], s)
    | inputData :: rx' => s <- parse inputData s ;; Ok (rx', s)
    end.

End Engine.

(** The object before its constructor runs: static storage, all zero. *)
Definition zero_object (LARGE_MEM_DEVICE : bool) (TOTAL_PINS : nat) : Firmata :=
  mkFirmata [] 0 0 0 0 0
    (replicate (Z.to_nat (MAX_DATA_BYTES LARGE_MEM_DEVICE)) 0)
    false 0 (replicate TOTAL_PINS 0) (replicate TOTAL_PINS 0)
    false false [] [].

(** [FirmataClass::FirmataClass()]; no handler is attached yet. *)
Definition FirmataClass (LARGE_MEM_DEVICE : bool) (TOTAL_PINS : nat)
    : res Firmata :=
  systemReset LARGE_MEM_DEVICE no_callbacks
    (zero_object LARGE_MEM_DEVICE TOTAL_PINS).

(** ** More of the encoder, used by the sample handlers below *)

Definition sendDigitalPort (portNumber portData : Z) (s : Firmata) : Firmata :=
  let msg0 := to_byte (Z.lor DIGITAL_MESSAGE (Z.land portNumber 0xF)) in
  let msg1 := to_byte (to_byte portData mod 128) in
  let msg2 := to_byte (Z.shiftr portData 7) in
  set_out (out s ++ [msg0; msg1; msg2]) s.

Definition sendSysex (command : Z) (bytec : Z) (bytev : list Z) (s : Firmata)
    : Firmata :=
  let s := startSysex s in
  let s := write command s in
  let s := send_chars (take (Z.to_nat bytec) bytev) s in
  endSysex s.

(** ** Vocabulary of the statements *)

(** The parser is between messages: no fixed-length wait, no sysex. *)
Definition Idle (s : Firmata) : Prop :=
  parsingSysex s = false /\ waitForData s = 0.

(** The command a byte decodes to, as in the last branch of [parse]. *)
Definition command_of (inputData : Z) : Z :=
  if inputData <? 0xF0 then Z.land inputData 0xF0 else inputData.

(** The commands [parse] has a case for. *)
Definition recognized (command : Z) : bool :=
  (command =? ANALOG_MESSAGE) || (command =? DIGITAL_MESSAGE)
  || (command =? SET_PIN_MODE) || (command =? SET_DIGITAL_PIN_VALUE)
  || (command =? REPORT_ANALOG) || (command =? REPORT_DIGITAL)
  || (command =? START_SYSEX) || (command =? SYSTEM_RESET)
  || (command =? REPORT_VERSION).

(** A sysex data byte: any byte but the two the collecting branch of
    [parse] treats specially. *)
Definition data_byte (b : Z) : Prop :=
  0 <= b < 256 /\ b <> SYSTEM_RESET /\ b <> END_SYSEX.

(** [setPinMode(pin, X)] for each [X] of a list, in order. *)
Fixpoint setPinMode_each (cb : Callbacks) (pin : Z) (configs : list Z)
    (s : Firmata) : res Firmata :=
  match configs with
  | [] => Ok s
  | config :: configs' =>
      s <- setPinMode cb pin config s ;; setPinMode_each cb pin configs' s
  end.

(** The parser fields of two states agree. *)
Definition same_parser (s s' : Firmata) : Prop :=
  waitForData s' = waitForData s /\
  executeMultiByteCommand s' = executeMultiByteCommand s /\
  multiByteChannel s' = multiByteChannel s /\
  storedInputData s' = storedInputData s /\
  parsingSysex s' = parsingSysex s /\
  sysexBytesRead s' = sysexBytesRead s.

(** Every attached handler maps states satisfying [P] to such states. *)
Definition handlers_keep (P : Firmata -> Prop) (cb : Callbacks) : Prop :=
  (forall h, currentDigitalCallback cb = Some h ->
             forall a b s, P s -> P (h a b s)) /\
  (forall h, currentReportAnalogCallback cb = Some h ->
             forall a b s, P s -> P (h a b s)) /\
  (forall h, currentReportDigitalCallback cb = Some h ->
             forall a b s, P s -> P (h a b s)) /\
  (forall h, currentPinModeCallback cb = Some h ->
             forall a b s, P s -> P (h a b s)) /\
  (forall h, currentPinValueCallback cb = Some h ->
             forall a b s, P s -> P (h a b s)) /\
  (forall h, currentSystemResetCallback cb = Some h ->
             forall s, P s -> P (h s)) /\
  (forall h, currentStringCallback cb = Some h ->
             forall t s, P s -> P (h t s)) /\
  (forall h, currentSysexCallback cb = Some h ->
             forall c n v s, P s -> P (h c n v s)).

(** The parser invariant: the buffer has its declared size, the sysex
    write index is inside it, at most two argument bytes are awaited. *)
Definition parser_inv (LARGE_MEM_DEVICE : bool) (s : Firmata) : Prop :=
  Z.of_nat (length (storedInputData s)) = MAX_DATA_BYTES LARGE_MEM_DEVICE /\
  0 <= sysexBytesRead s < MAX_DATA_BYTES LARGE_MEM_DEVICE /\
  0 <= waitForData s <= 2.

(** The result is not an access to [storedInputData] outside its bounds. *)
Definition buffer_safe {A : Type} (r : res A) : Prop :=
  r <> Err BufferOutOfBounds.

(** The layout of the repacked analog write as the specification words
    it: command, channel, high seven bits, low seven bits. *)
Definition claimed_analog_payload (channel value : Z) : list Z :=
  [EXTENDED_ANALOG; channel; Z.land (Z.shiftr value 7) 0x7F;
   Z.land value 0x7F].

(** The bytes of the overflow diagnostic on the transport. *)
Definition overflow_message : list Z :=
  [START_SYSEX; STRING_DATA]
    ++ flat_map (fun c => [Z.land c 0x7F; Z.land (Z.shiftr c 7) 0x7F])
         overflow_text
    ++ [END_SYSEX].

(** ** Sample handlers

    Collaborators as a sketch would attach them: they answer on the
    transport through the encoder, and the reset handler calls
    [setPinMode(pin, PIN_MODE_INPUT)] for every pin. *)

Definition echo_digital (port value : Z) (s : Firmata) : Firmata :=
  sendDigitalPort port value s.

Definition echo_sysex (command argc : Z) (argv : list Z) (s : Firmata)
    : Firmata :=
  sendSysex command argc argv s.

Definition echo_string (text : list Z) (s : Firmata) : Firmata :=
  sendSysex STRING_DATA (Z.of_nat (length text)) text s.

Definition reset_pins (s : Firmata) : Firmata :=
  fold_left
    (fun acc pin =>
       match setPinMode no_callbacks (Z.of_nat pin) PIN_MODE_INPUT acc with
       | Ok acc' => acc'
       | Err _ => acc
       end)
    (seq 0 (length (pinConfig s))) s.

Definition sample_callbacks : Callbacks :=
  mkCallbacks (Some echo_digital) None None None None
    (Some reset_pins) (Some echo_string) (Some echo_sysex).

(** A pin-mode handler that reports the change on the transport. *)
Definition echo_pin_mode (pin mode : Z) (s : Firmata) : Firmata :=
  write mode (write pin (write SET_PIN_MODE s)).

(** The sample registry with the pin-mode handler attached as well. *)
Definition pin_mode_callbacks : Callbacks :=
  mkCallbacks (Some echo_digital) None None (Some echo_pin_mode) None
    (Some reset_pins) (Some echo_string) (Some echo_sysex).

(** A state with pin 1 marked [PIN_MODE_IGNORE] and a value on pin 0. *)
Definition sample_state : Firmata :=
  set_pinState [5; 1; 0; 0]
    (set_pinConfig [1; PIN_MODE_IGNORE; 0; 0] (zero_object false 4)).

(** The state [systemReset] has built when it calls the reset handler:
    parser fields cleared, buffer zeroed, [resetting] raised; the firmware
    identity, the pin table and the streams are those of [s]. *)
Definition reset_state (LARGE_MEM_DEVICE : bool) (s : Firmata) : Firmata :=
  mkFirmata (firmwareVersionName s) (firmwareVersionMajor s)
    (firmwareVersionMinor s) 0 0 0
    (replicate (Z.to_nat (MAX_DATA_BYTES LARGE_MEM_DEVICE)) 0)
    false 0 (pinConfig s) (pinState s) true
    (outputIsConsole s) (out s) (console s).

(** The state in which the payload [data] of a sysex message has been
    collected from the start of the buffer and the message is closed. *)
Definition collected (data : list Z) (s : Firmata) : Firmata :=
  set_parsingSysex false
    (set_sysexBytesRead (Z.of_nat (length data))
       (set_storedInputData
          (data ++ drop (length data) (storedInputData s)) s)).

(** The overflow path has been taken from [s]: the diagnostic is on the
    transport (and on the console when the transport is not the console),
    the parser is idle with an empty count. *)
Definition overflowed (s s' : Firmata) : Prop :=
  out s' = out s ++ overflow_message /\
  console s' = (if outputIsConsole s then console s
                else console s ++ overflow_text ++ [13; 10]) /\
  Idle s' /\ sysexBytesRead s' = 0 /\
  pinConfig s' = pinConfig s /\ pinState s' = pinState s.

(** A call ended well for the buffer: it returned a state satisfying the
    parser invariant, or it stopped on a pin number outside the pin table;
    it made no access to [storedInputData] outside the array. *)
Definition buffer_sound (LARGE_MEM_DEVICE : bool) (r : res Firmata) : Prop :=
  (exists s', r = Ok s' /\ parser_inv LARGE_MEM_DEVICE s') \/
  r = Err PinOutOfBounds.

(** The buffer and count after a completed analog write has been repacked
    as an extended-analog sysex message. *)
Definition repacked_analog (channel low7 high7 : Z) (s : Firmata) : Firmata :=
  set_sysexBytesRead 4
    (set_storedInputData
       ([EXTENDED_ANALOG; channel; low7; high7; END_SYSEX]
          ++ drop 5 (storedInputData s))
       (set_executeMultiByteCommand ANALOG_MESSAGE
          (set_waitForData 0 (set_multiByteChannel channel s)))).

(** The mode of [pin] is the IGNORE sentinel. *)
Definition pin_ignored (pin : Z) (s : Firmata) : Prop :=
  pinConfig s !! Z.to_nat pin = Some PIN_MODE_IGNORE.

(** Whenever the call returns a state, the state satisfies [P]. *)
Definition result_keeps (P : Firmata -> Prop) (r : res Firmata) : Prop :=
  forall s', r = Ok s' -> P s'.

(** ** The rest of the public interface *)

Definition setFirmwareNameAndVersion (name : list Z) (major minor : Z)
    (s : Firmata) : Firmata :=
  mkFirmata name major minor (waitForData s) (executeMultiByteCommand s)
    (multiByteChannel s) (storedInputData s) (parsingSysex s)
    (sysexBytesRead s) (pinConfig s) (pinState s) (resetting s)
    (outputIsConsole s) (out s) (console s).

Definition sendAnalog (analogPin value : Z) (s : Firmata) : Firmata :=
  if analogPin <=? 15 then
    let s := write (Z.lor ANALOG_MESSAGE (Z.land analogPin 0xF)) s in
    sendValueAsTwo7bitBytes value s
  else
    let s := startSysex s in
    let s := write EXTENDED_ANALOG s in
    let s := write analogPin s in
    let s := sendValueAsTwo7bitBytes value s in
    endSysex s.

(** [sendString(byte command, const char *string)]: [None] is the null
    pointer, [Some text] a string whose characters before the terminating
    NUL are [text]; the length goes through a [byte]. *)
Definition sendString_command (command : Z) (string : option (list Z))
    (s : Firmata) : Firmata :=
  match string with
  | None => s
  | Some text =>
      sendSysex command (to_byte (Z.of_nat (length text))) text s
  end.

(** [attach(byte command, callbackFunction newFunction)]. *)
Definition attach (command : Z)
    (newFunction : option (Z -> Z -> Firmata -> Firmata)) (cb : Callbacks)
    : Callbacks :=
  if command =? DIGITAL_MESSAGE then
    mkCallbacks newFunction (currentReportAnalogCallback cb)
      (currentReportDigitalCallback cb) (currentPinModeCallback cb)
      (currentPinValueCallback cb) (currentSystemResetCallback cb)
      (currentStringCallback cb) (currentSysexCallback cb)
  else if command =? REPORT_ANALOG then
    mkCallbacks (currentDigitalCallback cb) newFunction
      (currentReportDigitalCallback cb) (currentPinModeCallback cb)
      (currentPinValueCallback cb) (currentSystemResetCallback cb)
      (currentStringCallback cb) (currentSysexCallback cb)
  else if command =? REPORT_DIGITAL then
    mkCallbacks (currentDigitalCallback cb) (currentReportAnalogCallback cb)
      newFunction (currentPinModeCallback cb)
      (currentPinValueCallback cb) (currentSystemResetCallback cb)
      (currentStringCallback cb) (currentSysexCallback cb)
  else if command =? SET_PIN_MODE then
    mkCallbacks (currentDigitalCallback cb) (currentReportAnalogCallback cb)
      (currentReportDigitalCallback cb) newFunction
      (currentPinValueCallback cb) (currentSystemResetCallback cb)
      (currentStringCallback cb) (currentSysexCallback cb)
  else if command =? SET_DIGITAL_PIN_VALUE then
    mkCallbacks (currentDigitalCallback cb) (currentReportAnalogCallback cb)
      (currentReportDigitalCallback cb) (currentPinModeCallback cb)
      newFunction (currentSystemResetCallback cb)
      (currentStringCallback cb) (currentSysexCallback cb)
  else cb.

(** [attach(byte command, systemResetCallbackFunction newFunction)]. *)
Definition attach_systemReset (command : Z)
    (newFunction : option (Firmata -> Firmata)) (cb : Callbacks) : Callbacks :=
  if command =? SYSTEM_RESET then
    mkCallbacks (currentDigitalCallback cb) (currentReportAnalogCallback cb)
      (currentReportDigitalCallback cb) (currentPinModeCallback cb)
      (currentPinValueCallback cb) newFunction
      (currentStringCallback cb) (currentSysexCallback cb)
  else cb.

(** [attach(byte command, stringCallbackFunction newFunction)]. *)
Definition attach_string (command : Z)
    (newFunction : option (list Z -> Firmata -> Firmata)) (cb : Callbacks)
    : Callbacks :=
  if command =? STRING_DATA then
    mkCallbacks (currentDigitalCallback cb) (currentReportAnalogCallback cb)
      (currentReportDigitalCallback cb) (currentPinModeCallback cb)
      (currentPinValueCallback cb) (currentSystemResetCallback cb)
      newFunction (currentSysexCallback cb)
  else cb.

(** [attach(byte command, sysexCallbackFunction newFunction)]; the command
    is not looked at. *)
Definition attach_sysex (command : Z)
    (newFunction : option (Z -> Z -> list Z -> Firmata -> Firmata))
    (cb : Callbacks) : Callbacks :=
  mkCallbacks (currentDigitalCallback cb) (currentReportAnalogCallback cb)
    (currentReportDigitalCallback cb) (currentPinModeCallback cb)
    (currentPinValueCallback cb) (currentSystemResetCallback cb)
    (currentStringCallback cb) newFunction.

Definition detach (command : Z) (cb : Callbacks) : Callbacks :=
  if command =? SYSTEM_RESET then
    mkCallbacks (currentDigitalCallback cb) (currentReportAnalogCallback cb)
      (currentReportDigitalCallback cb) (currentPinModeCallback cb)
      (currentPinValueCallback cb) None
      (currentStringCallback cb) (currentSysexCallback cb)
  else if command =? STRING_DATA then
    mkCallbacks (currentDigitalCallback cb) (currentReportAnalogCallback cb)
      (currentReportDigitalCallback cb) (currentPinModeCallback cb)
      (currentPinValueCallback cb) (currentSystemResetCallback cb)
      None (currentSysexCallback cb)
  else if command =? START_SYSEX then
    mkCallbacks (currentDigitalCallback cb) (currentReportAnalogCallback cb)
      (currentReportDigitalCallback cb) (currentPinModeCallback cb)
      (currentPinValueCallback cb) (currentSystemResetCallback cb)
      (currentStringCallback cb) None
  else attach command None cb.

(** The sketch's loop: [processInput] called [calls] times in a row on a
    transport holding [rx]. *)
Fixpoint poll (LARGE_MEM_DEVICE : bool) (cb : Callbacks) (calls : nat)
    (rx : list Z) (s : Firmata) : res (list Z * Firmata) :=
  match calls with
  | O => Ok (rx, s)
  | S calls' =>
      r <- processInput LARGE_MEM_DEVICE cb rx s ;;
      poll LARGE_MEM_DEVICE cb calls' (fst r) (snd r)
  end.

(** ** Vocabulary of the further statements *)

(** The two bytes [sendValueAsTwo7bitBytes] puts on the wire. *)
Definition two7bit (value : Z) : list Z :=
  [Z.land value 0x7F; Z.land (Z.shiftr value 7) 0x7F].

(** A payload of two-7-bit pairs read back as the string case of
    [processSysexMessage] reads it: low group plus high group shifted by
    seven, kept in a byte; a last byte without partner is dropped. *)
Fixpoint decode_pairs (payload : list Z) : list Z :=
  match payload with
  | low :: high :: payload' =>
      to_byte (low + Z.shiftl high 7) :: decode_pairs payload'
  | _ => []
  end.

(** A byte that travels as data: its top bit is clear. *)
Definition seven_bit (b : Z) : Prop := 0 <= b < 128.

(** The engine fields a handler or a caller can observe besides the
    parser: pin table and streams. *)
Definition same_io (s s' : Firmata) : Prop :=
  pinConfig s' = pinConfig s /\ pinState s' = pinState s /\
  out s' = out s /\ console s' = console s.

(** * Properties *)

(** ** Bit operations as arithmetic *)

Lemma mask7 (x : Z) : Z.land x 0x7F = x mod 128.
Proof. change 0x7F with (Z.ones 7). now rewrite Z.land_ones by lia. Qed.

Lemma mask4 (x : Z) : Z.land x 0x0F = x mod 16.
Proof. change 0x0F with (Z.ones 4). now rewrite Z.land_ones by lia. Qed.

Lemma mask32 (x : Z) : Z.land x 0xFFFFFFFF = x mod 2 ^ 32.
Proof. change 0xFFFFFFFF with (Z.ones 32). now rewrite Z.land_ones by lia. Qed.

Lemma lor_shiftl_add (a b k : Z) :
  0 <= k -> 0 <= a < 2 ^ k -> Z.lor a (Z.shiftl b k) = a + b * 2 ^ k.
Proof.
  intros Hk Ha.
  rewrite <- (Z.shiftl_mul_pow2 b k) by assumption.
  rewrite <- Z.add_lor_land.
  assert (Hdisj : Z.land a (Z.shiftl b k) = 0).
  { apply Z.bits_inj'. intros n Hn.
    rewrite Z.land_spec, Z.bits_0.
    destruct (Z.lt_ge_cases n k) as [Hlt | Hge].
    - rewrite (Z.shiftl_spec_low b k n Hlt). apply andb_false_r.
    - rewrite <- (Z.mod_small a (2 ^ k)) by assumption.
      rewrite Z.mod_pow2_bits_high by lia. reflexivity. }
  rewrite Hdisj. lia.
Qed.

Lemma written_app (s s' : Firmata) (l : list Z) :
  out s' = out s ++ l -> written s s' = l.
Proof. intros E. unfold written. rewrite E. apply drop_app_length. Qed.

Lemma to_byte_mod128 (x : Z) : to_byte (x mod 128) = x mod 128.
Proof.
  unfold to_byte. apply Z.mod_small.
  pose proof (Z.mod_pos_bound x 128). lia.
Qed.

Lemma to_byte_mod16 (x : Z) : to_byte (x mod 16) = x mod 16.
Proof.
  unfold to_byte. apply Z.mod_small.
  pose proof (Z.mod_pos_bound x 16). lia.
Qed.

Lemma sendPackedUInt32_out (v : Z) (s : Firmata) :
  out (sendPackedUInt32 v s) =
    out s ++ [v mod 128; (v / 2 ^ 7) mod 128; (v / 2 ^ 14) mod 128;
              (v / 2 ^ 21) mod 128; (v / 2 ^ 28) mod 16].
Proof.
  unfold sendPackedUInt32, write; cbn [out set_out].
  rewrite !mask7, mask4, !Z.shiftr_div_pow2 by lia.
  rewrite !to_byte_mod128, !to_byte_mod16.
  rewrite <- !app_assoc. reflexivity.
Qed.

Lemma decodePackedUInt32_groups (g0 g1 g2 g3 g4 : Z) (rest : list Z) :
  0 <= g0 < 128 -> 0 <= g1 < 128 -> 0 <= g2 < 128 -> 0 <= g3 < 128 ->
  0 <= g4 < 16 ->
  decodePackedUInt32 (g0 :: g1 :: g2 :: g3 :: g4 :: rest) =
    Some (g0 + g1 * 2 ^ 7 + g2 * 2 ^ 14 + g3 * 2 ^ 21 + g4 * 2 ^ 28).
Proof.
  intros H0 H1 H2 H3 H4.
  unfold decodePackedUInt32, arg; cbn [lookup list_lookup mbind option_bind].
  f_equal. unfold to_uint32.
  rewrite !Z.shiftl_mul_pow2 by lia.
  rewrite !Z.mod_small by lia.
  rewrite <- (Z.shiftl_mul_pow2 g1 7), lor_shiftl_add by lia.
  rewrite <- (Z.shiftl_mul_pow2 g2 14), lor_shiftl_add by lia.
  rewrite <- (Z.shiftl_mul_pow2 g3 21), lor_shiftl_add by lia.
  rewrite <- (Z.shiftl_mul_pow2 g4 28), lor_shiftl_add by lia.
  rewrite ?Z.shiftl_mul_pow2 by lia. reflexivity.
Qed.

Lemma unpack32 (v : Z) :
  0 <= v < 2 ^ 32 ->
  v mod 128 + (v / 2 ^ 7) mod 128 * 2 ^ 7 + (v / 2 ^ 14) mod 128 * 2 ^ 14
    + (v / 2 ^ 21) mod 128 * 2 ^ 21 + (v / 2 ^ 28) mod 16 * 2 ^ 28 = v.
Proof.
  intros Hv.
  change (2 ^ 7) with 128. change (2 ^ 14) with 16384.
  change (2 ^ 21) with 2097152. change (2 ^ 28) with 268435456.
  change (2 ^ 32) with 4294967296 in Hv.
  Z.to_euclidean_division_equations. lia.
Qed.

Lemma sendPackedUInt32_written (v : Z) (s : Firmata) :
  written s (sendPackedUInt32 v s) =
    [v mod 128; (v / 2 ^ 7) mod 128; (v / 2 ^ 14) mod 128;
     (v / 2 ^ 21) mod 128; (v / 2 ^ 28) mod 16].
Proof. apply written_app, sendPackedUInt32_out. Qed.

Lemma decodePackedUInt32_packed (v : Z) (rest : list Z) :
  0 <= v < 2 ^ 32 ->
  decodePackedUInt32
    ([v mod 128; (v / 2 ^ 7) mod 128; (v / 2 ^ 14) mod 128;
      (v / 2 ^ 21) mod 128; (v / 2 ^ 28) mod 16] ++ rest) = Some v.
Proof.
  intros Hv. cbn [app].
  rewrite decodePackedUInt32_groups;
    try (apply Z.mod_pos_bound; lia).
  now rewrite unpack32.
Qed.

Lemma sendPackedUInt14_written (v : Z) (s : Firmata) :
  written s (sendPackedUInt14 v s) = [v mod 128; (v / 2 ^ 7) mod 128].
Proof.
  apply written_app.
  unfold sendPackedUInt14, write; cbn [out set_out].
  rewrite !mask7, !Z.shiftr_div_pow2 by lia.
  rewrite !to_byte_mod128, <- !app_assoc. reflexivity.
Qed.

Lemma decodePackedUInt14_packed (v : Z) :
  0 <= v <= 16383 ->
  decodePackedUInt14 [v mod 128; (v / 2 ^ 7) mod 128] = Some v.
Proof.
  intros Hv.
  unfold decodePackedUInt14, arg; cbn [lookup list_lookup mbind option_bind].
  f_equal. unfold to_uint32, to_uint16.
  pose proof (Z.mod_pos_bound v 128).
  pose proof (Z.mod_pos_bound (v / 2 ^ 7) 128).
  rewrite Z.shiftl_mul_pow2 by lia.
  rewrite (Z.mod_small (_ * 2 ^ 7)) by lia.
  rewrite <- Z.shiftl_mul_pow2, lor_shiftl_add by lia.
  rewrite Z.mod_small by lia.
  change (2 ^ 7) with 128.
  Z.to_euclidean_division_equations. lia.
Qed.

Lemma sendPackedUInt64_written (v : Z) (s : Firmata) :
  0 <= v < 2 ^ 64 ->
  written s (sendPackedUInt64 v s) =
    written s (sendPackedUInt32 (v mod 2 ^ 32) s)
      ++ written s (sendPackedUInt32 (v / 2 ^ 32) s).
Proof.
  intros Hv. rewrite !sendPackedUInt32_written.
  apply written_app. unfold sendPackedUInt64.
  rewrite !sendPackedUInt32_out, mask32, Z.shiftr_div_pow2 by lia.
  unfold to_uint32. rewrite Z.mod_mod by lia.
  rewrite (Z.mod_small (v / 2 ^ 32)).
  - now rewrite <- app_assoc.
  - split; [apply Z.div_pos; lia |].
    apply Z.div_lt_upper_bound; [lia |].
    change (2 ^ 32 * 2 ^ 32) with (2 ^ 64). lia.
Qed.

(** C5. Packed integers survive the wire: decoding the five bytes written by
    [sendPackedUInt32] gives back any 32-bit value, the fifth byte holding
    bits 28 to 31 only; [sendPackedUInt14] followed by [decodePackedUInt14]
    is the identity on 0..16383, and the 64-bit pair is the identity on all
    64-bit values. *)
Theorem packed_integers_round_trip (s : Firmata) (v32 v14 v64 : Z) :
  0 <= v32 < 2 ^ 32 -> 0 <= v14 <= 16383 -> 0 <= v64 < 2 ^ 64 ->
  length (written s (sendPackedUInt32 v32 s)) = 5%nat /\
  decodePackedUInt32 (written s (sendPackedUInt32 v32 s)) = Some v32 /\
  written s (sendPackedUInt32 v32 s) !! 4%nat = Some (Z.shiftr v32 28) /\
  0 <= Z.shiftr v32 28 < 16 /\
  decodePackedUInt14 (written s (sendPackedUInt14 v14 s)) = Some v14 /\
  length (written s (sendPackedUInt64 v64 s)) = 10%nat /\
  decodePackedUInt64 (written s (sendPackedUInt64 v64 s)) = Some v64.
Proof.
  intros H32 H14 H64.
  assert (Htop : 0 <= v32 / 2 ^ 28 < 16).
  { split; [apply Z.div_pos; lia |].
    apply Z.div_lt_upper_bound; [lia |].
    change (2 ^ 28 * 16) with (2 ^ 32). lia. }
  repeat split.
  - now rewrite sendPackedUInt32_written.
  - rewrite sendPackedUInt32_written.
    apply (decodePackedUInt32_packed v32 [] H32).
  - rewrite sendPackedUInt32_written, Z.shiftr_div_pow2 by lia.
    cbn [lookup list_lookup]. now rewrite Z.mod_small.
  - rewrite Z.shiftr_div_pow2 by lia. apply Htop.
  - rewrite Z.shiftr_div_pow2 by lia. apply Htop.
  - rewrite sendPackedUInt14_written. now apply decodePackedUInt14_packed.
  - rewrite sendPackedUInt64_written, !sendPackedUInt32_written by assumption.
    reflexivity.
  - rewrite sendPackedUInt64_written, !sendPackedUInt32_written by assumption.
    assert (Hlo : 0 <= v64 mod 2 ^ 32 < 2 ^ 32)
      by (apply Z.mod_pos_bound; lia).
    assert (Hhi : 0 <= v64 / 2 ^ 32 < 2 ^ 32).
    { split; [apply Z.div_pos; lia |].
      apply Z.div_lt_upper_bound; [lia |].
      change (2 ^ 32 * 2 ^ 32) with (2 ^ 64). lia. }
    unfold decodePackedUInt64.
    rewrite (decodePackedUInt32_packed _ _ Hlo).
    cbn [app drop mbind option_bind].
    pose proof (decodePackedUInt32_packed _ [] Hhi) as Ehi.
    rewrite app_nil_r in Ehi. rewrite Ehi.
    cbn [mbind option_bind]. f_equal.
    unfold to_uint64. rewrite Z.shiftl_mul_pow2 by lia.
    rewrite Z.add_0_l.
    rewrite (Z.mod_small (v64 mod 2 ^ 32)) by lia.
    rewrite (Z.mod_small (_ * 2 ^ 32)) by lia.
    rewrite Z.mod_small by lia.
    pose proof (Z.div_mod v64 (2 ^ 32)). lia.
Qed.

Lemma packed_integers_round_trip_witness :
  decodePackedUInt32
    (written (zero_object false 4)
       (sendPackedUInt32 0xDEADBEEF (zero_object false 4))) = Some 0xDEADBEEF /\
  decodePackedUInt14
    (written (zero_object false 4)
       (sendPackedUInt14 16383 (zero_object false 4))) = Some 16383 /\
  decodePackedUInt64
    (written (zero_object false 4)
       (sendPackedUInt64 0xFEDCBA9876543210 (zero_object false 4)))
    = Some 0xFEDCBA9876543210.
Proof.
  destruct (packed_integers_round_trip (zero_object false 4)
              0xDEADBEEF 16383 0xFEDCBA9876543210)
    as (_ & E32 & _ & _ & E14 & _ & E64); [lia | lia | lia |].
  exact (conj E32 (conj E14 E64)).
Defined.

(** ** The pin table *)

Lemma in_range_true {A : Type} (l : list A) (i : Z) :
  0 <= i -> (Z.to_nat i < length l)%nat -> in_range l i = true.
Proof.
  intros H0 Hlt. unfold in_range.
  apply andb_true_iff. split; [apply Z.leb_le | apply Z.ltb_lt]; lia.
Qed.

Lemma in_range_spec {A : Type} (l : list A) (i : Z) :
  in_range l i = true <-> 0 <= i < Z.of_nat (length l).
Proof.
  unfold in_range. rewrite andb_true_iff, Z.leb_le, Z.ltb_lt. tauto.
Qed.

Lemma pin_get_lookup (table : list Z) (pin v : Z) :
  0 <= pin -> table !! Z.to_nat pin = Some v -> pin_get table pin = Ok v.
Proof.
  intros Hpin Hv. unfold pin_get.
  pose proof (lookup_lt_Some _ _ _ Hv) as Hlt.
  now rewrite in_range_true, Hv.
Qed.

Lemma setPinMode_ignored (cb : Callbacks) (pin config : Z) (s : Firmata) :
  0 <= pin ->
  pinConfig s !! Z.to_nat pin = Some PIN_MODE_IGNORE ->
  setPinMode cb pin config s = Ok s.
Proof.
  intros Hpin Hmode. unfold setPinMode.
  now rewrite (pin_get_lookup _ _ _ Hpin Hmode).
Qed.


(** ** Command bytes *)

Lemma recognized_false (command : Z) :
  recognized command = false ->
  (command =? ANALOG_MESSAGE) = false /\
  (command =? DIGITAL_MESSAGE) = false /\
  (command =? SET_PIN_MODE) = false /\
  (command =? SET_DIGITAL_PIN_VALUE) = false /\
  (command =? REPORT_ANALOG) = false /\
  (command =? REPORT_DIGITAL) = false /\
  (command =? START_SYSEX) = false /\
  (command =? SYSTEM_RESET) = false /\
  (command =? REPORT_VERSION) = false.
Proof.
  unfold recognized. rewrite !orb_false_iff. tauto.
Qed.

Lemma start_command_unrecognized
    (large : bool) (cb : Callbacks) (command : Z) (s : Firmata) :
  recognized command = false -> start_command large cb command s = Ok s.
Proof.
  intros H. apply recognized_false in H.
  destruct H as (H1 & H2 & H3 & H4 & H5 & H6 & H7 & H8 & H9).
  unfold start_command. now rewrite H1, H2, H3, H4, H5, H6, H7, H8, H9.
Qed.

(** C9 as stated fails: in the idle parser the byte 0x85 decodes to the
    command 0x80, which has no case, and yet the channel field changes
    from 0 to 5. *)
Lemma unrecognized_byte_rewrites_channel :
  Idle (zero_object false 4) /\
  recognized (command_of 0x85) = false /\
  parse false no_callbacks 0x85 (zero_object false 4)
    = Ok (set_multiByteChannel 5 (zero_object false 4)) /\
  parse false no_callbacks 0x85 (zero_object false 4)
    <> Ok (zero_object false 4).
Proof.
  repeat split; discriminate.
Qed.

(** C9, amended. In the idle parser a byte whose decoded command has no
    case leaves the parser idle and changes nothing (buffer, counters,
    pending command, pin table, transport: no dispatch, no handler, no
    diagnostic) except the channel field, which takes the byte's low nibble
    when the byte is below 0xF0. *)
Theorem unrecognized_byte_ignored
    (large : bool) (cb : Callbacks) (b : Z) (s : Firmata) :
  Idle s -> 0 <= b < 256 -> recognized (command_of b) = false ->
  parse large cb b s =
    Ok (if b <? 0xF0 then set_multiByteChannel (Z.land b 0x0F) s else s) /\
  (0xF0 <= b -> parse large cb b s = Ok s) /\
  exists s', parse large cb b s = Ok s' /\ Idle s' /\
    isParsingMessage s' = false /\
    storedInputData s' = storedInputData s /\
    sysexBytesRead s' = sysexBytesRead s /\
    executeMultiByteCommand s' = executeMultiByteCommand s /\
    pinConfig s' = pinConfig s /\ pinState s' = pinState s /\
    out s' = out s /\ console s' = console s.
Proof.
  intros [Hsys Hwait] Hb Hcmd.
  assert (E : parse large cb b s =
    Ok (if b <? 0xF0 then set_multiByteChannel (Z.land b 0x0F) s else s)).
  { unfold parse.
    assert (Hreset : (b =? SYSTEM_RESET) = false).
    { apply Z.eqb_neq. intros ->. discriminate Hcmd. }
    rewrite Hreset, Hsys, Hwait. cbn [Z.ltb Z.compare andb].
    unfold command_of in Hcmd.
    destruct (b <? 0xF0); now apply start_command_unrecognized. }
  split; [exact E |]. split.
  - intros Hhi. rewrite E.
    now replace (b <? 0xF0) with false by (symmetry; apply Z.ltb_ge; lia).
  - eexists. split; [exact E |].
    unfold Idle, isParsingMessage.
    destruct (b <? 0xF0); cbn; rewrite ?Hsys, ?Hwait; repeat split;
      reflexivity.
Qed.

Lemma unrecognized_byte_ignored_witness :
  parse false sample_callbacks 0x85 (zero_object false 4)
    = Ok (set_multiByteChannel 5 (zero_object false 4)) /\
  parse false sample_callbacks 0xF1 (zero_object false 4)
    = Ok (zero_object false 4).
Proof.
  split.
  - apply (unrecognized_byte_ignored false sample_callbacks 0x85
             (zero_object false 4));
      [split; reflexivity | lia | reflexivity].
  - apply (unrecognized_byte_ignored false sample_callbacks 0xF1
             (zero_object false 4));
      [split; reflexivity | lia | reflexivity | lia].
Defined.

(** ** The input buffer *)

Lemma buf_set_ok (i v : Z) (s : Firmata) :
  0 <= i -> (Z.to_nat i < length (storedInputData s))%nat ->
  buf_set i v s
    = Ok (set_storedInputData (<[Z.to_nat i := v]> (storedInputData s)) s).
Proof. intros H0 Hlt. unfold buf_set. now rewrite in_range_true. Qed.

Lemma buf_get_ok (i v : Z) (s : Firmata) :
  0 <= i -> storedInputData s !! Z.to_nat i = Some v -> buf_get i s = Ok v.
Proof.
  intros H0 Hv. unfold buf_get.
  pose proof (lookup_lt_Some _ _ _ Hv) as Hlt.
  now rewrite in_range_true, Hv.
Qed.

Lemma to_byte_small (z : Z) : 0 <= z < 256 -> to_byte z = z.
Proof. intros H. unfold to_byte. now apply Z.mod_small. Qed.

(** ** Bytes outside a sysex message *)

Lemma channel_split (command channel : Z) :
  In command [ANALOG_MESSAGE; DIGITAL_MESSAGE; REPORT_ANALOG; REPORT_DIGITAL] ->
  0 <= channel < 16 ->
  Z.land (command + channel) 0xF0 = command /\
  Z.land (command + channel) 0x0F = channel.
Proof.
  intros Hc Hn.
  assert (Hall : Forall (fun n => Z.land (command + n) 0xF0 = command /\
                                  Z.land (command + n) 0x0F = n)
                        (seqZ 0 16)).
  { cbn [In] in Hc.
    destruct Hc as [<- | [<- | [<- | [<- | []]]]];
      vm_compute; repeat constructor. }
  rewrite Forall_forall in Hall. apply Hall, elem_of_seqZ. lia.
Qed.

(** A byte of 128 or more, reset apart, met outside a sysex message is
    taken as a command byte. *)
Lemma parse_command_byte
    (large : bool) (cb : Callbacks) (b : Z) (s : Firmata) :
  parsingSysex s = false -> 128 <= b -> b <> SYSTEM_RESET ->
  parse large cb b s =
    if b <? 0xF0
    then start_command large cb (Z.land b 0xF0)
           (set_multiByteChannel (Z.land b 0x0F) s)
    else start_command large cb b s.
Proof.
  intros Hsys Hb Hreset. unfold parse.
  apply Z.eqb_neq in Hreset. rewrite Hreset, Hsys.
  replace (b <? 128) with false by (symmetry; apply Z.ltb_ge; lia).
  now rewrite andb_false_r.
Qed.

(** A data byte met while argument bytes are awaited goes to index
    [waitForData - 1]; the completed command then runs on that state. *)
Lemma parse_argument_byte
    (large : bool) (cb : Callbacks) (b : Z) (s : Firmata) :
  parsingSysex s = false -> 0 < waitForData s <= 255 ->
  (Z.to_nat (waitForData s) <= length (storedInputData s))%nat ->
  0 <= b < 128 ->
  parse large cb b s =
    let stored :=
      set_storedInputData
        (<[Z.to_nat (waitForData s - 1) := b]> (storedInputData s))
        (set_waitForData (waitForData s - 1) s) in
    if (waitForData s =? 1) && negb (executeMultiByteCommand s =? 0)
    then s' <- execute_command cb stored ;;
         Ok (set_executeMultiByteCommand 0 s')
    else Ok stored.
Proof.
  intros Hsys Hwait Hlen Hb. unfold parse.
  replace (b =? SYSTEM_RESET) with false
    by (symmetry; apply Z.eqb_neq; unfold SYSTEM_RESET; lia).
  rewrite Hsys.
  replace (0 <? waitForData s) with true by (symmetry; apply Z.ltb_lt; lia).
  replace (b <? 128) with true by (symmetry; apply Z.ltb_lt; lia).
  cbn [andb].
  rewrite (to_byte_small (waitForData s - 1)) by lia.
  rewrite buf_set_ok;
    cbn [waitForData storedInputData set_waitForData]; try lia.
  cbn [bind waitForData executeMultiByteCommand set_storedInputData
       set_waitForData].
  replace (waitForData s - 1 =? 0) with (waitForData s =? 1); [reflexivity |].
  destruct (Z.eqb_spec (waitForData s) 1), (Z.eqb_spec (waitForData s - 1) 0);
    try reflexivity; lia.
Qed.

Lemma parse_two_byte_command
    (large : bool) (cb : Callbacks) (command channel : Z) (s : Firmata) :
  In command [ANALOG_MESSAGE; DIGITAL_MESSAGE] ->
  0 <= channel < 16 -> parsingSysex s = false ->
  parse large cb (command + channel) s =
    Ok (set_executeMultiByteCommand command
          (set_waitForData 2 (set_multiByteChannel channel s))).
Proof.
  intros Hc Hn Hsys.
  assert (Hc' : In command
            [ANALOG_MESSAGE; DIGITAL_MESSAGE; REPORT_ANALOG; REPORT_DIGITAL])
    by (cbn [In] in *; tauto).
  destruct (channel_split command channel Hc' Hn) as [Ehi Elo].
  assert (Hrange : 128 <= command + channel < 0xF0)
    by (cbn [In] in Hc; unfold ANALOG_MESSAGE, DIGITAL_MESSAGE in Hc; lia).
  rewrite parse_command_byte; [| assumption | lia | unfold SYSTEM_RESET; lia].
  replace (command + channel <? 0xF0) with true
    by (symmetry; apply Z.ltb_lt; lia).
  rewrite Ehi, Elo.
  cbn [In] in Hc. destruct Hc as [<- | [<- | []]]; reflexivity.
Qed.


(** The three bytes of a two-argument message: the completed command runs
    with the second argument at index 0 and the first at index 1. *)
Lemma two_byte_message
    (large : bool) (cb : Callbacks) (command channel first second : Z)
    (s : Firmata) :
  In command [ANALOG_MESSAGE; DIGITAL_MESSAGE] ->
  parsingSysex s = false -> (2 <= length (storedInputData s))%nat ->
  0 <= channel < 16 -> 0 <= first < 128 -> 0 <= second < 128 ->
  parse_bytes large cb [command + channel; first; second] s =
    (s' <- execute_command cb
             (set_storedInputData
                (<[0%nat := second]> (<[1%nat := first]> (storedInputData s)))
                (set_executeMultiByteCommand command
                   (set_waitForData 0 (set_multiByteChannel channel s)))) ;;
     Ok (set_executeMultiByteCommand 0 s')).
Proof.
  intros Hc Hsys Hlen Hch H1 H2.
  assert (Hnz : (command =? 0) = false)
    by (cbn [In] in Hc; destruct Hc as [<- | [<- | []]]; reflexivity).
  cbn [parse_bytes].
  rewrite parse_two_byte_command by assumption. cbn [bind].
  rewrite parse_argument_byte; cbn; try lia; try assumption.
  rewrite parse_argument_byte; cbn; rewrite ?length_insert;
    try lia; try assumption.
  rewrite Hnz. cbn.
  destruct (execute_command cb _); reflexivity.
Qed.


(** ** The analog write *)

Lemma FirmataClass_constructed (large : bool) (TOTAL_PINS : nat) :
  FirmataClass large TOTAL_PINS = Ok (zero_object large TOTAL_PINS).
Proof. destruct large; vm_compute; reflexivity. Qed.

Lemma buffer_five (l : list Z) :
  (5 <= length l)%nat ->
  exists x0 x1 x2 x3 x4, l = x0 :: x1 :: x2 :: x3 :: x4 :: drop 5 l.
Proof.
  intros H.
  destruct l as [| x0 [| x1 [| x2 [| x3 [| x4 l]]]]]; cbn in H; try lia.
  now exists x0, x1, x2, x3, x4.
Qed.

Ltac buf_side Hbuf :=
  cbn [storedInputData set_storedInputData set_sysexBytesRead
       set_waitForData set_executeMultiByteCommand set_multiByteChannel
       set_parsingSysex];
  rewrite ?length_insert, ?Hbuf; cbn [length]; lia.

Lemma execute_analog
    (cb : Callbacks) (t : Firmata) (d0 d1 x2 x3 x4 : Z) (rest : list Z) :
  executeMultiByteCommand t = ANALOG_MESSAGE ->
  storedInputData t = d0 :: d1 :: x2 :: x3 :: x4 :: rest ->
  execute_command cb t =
    processSysexMessage cb
      (set_sysexBytesRead 4
         (set_storedInputData
            (EXTENDED_ANALOG :: multiByteChannel t :: d1 :: d0
               :: END_SYSEX :: rest) t)).
Proof.
  intros Hcmd Hbuf. unfold execute_command. rewrite Hcmd.
  change (ANALOG_MESSAGE =? ANALOG_MESSAGE) with true. cbn iota.
  rewrite (buf_get_ok 0 d0) by (rewrite ?Hbuf; first [lia | reflexivity]).
  rewrite (buf_get_ok 1 d1) by (rewrite ?Hbuf; first [lia | reflexivity]).
  cbn [bind].
  do 5 (rewrite buf_set_ok by buf_side Hbuf; cbn [bind]).
  f_equal. destruct t. cbn in *. subst. reflexivity.
Qed.

(** The repacked analog write goes to the generic sysex handler. *)
Lemma repacked_analog_dispatch
    (cb : Callbacks) (channel low7 high7 : Z) (s : Firmata) :
  processSysexMessage cb (repacked_analog channel low7 high7 s) =
    Ok (match currentSysexCallback cb with
        | Some handler =>
            handler EXTENDED_ANALOG 3
              (channel :: low7 :: high7 :: END_SYSEX
                 :: drop 5 (storedInputData s))
              (repacked_analog channel low7 high7 s)
        | None => repacked_analog channel low7 high7 s
        end).
Proof.
  unfold processSysexMessage.
  rewrite (buf_get_ok 0 EXTENDED_ANALOG) by (first [lia | reflexivity]).
  cbn [bind].
  change (EXTENDED_ANALOG =? REPORT_FIRMWARE) with false.
  change (EXTENDED_ANALOG =? STRING_DATA) with false. cbn iota.
  destruct (currentSysexCallback cb); reflexivity.
Qed.

Lemma analog_message
    (large : bool) (cb : Callbacks) (channel low7 high7 : Z) (s : Firmata) :
  parsingSysex s = false -> (5 <= length (storedInputData s))%nat ->
  0 <= channel < 16 -> 0 <= low7 < 128 -> 0 <= high7 < 128 ->
  parse_bytes large cb [ANALOG_MESSAGE + channel; low7; high7] s =
    (s' <- processSysexMessage cb (repacked_analog channel low7 high7 s) ;;
     Ok (set_executeMultiByteCommand 0 s')).
Proof.
  intros Hsys Hlen Hch Hlo Hhi.
  destruct (buffer_five _ Hlen) as (x0 & x1 & x2 & x3 & x4 & Ebuf).
  rewrite two_byte_message; cbn [In]; auto; [| lia].
  remember (drop 5 (storedInputData s)) as rest eqn:Erest.
  rewrite (execute_analog cb _ high7 low7 x2 x3 x4 rest);
    [| reflexivity
     | cbn [storedInputData set_storedInputData]; now rewrite Ebuf].
  unfold repacked_analog. rewrite <- Erest. reflexivity.
Qed.

Lemma decodePackedUInt14_groups (low7 high7 : Z) (rest : list Z) :
  0 <= low7 < 128 -> 0 <= high7 < 128 ->
  decodePackedUInt14 (low7 :: high7 :: rest)
    = Some (Z.lor low7 (Z.shiftl high7 7)).
Proof.
  intros Hlo Hhi. unfold decodePackedUInt14, arg.
  cbn [lookup list_lookup mbind option_bind]. f_equal.
  unfold to_uint32, to_uint16.
  rewrite Z.shiftl_mul_pow2 by lia.
  rewrite (Z.mod_small (high7 * 2 ^ 7)) by lia.
  rewrite <- Z.shiftl_mul_pow2 by lia.
  rewrite lor_shiftl_add by lia.
  apply Z.mod_small. lia.
Qed.

(** C6 as stated fails: after [0xE0, 0x7F, 0x01] the repacked payload is
    command, channel, low seven bits, high seven bits; the specification's
    layout has the two value bytes the other way round. *)
Lemma analog_payload_order_counterexample :
  exists s',
    parse_bytes false sample_callbacks [0xE0; 0x7F; 0x01]
      (zero_object false 4) = Ok s' /\
    take 4 (storedInputData s') = [EXTENDED_ANALOG; 0; 0x7F; 0x01] /\
    claimed_analog_payload 0 255 = [EXTENDED_ANALOG; 0; 0x01; 0x7F] /\
    take 4 (storedInputData s') <> claimed_analog_payload 0 255.
Proof.
  eexists. split; [vm_compute; reflexivity |].
  split; [reflexivity |]. split; [reflexivity |]. discriminate.
Qed.

(** C6, amended. A completed analog write [0xE0 + channel, low7, high7]
    is repacked at the start of the buffer as
    [EXTENDED_ANALOG; channel; low7; high7], followed by [END_SYSEX], with
    [sysexBytesRead = 4], and handed to
    [processSysexMessage]; the generic sysex handler, when attached,
    receives the command [EXTENDED_ANALOG], the count 3 and the bytes
    channel, low7, high7, which carry the value [low7 | (high7 << 7)] as a
    packed 14-bit integer. *)
Theorem analog_write_repacked
    (large : bool) (cb : Callbacks) (channel low7 high7 : Z) (s : Firmata) :
  parsingSysex s = false -> (5 <= length (storedInputData s))%nat ->
  0 <= channel < 16 -> 0 <= low7 < 128 -> 0 <= high7 < 128 ->
  let repacked := repacked_analog channel low7 high7 s in
  take 5 (storedInputData repacked)
    = [EXTENDED_ANALOG; channel; low7; high7; END_SYSEX] /\
  sysexBytesRead repacked = 4 /\
  parse_bytes large cb [ANALOG_MESSAGE + channel; low7; high7] s =
    (s' <- processSysexMessage cb repacked ;;
     Ok (set_executeMultiByteCommand 0 s')) /\
  processSysexMessage cb repacked =
    Ok (match currentSysexCallback cb with
        | Some handler =>
            handler EXTENDED_ANALOG 3
              (channel :: low7 :: high7 :: END_SYSEX
                 :: drop 5 (storedInputData s)) repacked
        | None => repacked
        end) /\
  decodePackedUInt14 [low7; high7] = Some (Z.lor low7 (Z.shiftl high7 7)).
Proof.
  intros Hsys Hlen Hch Hlo Hhi repacked.
  split; [reflexivity |]. split; [reflexivity |].
  split; [now apply analog_message |].
  split; [apply repacked_analog_dispatch |].
  now apply decodePackedUInt14_groups.
Qed.

Lemma analog_write_repacked_witness :
  exists s',
    parse_bytes false sample_callbacks [0xE0; 0x7F; 0x01]
      (zero_object false 4) = Ok s' /\
    written (zero_object false 4) s'
      = [START_SYSEX; EXTENDED_ANALOG; 0; 0; 0x7F; 0; 0x01; 0; END_SYSEX] /\
    decodePackedUInt14 [0x7F; 0x01] = Some 255.
Proof.
  destruct (analog_write_repacked false sample_callbacks 0 0x7F 0x01
              (zero_object false 4)) as (_ & _ & Erun & Edisp & Eval);
    [reflexivity | vm_compute; lia | lia | lia | lia |].
  rewrite Edisp in Erun.
  eexists. split; [exact Erun |]. split; [reflexivity | exact Eval].
Defined.

(** ** System reset *)

Lemma MAX_DATA_BYTES_pos (large : bool) : 5 <= MAX_DATA_BYTES large <= 255.
Proof. destruct large; cbn; lia. Qed.

Lemma clear_buffer_ok (large : bool) (rounds : nat) (i : Z) (s : Firmata) :
  0 <= i ->
  Z.of_nat rounds + i = MAX_DATA_BYTES large ->
  Z.of_nat (length (storedInputData s)) = MAX_DATA_BYTES large ->
  clear_buffer large rounds i s =
    Ok (set_storedInputData
          (take (Z.to_nat i) (storedInputData s) ++ replicate rounds 0) s).
Proof.
  revert i s. induction rounds as [| rounds IH]; intros i s Hi Hsum Hlen.
  - cbn [clear_buffer replicate]. rewrite app_nil_r.
    rewrite take_ge by lia. now destruct s.
  - cbn [clear_buffer].
    replace (i <? MAX_DATA_BYTES large) with true
      by (symmetry; apply Z.ltb_lt; lia).
    rewrite buf_set_ok by lia. cbn [bind].
    rewrite IH; cbn [storedInputData set_storedInputData];
      rewrite ?length_insert; try lia.
    replace (Z.to_nat (i + 1)) with (S (Z.to_nat i)) by lia.
    rewrite (take_S_r _ _ 0) by (apply list_lookup_insert_eq; lia).
    rewrite take_insert_ge by lia.
    rewrite <- app_assoc. reflexivity.
Qed.

Lemma systemReset_ok (large : bool) (cb : Callbacks) (s : Firmata) :
  Z.of_nat (length (storedInputData s)) = MAX_DATA_BYTES large ->
  systemReset large cb s =
    Ok (set_resetting false
          (call0 (currentSystemResetCallback cb) (reset_state large s))).
Proof.
  intros Hlen. unfold systemReset.
  pose proof (MAX_DATA_BYTES_pos large).
  rewrite clear_buffer_ok; cbn [storedInputData set_resetting set_waitForData
    set_executeMultiByteCommand set_multiByteChannel]; try lia.
  reflexivity.
Qed.

Lemma parse_reset (large : bool) (cb : Callbacks) (s : Firmata) :
  Z.of_nat (length (storedInputData s)) = MAX_DATA_BYTES large ->
  parse large cb SYSTEM_RESET s =
    Ok (set_resetting false
          (call0 (currentSystemResetCallback cb) (reset_state large s))).
Proof.
  intros Hlen. unfold parse.
  change (SYSTEM_RESET =? SYSTEM_RESET) with true. cbn iota.
  rewrite systemReset_ok by exact Hlen. reflexivity.
Qed.

(** C3. Whatever the parser is doing, the reset byte clears the sysex
    flag, the awaited-bytes count, the pending command (and the channel), zeroes
    the buffer together with its count, which drops any partial payload,
    and then fires the system-reset handler if one is attached: the result
    is the handler applied to that cleared state, which is idle with
    [isParsingMessage] false, and then [resetting] lowered. The parser is
    left in that idle state when no handler is attached, and whenever the
    handler leaves the parser fields alone. *)
Theorem reset_overrides_any_state
    (large : bool) (cb : Callbacks) (s : Firmata) :
  Z.of_nat (length (storedInputData s)) = MAX_DATA_BYTES large ->
  let cleared := reset_state large s in
  (forall h, currentSystemResetCallback cb = Some h ->
     parse large cb SYSTEM_RESET s = Ok (set_resetting false (h cleared))) /\
  (currentSystemResetCallback cb = None ->
     parse large cb SYSTEM_RESET s = Ok (set_resetting false cleared)) /\
  (parsingSysex cleared = false /\ waitForData cleared = 0 /\
   executeMultiByteCommand cleared = 0 /\ multiByteChannel cleared = 0 /\
   sysexBytesRead cleared = 0 /\
   storedInputData cleared
     = replicate (Z.to_nat (MAX_DATA_BYTES large)) 0 /\
   Idle cleared /\ isParsingMessage cleared = false /\
   isResetting cleared = true) /\
  ((forall h, currentSystemResetCallback cb = Some h ->
              same_parser cleared (h cleared)) ->
   exists s', parse large cb SYSTEM_RESET s = Ok s' /\
     Idle s' /\ isParsingMessage s' = false /\
     executeMultiByteCommand s' = 0 /\ sysexBytesRead s' = 0 /\
     storedInputData s' = replicate (Z.to_nat (MAX_DATA_BYTES large)) 0).
Proof.
  intros Hlen cleared.
  split; [intros h Eh; rewrite parse_reset, Eh by exact Hlen; reflexivity |].
  split; [intros Eh; rewrite parse_reset, Eh by exact Hlen; reflexivity |].
  split; [repeat split |].
  intros Hkeep. eexists. split; [now apply parse_reset |].
  fold cleared. unfold Idle, isParsingMessage.
  destruct (currentSystemResetCallback cb) as [h |] eqn:Eh;
    cbn [call0 set_resetting parsingSysex waitForData
         executeMultiByteCommand sysexBytesRead storedInputData].
  - destruct (Hkeep h eq_refl) as (Ew & Ee & _ & Eb & Ep & Er).
    rewrite Ew, Ee, Eb, Ep, Er. repeat split.
  - repeat split.
Qed.

Lemma reset_overrides_any_state_witness :
  exists mid s',
    parse_bytes false sample_callbacks [START_SYSEX; 0x01; 0x02]
      sample_state = Ok mid /\
    isParsingMessage mid = true /\ sysexBytesRead mid = 2 /\
    pinConfig mid = [1; PIN_MODE_IGNORE; 0; 0] /\ pinState mid = [5; 1; 0; 0] /\
    parse false sample_callbacks SYSTEM_RESET mid = Ok s' /\
    s' = set_resetting false (reset_pins (reset_state false mid)) /\
    pinConfig s' = [PIN_MODE_INPUT; PIN_MODE_IGNORE; 0; 0] /\
    pinState s' = [0; 1; 0; 0] /\
    isParsingMessage s' = false /\ sysexBytesRead s' = 0.
Proof.
  destruct (parse_bytes false sample_callbacks [START_SYSEX; 0x01; 0x02]
              sample_state) as [mid | f] eqn:Emid;
    [| vm_compute in Emid; discriminate Emid].
  assert (Hmid : mid = set_sysexBytesRead 2
                         (set_parsingSysex true
                            (set_storedInputData
                               ([1; 2] ++ replicate 62 0) sample_state)))
    by (vm_compute in Emid; injection Emid as <-; reflexivity).
  destruct (reset_overrides_any_state false sample_callbacks mid)
    as (Hfire & _); [rewrite Hmid; reflexivity |].
  exists mid, (set_resetting false (reset_pins (reset_state false mid))).
  split; [reflexivity |].
  split; [rewrite Hmid; reflexivity |].
  split; [rewrite Hmid; reflexivity |].
  split; [rewrite Hmid; reflexivity |].
  split; [rewrite Hmid; reflexivity |].
  split; [exact (Hfire reset_pins eq_refl) |].
  split; [reflexivity |].
  rewrite Hmid. repeat split.
Defined.

(** C2 as stated fails: with no reset handler attached, the reset byte
    leaves the pin states (and modes) exactly as they were; nothing is
    put back to 0 or to [PIN_MODE_INPUT]. *)
Lemma reset_leaves_pin_state_counterexample :
  exists s',
    parse false no_callbacks SYSTEM_RESET sample_state = Ok s' /\
    pinState sample_state = [5; 1; 0; 0] /\
    pinState s' = [5; 1; 0; 0] /\
    pinState s' <> replicate 4 0 /\
    pinConfig s' = [1; PIN_MODE_IGNORE; 0; 0] /\
    pinConfig s' <> replicate 4 PIN_MODE_INPUT.
Proof.
  eexists. split; [vm_compute; reflexivity |].
  repeat split; discriminate.
Qed.

(** C2, amended. The reset byte does not touch the pin table: the reset
    handler is called on a state whose pin modes and pin states are those
    from before the byte, and the pin table afterwards is the one that
    handler returns; with no handler attached modes and states are
    unchanged. *)
Theorem reset_keeps_pin_table
    (large : bool) (cb : Callbacks) (s : Firmata) :
  Z.of_nat (length (storedInputData s)) = MAX_DATA_BYTES large ->
  let cleared := reset_state large s in
  pinConfig cleared = pinConfig s /\ pinState cleared = pinState s /\
  exists s', parse large cb SYSTEM_RESET s = Ok s' /\
    (currentSystemResetCallback cb = None ->
       pinConfig s' = pinConfig s /\ pinState s' = pinState s) /\
    (forall h, currentSystemResetCallback cb = Some h ->
       pinConfig s' = pinConfig (h cleared) /\
       pinState s' = pinState (h cleared)).
Proof.
  intros Hlen cleared. split; [reflexivity |]. split; [reflexivity |].
  eexists. split; [now apply parse_reset |].
  fold cleared. split.
  - intros ->. split; reflexivity.
  - intros h ->. split; reflexivity.
Qed.

Lemma reset_keeps_pin_table_witness :
  (exists s', parse false no_callbacks SYSTEM_RESET sample_state = Ok s' /\
              pinConfig s' = pinConfig sample_state /\
              pinState s' = pinState sample_state) /\
  (exists s', parse false sample_callbacks SYSTEM_RESET sample_state = Ok s' /\
              pinConfig s' = [0; PIN_MODE_IGNORE; 0; 0] /\
              pinState s' = [0; 1; 0; 0]).
Proof.
  split.
  - destruct (reset_keeps_pin_table false no_callbacks sample_state)
      as (_ & _ & s' & E & Hnone & _); [reflexivity |].
    exists s'. split; [exact E |]. now apply Hnone.
  - destruct (reset_keeps_pin_table false sample_callbacks sample_state)
      as (_ & _ & s' & E & _ & Hsome); [reflexivity |].
    exists s'. split; [exact E |].
    destruct (Hsome reset_pins eq_refl) as [-> ->]. split; reflexivity.
Defined.

(** ** Collecting a sysex message *)

Lemma send_chars_out (text : list Z) (s : Firmata) :
  out (send_chars text s) =
    out s ++ flat_map (fun c => [to_byte (Z.land c 0x7F);
                                 to_byte (Z.land (Z.shiftr c 7) 0x7F)]) text.
Proof.
  unfold send_chars. revert s.
  induction text as [| c text IH]; intros s; cbn [fold_left flat_map].
  - now rewrite app_nil_r.
  - rewrite IH. unfold sendValueAsTwo7bitBytes, write. cbn [out set_out].
    now rewrite <- !app_assoc.
Qed.

Lemma send_chars_frame (text : list Z) (s : Firmata) :
  same_parser s (send_chars text s) /\
  pinConfig (send_chars text s) = pinConfig s /\
  pinState (send_chars text s) = pinState s /\
  console (send_chars text s) = console s /\
  outputIsConsole (send_chars text s) = outputIsConsole s.
Proof.
  unfold send_chars. revert s.
  induction text as [| c text IH]; intros s; cbn [fold_left].
  - unfold same_parser. repeat split.
  - destruct (IH (sendValueAsTwo7bitBytes c s))
      as ((E1 & E2 & E3 & E4 & E5 & E6) & E7 & E8 & E9 & E10).
    unfold same_parser.
    rewrite E1, E2, E3, E4, E5, E6, E7, E8, E9, E10. repeat split.
Qed.

Lemma sendString_effect (text : list Z) (s : Firmata) :
  out (sendString text s) =
    out s ++ [to_byte START_SYSEX; to_byte STRING_DATA]
      ++ flat_map (fun c => [to_byte (Z.land c 0x7F);
                             to_byte (Z.land (Z.shiftr c 7) 0x7F)]) text
      ++ [to_byte END_SYSEX] /\
  console (sendString text s)
    = (if outputIsConsole s then console s
       else console s ++ text ++ [13; 10]) /\
  same_parser s (sendString text s) /\
  pinConfig (sendString text s) = pinConfig s /\
  pinState (sendString text s) = pinState s.
Proof.
  unfold sendString, endSysex, startSysex, write.
  set (pre := if negb (outputIsConsole s) then _ else s).
  assert (Hpre : out pre = out s /\ same_parser s pre /\
                 pinConfig pre = pinConfig s /\ pinState pre = pinState s /\
                 console pre = (if outputIsConsole s then console s
                                else console s ++ text ++ [13; 10])).
  { subst pre. unfold same_parser, Serial_println.
    destruct (outputIsConsole s); cbn [negb]; repeat split. }
  destruct Hpre as (Eout & (P1 & P2 & P3 & P4 & P5 & P6) & Ecfg & Est & Econ).
  match goal with
  | |- context [send_chars text ?t] =>
      destruct (send_chars_frame text t)
        as ((F1 & F2 & F3 & F4 & F5 & F6) & F7 & F8 & F9 & _);
      pose proof (send_chars_out text t) as Fout
  end.
  unfold same_parser.
  cbn [out set_out console pinConfig pinState waitForData
       executeMultiByteCommand multiByteChannel storedInputData
       parsingSysex sysexBytesRead] in *.
  rewrite Fout, F1, F2, F3, F4, F5, F6, F7, F8, F9, Eout, Econ, Ecfg, Est,
    P1, P2, P3, P4, P5, P6.
  repeat split.
  rewrite <- !app_assoc. reflexivity.
Qed.

Lemma overflow_message_bytes :
  [to_byte START_SYSEX; to_byte STRING_DATA]
    ++ flat_map (fun c => [to_byte (Z.land c 0x7F);
                           to_byte (Z.land (Z.shiftr c 7) 0x7F)])
         overflow_text
    ++ [to_byte END_SYSEX] = overflow_message.
Proof. vm_compute. reflexivity. Qed.

Lemma sendString_overflow (s : Firmata) :
  out (sendString overflow_text s) = out s ++ overflow_message /\
  console (sendString overflow_text s)
    = (if outputIsConsole s then console s
       else console s ++ overflow_text ++ [13; 10]) /\
  same_parser s (sendString overflow_text s) /\
  pinConfig (sendString overflow_text s) = pinConfig s /\
  pinState (sendString overflow_text s) = pinState s.
Proof.
  rewrite <- overflow_message_bytes. apply sendString_effect.
Qed.

Lemma parse_start_sysex (large : bool) (cb : Callbacks) (s : Firmata) :
  parsingSysex s = false ->
  parse large cb START_SYSEX s
    = Ok (set_sysexBytesRead 0 (set_parsingSysex true s)).
Proof.
  intros Hsys.
  rewrite parse_command_byte by (assumption || discriminate || (cbv; discriminate)).
  reflexivity.
Qed.

(** One byte in the collecting state: it is appended at [sysexBytesRead];
    when that fills the buffer the overflow path runs. *)
Lemma parse_sysex_byte
    (large : bool) (cb : Callbacks) (b : Z) (s : Firmata) :
  parsingSysex s = true -> data_byte b ->
  0 <= sysexBytesRead s ->
  (Z.to_nat (sysexBytesRead s) < length (storedInputData s))%nat ->
  parse large cb b s =
    let appended :=
      set_sysexBytesRead (sysexBytesRead s + 1)
        (set_storedInputData
           (<[Z.to_nat (sysexBytesRead s) := b]> (storedInputData s)) s) in
    if sysexBytesRead s + 1 =? MAX_DATA_BYTES large
    then Ok (set_waitForData 0
               (set_sysexBytesRead 0
                  (set_parsingSysex false
                     (sendString overflow_text appended))))
    else Ok appended.
Proof.
  intros Hsys (Hb & Hreset & Hend) Hn Hlt. unfold parse.
  apply Z.eqb_neq in Hreset, Hend. rewrite Hreset, Hsys, Hend.
  rewrite buf_set_ok by assumption. reflexivity.
Qed.

Lemma collect_sysex
    (large : bool) (cb : Callbacks) (data : list Z) (s : Firmata) :
  parsingSysex s = true -> Forall data_byte data ->
  0 <= sysexBytesRead s ->
  Z.of_nat (length (storedInputData s)) = MAX_DATA_BYTES large ->
  sysexBytesRead s + Z.of_nat (length data) < MAX_DATA_BYTES large ->
  parse_bytes large cb data s =
    Ok (set_sysexBytesRead (sysexBytesRead s + Z.of_nat (length data))
          (set_storedInputData
             (take (Z.to_nat (sysexBytesRead s)) (storedInputData s)
                ++ data
                ++ drop (Z.to_nat (sysexBytesRead s) + length data)
                     (storedInputData s)) s)).
Proof.
  revert s.
  induction data as [| b data IH]; intros s Hsys Hdata Hn Hlen Hroom.
  - cbn [parse_bytes length app]. rewrite Z.add_0_r, Nat.add_0_r.
    rewrite take_drop. now destruct s.
  - apply Forall_cons in Hdata as [Hb Hdata].
    cbn [length] in Hroom. cbn [parse_bytes].
    rewrite parse_sysex_byte by (assumption || lia).
    cbn zeta.
    replace (sysexBytesRead s + 1 =? MAX_DATA_BYTES large) with false
      by (symmetry; apply Z.eqb_neq; lia).
    cbn [bind].
    rewrite IH; cbn [parsingSysex sysexBytesRead storedInputData
      set_sysexBytesRead set_storedInputData]; rewrite ?length_insert;
      try assumption; try lia.
    replace (Z.to_nat (sysexBytesRead s + 1))
      with (S (Z.to_nat (sysexBytesRead s))) by lia.
    rewrite (take_S_r _ _ b) by (apply list_lookup_insert_eq; lia).
    rewrite take_insert_ge by lia.
    rewrite drop_insert_lt by lia.
    cbn [length].
    replace (S (Z.to_nat (sysexBytesRead s)) + length data)%nat
      with (Z.to_nat (sysexBytesRead s) + S (length data))%nat by lia.
    replace (sysexBytesRead s + 1 + Z.of_nat (length data))
      with (sysexBytesRead s + Z.of_nat (S (length data))) by lia.
    rewrite <- !app_assoc. reflexivity.
Qed.

Lemma parse_bytes_app
    (large : bool) (cb : Callbacks) (l1 l2 : list Z) (s : Firmata) :
  parse_bytes large cb (l1 ++ l2) s =
    (s' <- parse_bytes large cb l1 s ;; parse_bytes large cb l2 s').
Proof.
  revert s. induction l1 as [| b l1 IH]; intros s; [reflexivity |].
  cbn [app parse_bytes].
  destruct (parse large cb b s); cbn [bind]; [apply IH | reflexivity].
Qed.

Lemma parse_end_sysex (large : bool) (cb : Callbacks) (s : Firmata) :
  parsingSysex s = true ->
  parse large cb END_SYSEX s = processSysexMessage cb (set_parsingSysex false s).
Proof. intros Hsys. unfold parse. now rewrite Hsys. Qed.

Lemma collect_message
    (large : bool) (cb : Callbacks) (data : list Z) (s : Firmata) :
  parsingSysex s = false -> Forall data_byte data ->
  Z.of_nat (length (storedInputData s)) = MAX_DATA_BYTES large ->
  Z.of_nat (length data) < MAX_DATA_BYTES large ->
  parse_bytes large cb (START_SYSEX :: data) s =
    Ok (set_parsingSysex true (collected data s)).
Proof.
  intros Hsys Hdata Hlen Hroom. cbn [parse_bytes].
  rewrite parse_start_sysex by assumption. cbn [bind].
  rewrite collect_sysex; try assumption; try reflexivity;
    cbn [sysexBytesRead set_sysexBytesRead storedInputData
         set_parsingSysex]; lia.
Qed.

(** C1 as stated fails: a payload of exactly [MAX_DATA_BYTES] bytes is not
    dispatched. Its last byte already takes the overflow path: the
    transport carries the diagnostic only, where the attached sysex handler
    would have answered. *)
Lemma capacity_payload_overflows_counterexample :
  let data := replicate 64 0 in
  Z.of_nat (length data) = MAX_DATA_BYTES false /\
  (exists s',
     parse_bytes false sample_callbacks (START_SYSEX :: data ++ [END_SYSEX])
       (zero_object false 4) = Ok s' /\
     out s' = overflow_message) /\
  parse_bytes false sample_callbacks (START_SYSEX :: data ++ [END_SYSEX])
      (zero_object false 4)
    <> processSysexMessage sample_callbacks
         (collected data (zero_object false 4)).
Proof.
  split; [reflexivity |]. split.
  - eexists. split; vm_compute; reflexivity.
  - vm_compute. intros H. discriminate H.
Qed.

Lemma parse_end_sysex_idle (large : bool) (cb : Callbacks) (s : Firmata) :
  parsingSysex s = false -> waitForData s = 0 ->
  parse large cb END_SYSEX s = Ok s.
Proof.
  intros Hsys Hwait.
  rewrite parse_command_byte by (assumption || discriminate || (cbv; discriminate)).
  now apply start_command_unrecognized.
Qed.

Lemma overflow_at_capacity
    (large : bool) (cb : Callbacks) (data : list Z) (s : Firmata) :
  parsingSysex s = false -> Forall data_byte data ->
  Z.of_nat (length (storedInputData s)) = MAX_DATA_BYTES large ->
  Z.of_nat (length data) = MAX_DATA_BYTES large ->
  exists s', parse_bytes large cb (START_SYSEX :: data) s = Ok s' /\
             overflowed s s'.
Proof.
  intros Hsys Hdata Hlen Hfull.
  pose proof (MAX_DATA_BYTES_pos large) as Hmax.
  destruct data as [| b data' _] using rev_ind; [cbn in Hfull; lia |].
  apply Forall_app in Hdata as [Hdata' Hb].
  apply Forall_cons in Hb as [Hb _].
  rewrite length_app in Hfull. cbn [length] in Hfull.
  change (START_SYSEX :: data' ++ [b]) with ((START_SYSEX :: data') ++ [b]).
  rewrite parse_bytes_app, collect_message by (assumption || lia).
  cbn [bind parse_bytes].
  rewrite parse_sysex_byte;
    cbn [parsingSysex sysexBytesRead storedInputData collected
         set_parsingSysex set_sysexBytesRead set_storedInputData];
    rewrite ?length_app, ?length_drop; try assumption; try lia.
  replace (Z.of_nat (length data') + 1 =? MAX_DATA_BYTES large) with true
    by (symmetry; apply Z.eqb_eq; lia).
  cbn [bind]. eexists. split; [reflexivity |].
  match goal with
  | |- context [sendString overflow_text ?t] =>
      pose proof (sendString_overflow t) as Hsend;
      assert (Ht : out t = out s /\ console t = console s /\
                   outputIsConsole t = outputIsConsole s /\
                   pinConfig t = pinConfig s /\ pinState t = pinState s)
        by (repeat split);
      generalize dependent (sendString overflow_text t);
      generalize dependent t
  end.
  intros t (Tout & Tcon & Tcons & Tcfg & Tst) u (Eout & Econ & _ & Ecfg & Est).
  unfold overflowed, Idle.
  cbn [out console pinConfig pinState parsingSysex waitForData
       sysexBytesRead set_waitForData set_sysexBytesRead set_parsingSysex].
  rewrite Eout, Econ, Ecfg, Est, Tout, Tcon, Tcons, Tcfg, Tst.
  repeat split.
Qed.

(** C1, amended. The overflow check fires when the buffer becomes full. A
    sysex message with fewer than [MAX_DATA_BYTES] payload bytes followed
    by the end marker is collected from the start of the buffer and handed
    to [processSysexMessage] with nothing written before the dispatch (the
    generic handler, when the command is its to take, gets the command,
    the argument count and the arguments); a payload of exactly
    [MAX_DATA_BYTES] bytes takes the overflow path on its last byte: the
    diagnostic string message goes out on the transport, the message is
    dropped without dispatch, the parser is idle, and the end marker that
    follows is ignored. *)
Theorem sysex_capacity
    (large : bool) (cb : Callbacks) (data : list Z) (s : Firmata) :
  parsingSysex s = false -> Forall data_byte data ->
  Z.of_nat (length (storedInputData s)) = MAX_DATA_BYTES large ->
  (Z.of_nat (length data) < MAX_DATA_BYTES large ->
     parse_bytes large cb (START_SYSEX :: data ++ [END_SYSEX]) s
       = processSysexMessage cb (collected data s) /\
     out (collected data s) = out s /\
     take (length data) (storedInputData (collected data s)) = data /\
     sysexBytesRead (collected data s) = Z.of_nat (length data) /\
     forall h command args,
       data = command :: args ->
       command <> REPORT_FIRMWARE -> command <> STRING_DATA ->
       currentSysexCallback cb = Some h ->
       processSysexMessage cb (collected data s) =
         Ok (h command (Z.of_nat (length args))
               (drop 1 (storedInputData (collected data s)))
               (collected data s))) /\
  (Z.of_nat (length data) = MAX_DATA_BYTES large ->
     exists s',
       parse_bytes large cb (START_SYSEX :: data) s = Ok s' /\
       overflowed s s' /\ isParsingMessage s' = false /\
       parse_bytes large cb (START_SYSEX :: data ++ [END_SYSEX]) s = Ok s').
Proof.
  intros Hsys Hdata Hlen.
  pose proof (MAX_DATA_BYTES_pos large) as Hmax. split.
  - intros Hroom. split; [| split; [| split; [| split]]].
    + change (START_SYSEX :: data ++ [END_SYSEX])
        with ((START_SYSEX :: data) ++ [END_SYSEX]).
      rewrite parse_bytes_app, collect_message by assumption.
      cbn [bind parse_bytes].
      rewrite parse_end_sysex by reflexivity.
      destruct (processSysexMessage cb _); reflexivity.
    + reflexivity.
    + cbn [collected storedInputData set_parsingSysex set_sysexBytesRead
           set_storedInputData].
      apply take_app_length.
    + reflexivity.
    + intros h command args -> Hfw Hstr Hcb.
      unfold processSysexMessage.
      rewrite (buf_get_ok 0 command) by (first [lia | reflexivity]).
      cbn [bind]. apply Z.eqb_neq in Hfw, Hstr. rewrite Hfw, Hstr, Hcb.
      do 2 f_equal.
      cbn [collected sysexBytesRead set_parsingSysex set_sysexBytesRead
           length] in *.
      replace (Z.of_nat (S (length args)) - 1)
        with (Z.of_nat (length args)) by lia.
      apply to_byte_small. lia.
  - intros Hfull.
    destruct (overflow_at_capacity large cb data s Hsys Hdata Hlen Hfull)
      as (s' & Erun & Hover).
    exists s'. split; [exact Erun |]. split; [exact Hover |].
    destruct Hover as (_ & _ & [Hsys' Hwait'] & _).
    split; [unfold isParsingMessage; now rewrite Hsys', Hwait' |].
    change (START_SYSEX :: data ++ [END_SYSEX])
      with ((START_SYSEX :: data) ++ [END_SYSEX]).
    rewrite parse_bytes_app, Erun. cbn [bind parse_bytes].
    now rewrite parse_end_sysex_idle.
Qed.

Lemma sysex_capacity_witness :
  (exists s',
     parse_bytes false sample_callbacks
       (START_SYSEX :: replicate 63 5 ++ [END_SYSEX]) (zero_object false 4)
       = Ok s' /\
     written (zero_object false 4) s'
       = [START_SYSEX; 5] ++ concat (replicate 62 [5; 0]) ++ [END_SYSEX]) /\
  (exists s',
     parse_bytes false sample_callbacks (START_SYSEX :: replicate 64 5)
       (zero_object false 4) = Ok s' /\
     overflowed (zero_object false 4) s').
Proof.
  assert (Hdata : forall n, Forall data_byte (replicate n 5)).
  { intros n. apply Forall_replicate. repeat split; discriminate. }
  split.
  - destruct (sysex_capacity false sample_callbacks (replicate 63 5)
                (zero_object false 4) eq_refl (Hdata 63%nat) eq_refl)
      as [Hfit _].
    destruct (Hfit eq_refl) as (Erun & _ & _ & _ & Hdisp).
    rewrite (Hdisp echo_sysex 5 (replicate 62 5)) in Erun;
      [| reflexivity | discriminate | discriminate | reflexivity].
    eexists. split; [exact Erun |]. vm_compute. reflexivity.
  - destruct (sysex_capacity false sample_callbacks (replicate 64 5)
                (zero_object false 4) eq_refl (Hdata 64%nat) eq_refl)
      as [_ Hfull].
    destruct (Hfull eq_refl) as (s' & Erun & Hover & _).
    exists s'. split; [exact Erun | exact Hover].
Defined.

(** ** The parser invariant *)

Section Invariant.

Variable large : bool.
Variable cb : Callbacks.
Hypothesis Hcb : handlers_keep (parser_inv large) cb.

Ltac inv_fields :=
  unfold parser_inv in *;
  cbn [storedInputData sysexBytesRead waitForData
       set_waitForData set_executeMultiByteCommand set_multiByteChannel
       set_storedInputData set_parsingSysex set_sysexBytesRead
       set_pinConfig set_pinState set_resetting set_out set_console] in *;
  rewrite ?length_insert in *.

Ltac inv_solve :=
  pose proof (MAX_DATA_BYTES_pos large); inv_fields; intuition lia.

Lemma buffer_sound_ok (s : Firmata) :
  parser_inv large s -> buffer_sound large (Ok s).
Proof. intros H. left. now exists s. Qed.

Lemma buffer_sound_bind (r : res Firmata) (k : Firmata -> res Firmata) :
  buffer_sound large r ->
  (forall s, parser_inv large s -> buffer_sound large (k s)) ->
  buffer_sound large (s <- r ;; k s).
Proof.
  intros [(s & -> & Hs) | ->] Hk; cbn [bind]; [now apply Hk | now right].
Qed.

Lemma buf_set_inv (i v : Z) (s : Firmata) :
  parser_inv large s -> 0 <= i < MAX_DATA_BYTES large ->
  exists s', buf_set i v s = Ok s' /\ parser_inv large s' /\
    sysexBytesRead s' = sysexBytesRead s /\
    waitForData s' = waitForData s /\
    executeMultiByteCommand s' = executeMultiByteCommand s /\
    multiByteChannel s' = multiByteChannel s /\
    parsingSysex s' = parsingSysex s.
Proof.
  intros Hs Hi. eexists. split.
  - apply buf_set_ok; [lia |]. inv_fields. lia.
  - split; [inv_solve | repeat split].
Qed.

Lemma buf_get_inv (i : Z) (s : Firmata) :
  parser_inv large s -> 0 <= i < MAX_DATA_BYTES large ->
  exists v, buf_get i s = Ok v.
Proof.
  intros Hs Hi.
  destruct (storedInputData s !! Z.to_nat i) as [v |] eqn:E.
  - exists v. apply buf_get_ok; [lia | exact E].
  - apply lookup_ge_None in E. inv_fields. lia.
Qed.

(** The decoding loop of the string case stays inside the bytes read. *)
Lemma decode_string_inv (rounds : nat) (bufferLength i j : Z) (s : Firmata) :
  parser_inv large s ->
  0 <= j -> Z.of_nat rounds + j = bufferLength -> i = 2 * j + 1 ->
  2 * bufferLength < MAX_DATA_BYTES large ->
  exists s', decode_string rounds bufferLength i j s = Ok (bufferLength, s')
    /\ parser_inv large s'.
Proof.
  pose proof (MAX_DATA_BYTES_pos large) as Hmax.
  revert i j s.
  induction rounds as [| rounds IH]; intros i j s Hs Hj Hsum Hi Hroom.
  - cbn [decode_string]. exists s.
    replace j with bufferLength by lia. now split.
  - cbn [decode_string].
    replace (j <? bufferLength) with true by (symmetry; apply Z.ltb_lt; lia).
    destruct (buf_get_inv i s Hs) as [c ->]; [lia |]. cbn [bind].
    destruct (buf_set_inv j c s Hs) as (s1 & -> & Hs1 & _); [lia |].
    cbn [bind].
    destruct (buf_get_inv j s1 Hs1) as [lo ->]; [lia |]. cbn [bind].
    rewrite (to_byte_small (i + 1)) by lia.
    destruct (buf_get_inv (i + 1) s1 Hs1) as [hi ->]; [lia |].
    cbn [bind].
    destruct (buf_set_inv j (to_byte (lo + Z.shiftl hi 7)) s1 Hs1)
      as (s2 & -> & Hs2 & _); [lia |].
    cbn [bind].
    rewrite (to_byte_small (i + 1 + 1)), (to_byte_small (j + 1)) by lia.
    apply IH; try assumption; lia.
Qed.

Lemma processSysexMessage_sound (s : Firmata) :
  parser_inv large s -> buffer_sound large (processSysexMessage cb s).
Proof.
  intros Hs. pose proof (MAX_DATA_BYTES_pos large) as Hmax.
  destruct Hcb as (_ & _ & _ & _ & _ & _ & Hstring & Hsysex).
  unfold processSysexMessage.
  destruct (buf_get_inv 0 s Hs) as [command ->]; [lia |]. cbn [bind].
  destruct (command =? REPORT_FIRMWARE).
  { apply buffer_sound_ok.
    unfold printFirmwareVersion.
    destruct (negb _); [| assumption].
    unfold endSysex, startSysex.
    match goal with
    | |- context [send_chars ?text ?t] =>
        destruct (send_chars_frame text t) as ((E1 & _ & _ & E4 & _ & E6) & _);
        assert (Ht : parser_inv large t) by inv_solve;
        generalize dependent (send_chars text t)
    end.
    intros u E1 E4 E6. unfold write. inv_fields.
    rewrite E1, E4, E6. intuition lia. }
  destruct (command =? STRING_DATA).
  { destruct (currentStringCallback cb) as [h |] eqn:Eh;
      [| now apply buffer_sound_ok].
    set (bufferLength := to_byte (Z.quot (sysexBytesRead s - 1) 2)).
    destruct (Z.leb_spec bufferLength 0) as [Hle | Hgt];
      [now apply buffer_sound_ok |].
    assert (Hbl : 2 * bufferLength < MAX_DATA_BYTES large).
    { subst bufferLength. unfold to_byte in *.
      assert (0 <= sysexBytesRead s < MAX_DATA_BYTES large) by inv_solve.
      destruct (Z.eq_dec (sysexBytesRead s) 0) as [E0 | Hn0].
      - rewrite E0 in Hgt. vm_compute in Hgt. discriminate Hgt.
      - pose proof (Z.quot_pos (sysexBytesRead s - 1) 2).
        pose proof (Z.mul_quot_le (sysexBytesRead s - 1) 2).
        rewrite Z.mod_small; [lia |]. lia. }
    destruct (decode_string_inv (Z.to_nat bufferLength) bufferLength 1 0 s)
      as (s1 & -> & Hs1); try assumption; try lia.
    cbn [bind].
    destruct (buf_get_inv (bufferLength - 1) s1 Hs1) as [last ->]; [lia |].
    cbn [bind].
    destruct (negb (last =? 0)).
    - destruct (buf_set_inv bufferLength 0 s1 Hs1) as (s2 & -> & Hs2 & _);
        [lia |].
      cbn [bind]. apply buffer_sound_ok. now apply (Hstring h).
    - cbn [bind]. apply buffer_sound_ok. now apply (Hstring h). }
  destruct (currentSysexCallback cb) as [h |] eqn:Eh;
    apply buffer_sound_ok; [now apply (Hsysex h) | assumption].
Qed.

Lemma setPinMode_sound (pin config : Z) (s : Firmata) :
  parser_inv large s -> buffer_sound large (setPinMode cb pin config s).
Proof.
  intros Hs. destruct Hcb as (_ & _ & _ & Hmode & _).
  unfold setPinMode, pin_get, setPinState.
  destruct (in_range (pinConfig s) pin); [| now right].
  destruct (pinConfig s !! Z.to_nat pin) as [mode |]; [| now right].
  cbn [bind].
  destruct (mode =? PIN_MODE_IGNORE); [now apply buffer_sound_ok |].
  destruct (in_range (pinState s) pin); [| now right].
  cbn [bind]. apply buffer_sound_ok.
  destruct (currentPinModeCallback cb) as [h |] eqn:Eh; cbn [call2].
  - apply (Hmode h eq_refl). inv_solve.
  - inv_solve.
Qed.

Lemma systemReset_sound (s : Firmata) :
  parser_inv large s -> buffer_sound large (systemReset large cb s).
Proof.
  intros Hs. destruct Hcb as (_ & _ & _ & _ & _ & Hreset & _).
  rewrite systemReset_ok by inv_solve.
  apply buffer_sound_ok.
  assert (Hcleared : parser_inv large (reset_state large s)).
  { pose proof (MAX_DATA_BYTES_pos large). unfold parser_inv, reset_state.
    cbn [storedInputData sysexBytesRead waitForData].
    rewrite length_replicate. lia. }
  destruct (currentSystemResetCallback cb) as [h |] eqn:Eh; cbn [call0].
  - specialize (Hreset h eq_refl _ Hcleared).
    generalize dependent (h (reset_state large s)).
    intros u Hu. inv_solve.
  - generalize dependent (reset_state large s). intros u Hu. inv_solve.
Qed.

Lemma execute_command_sound (s : Firmata) :
  parser_inv large s -> buffer_sound large (execute_command cb s).
Proof.
  intros Hs. pose proof (MAX_DATA_BYTES_pos large) as Hmax.
  destruct Hcb as (Hdig & Hra & Hrd & _ & Hval & _).
  destruct (buf_get_inv 0 s Hs) as [d0 E0]; [lia |].
  destruct (buf_get_inv 1 s Hs) as [d1 E1]; [lia |].
  unfold execute_command.
  destruct (_ =? ANALOG_MESSAGE).
  { rewrite E0, E1. cbn [bind].
    destruct (buf_set_inv 0 EXTENDED_ANALOG s Hs)
      as (s1 & -> & Hs1 & _ & _ & _ & Ech & _); [lia |].
    cbn [bind]. rewrite Ech.
    destruct (buf_set_inv 1 (multiByteChannel s) s1 Hs1)
      as (s2 & -> & Hs2 & _); [lia |].
    cbn [bind].
    destruct (buf_set_inv 2 d1 s2 Hs2) as (s3 & -> & Hs3 & _); [lia |].
    cbn [bind].
    destruct (buf_set_inv 3 d0 s3 Hs3) as (s4 & -> & Hs4 & _); [lia |].
    cbn [bind].
    destruct (buf_set_inv 4 END_SYSEX s4 Hs4) as (s5 & -> & Hs5 & _);
      [lia |].
    cbn [bind]. apply processSysexMessage_sound. inv_solve. }
  destruct (_ =? DIGITAL_MESSAGE).
  { destruct (currentDigitalCallback cb) as [h |] eqn:Eh;
      [| now apply buffer_sound_ok].
    rewrite E0, E1. cbn [bind]. apply buffer_sound_ok.
    now apply (Hdig h). }
  destruct (_ =? SET_PIN_MODE).
  { rewrite E0, E1. cbn [bind]. now apply setPinMode_sound. }
  destruct (_ =? SET_DIGITAL_PIN_VALUE).
  { destruct (currentPinValueCallback cb) as [h |] eqn:Eh;
      [| now apply buffer_sound_ok].
    rewrite E0, E1. cbn [bind]. apply buffer_sound_ok.
    now apply (Hval h). }
  destruct (_ =? REPORT_ANALOG).
  { destruct (currentReportAnalogCallback cb) as [h |] eqn:Eh;
      [| now apply buffer_sound_ok].
    rewrite E0. cbn [bind]. apply buffer_sound_ok. now apply (Hra h). }
  destruct (_ =? REPORT_DIGITAL).
  { destruct (currentReportDigitalCallback cb) as [h |] eqn:Eh;
      [| now apply buffer_sound_ok].
    rewrite E0. cbn [bind]. apply buffer_sound_ok. now apply (Hrd h). }
  now apply buffer_sound_ok.
Qed.

Lemma start_command_sound (command : Z) (s : Firmata) :
  parser_inv large s -> buffer_sound large (start_command large cb command s).
Proof.
  intros Hs. unfold start_command.
  destruct (_ || _); [apply buffer_sound_ok; inv_solve |].
  destruct (_ || _); [apply buffer_sound_ok; inv_solve |].
  destruct (_ =? START_SYSEX); [apply buffer_sound_ok; inv_solve |].
  destruct (_ =? SYSTEM_RESET); [now apply systemReset_sound |].
  destruct (_ =? REPORT_VERSION); apply buffer_sound_ok;
    [unfold printVersion, write; inv_solve | assumption].
Qed.

Lemma parse_sound (b : Z) (s : Firmata) :
  parser_inv large s -> buffer_sound large (parse large cb b s).
Proof.
  intros Hs. pose proof (MAX_DATA_BYTES_pos large) as Hmax.
  unfold parse.
  destruct (b =? SYSTEM_RESET);
    [apply systemReset_sound; inv_solve |].
  destruct (parsingSysex s).
  { destruct (b =? END_SYSEX);
      [apply processSysexMessage_sound; inv_solve |].
    destruct (buf_set_inv (sysexBytesRead s) b s Hs)
      as (s1 & -> & Hs1 & Eread & _); [inv_solve |].
    cbn [bind sysexBytesRead set_sysexBytesRead]. rewrite Eread.
    destruct (Z.eqb_spec (sysexBytesRead s + 1) (MAX_DATA_BYTES large)).
    - apply buffer_sound_ok.
      match goal with
      | |- context [sendString overflow_text ?t] =>
          destruct (sendString_overflow t)
            as (_ & _ & (_ & _ & _ & Ebuf & _ & _) & _);
          assert (Ht : Z.of_nat (length (storedInputData t))
                       = MAX_DATA_BYTES large) by inv_solve;
          generalize dependent (sendString overflow_text t)
      end.
      intros u Ebuf. inv_fields. rewrite Ebuf. lia.
    - apply buffer_sound_ok. inv_solve. }
  destruct ((0 <? waitForData s) && (b <? 128)) eqn:Earg.
  { apply andb_true_iff in Earg as [Hwait _]. apply Z.ltb_lt in Hwait.
    assert (Hw : 0 < waitForData s <= 2) by inv_solve.
    rewrite (to_byte_small (waitForData s - 1)) by lia.
    match goal with
    | |- context [buf_set ?i b ?t] =>
        destruct (buf_set_inv i b t) as (s1 & -> & Hs1 & _);
          [inv_solve | cbn [waitForData set_waitForData]; lia |]
    end.
    cbn [bind].
    destruct (_ && _); [| now apply buffer_sound_ok].
    apply buffer_sound_bind; [now apply execute_command_sound |].
    intros s2 Hs2. apply buffer_sound_ok. inv_solve. }
  destruct (b <? 240); apply start_command_sound; [inv_solve | assumption].
Qed.

Lemma parse_bytes_sound (input : list Z) (s : Firmata) :
  parser_inv large s -> buffer_sound large (parse_bytes large cb input s).
Proof.
  revert s. induction input as [| b input IH]; intros s Hs.
  - now apply buffer_sound_ok.
  - cbn [parse_bytes]. apply buffer_sound_bind; [now apply parse_sound |].
    exact IH.
Qed.

End Invariant.

Lemma zero_object_inv (large : bool) (TOTAL_PINS : nat) :
  parser_inv large (zero_object large TOTAL_PINS).
Proof.
  pose proof (MAX_DATA_BYTES_pos large). unfold parser_inv, zero_object.
  cbn [storedInputData sysexBytesRead waitForData].
  rewrite length_replicate. lia.
Qed.

Lemma buffer_sound_safe (large : bool) (r : res Firmata) :
  buffer_sound large r -> buffer_safe r.
Proof. intros [(s & -> & _) | ->]; discriminate. Qed.

Lemma no_callbacks_keep (P : Firmata -> Prop) : handlers_keep P no_callbacks.
Proof.
  unfold handlers_keep, no_callbacks.
  cbn [currentDigitalCallback currentReportAnalogCallback
       currentReportDigitalCallback currentPinModeCallback
       currentPinValueCallback currentSystemResetCallback
       currentStringCallback currentSysexCallback].
  repeat match goal with |- _ /\ _ => split end; intros h Eh; discriminate Eh.
Qed.

Lemma reset_pins_keeps (P : Firmata -> Prop) :
  (forall p s s', P s ->
     setPinMode no_callbacks p PIN_MODE_INPUT s = Ok s' -> P s') ->
  forall s, P s -> P (reset_pins s).
Proof.
  intros Hstep s. unfold reset_pins.
  generalize (seq 0 (length (pinConfig s))). intros pins. revert s.
  induction pins as [| p pins IH]; intros s Hs; cbn [fold_left];
    [assumption |].
  apply IH.
  destruct (setPinMode no_callbacks (Z.of_nat p) PIN_MODE_INPUT s) eqn:E;
    [now apply (Hstep _ _ _ Hs E) | assumption].
Qed.

Lemma sendSysex_frame (c n : Z) (v : list Z) (s : Firmata) :
  same_parser s (sendSysex c n v s) /\
  pinConfig (sendSysex c n v s) = pinConfig s.
Proof.
  unfold sendSysex, endSysex, startSysex.
  match goal with
  | |- context [send_chars ?text ?t] =>
      destruct (send_chars_frame text t)
        as ((E1 & E2 & E3 & E4 & E5 & E6) & E7 & _);
      generalize dependent (send_chars text t)
  end.
  intros u E1 E2 E3 E4 E5 E6 E7. unfold same_parser, write in *.
  cbn [waitForData executeMultiByteCommand multiByteChannel storedInputData
       parsingSysex sysexBytesRead pinConfig set_out] in *.
  now rewrite E1, E2, E3, E4, E5, E6, E7.
Qed.

Lemma sample_callbacks_keep (large : bool) :
  handlers_keep (parser_inv large) sample_callbacks.
Proof.
  assert (Hsysex : forall c n v s,
            parser_inv large s -> parser_inv large (sendSysex c n v s)).
  { intros c n v s Hs.
    destruct (sendSysex_frame c n v s) as ((E1 & _ & _ & E4 & _ & E6) & _).
    unfold parser_inv in *. now rewrite E1, E4, E6. }
  assert (Hreset : forall s, parser_inv large s -> parser_inv large (reset_pins s)).
  { apply reset_pins_keeps. intros p s s' Hs E.
    destruct (setPinMode_sound large no_callbacks
                (no_callbacks_keep _) p PIN_MODE_INPUT s Hs)
      as [(s'' & E' & Hs'') | E']; congruence. }
  unfold handlers_keep, sample_callbacks.
  cbn [currentDigitalCallback currentReportAnalogCallback
       currentReportDigitalCallback currentPinModeCallback
       currentPinValueCallback currentSystemResetCallback
       currentStringCallback currentSysexCallback].
  repeat match goal with |- _ /\ _ => split end;
    intros h Eh; try discriminate Eh;
    injection Eh as <-; intros;
    try (now apply Hsysex); try (now apply Hreset); assumption.
Qed.

(** The single-byte path keeps its writes in bounds. The constructed
    engine satisfies the invariant ([storedInputData] has
    [MAX_DATA_BYTES] entries, [0 <= sysexBytesRead < MAX_DATA_BYTES],
    [waitForData <= 2]); [resetParser] re-establishes it; and from a state
    satisfying it, with handlers that keep it, [parse] on any byte, and so
    on any run of bytes from construction on, either returns a state
    satisfying it or stops on a pin number outside the pin table: it never
    accesses [storedInputData] outside the array. The states meant are
    those [parse] itself reaches; the block reader is another matter, see
    below. *)
Theorem parse_writes_in_bounds
    (large : bool) (cb : Callbacks) (TOTAL_PINS : nat) :
  handlers_keep (parser_inv large) cb ->
  (FirmataClass large TOTAL_PINS = Ok (zero_object large TOTAL_PINS) /\
   parser_inv large (zero_object large TOTAL_PINS)) /\
  (forall s, Z.of_nat (length (storedInputData s)) = MAX_DATA_BYTES large ->
             parser_inv large (resetParser s)) /\
  (forall b s, parser_inv large s ->
     buffer_sound large (parse large cb b s) /\
     buffer_safe (parse large cb b s)) /\
  (forall input,
     buffer_sound large
       (s <- FirmataClass large TOTAL_PINS ;; parse_bytes large cb input s) /\
     buffer_safe
       (s <- FirmataClass large TOTAL_PINS ;; parse_bytes large cb input s)).
Proof.
  intros Hcb.
  pose proof (MAX_DATA_BYTES_pos large) as Hmax.
  split; [split; [apply FirmataClass_constructed | apply zero_object_inv] |].
  split.
  { intros s Hlen. unfold parser_inv, resetParser.
    cbn [storedInputData sysexBytesRead waitForData set_parsingSysex
         set_sysexBytesRead set_waitForData set_executeMultiByteCommand].
    lia. }
  split.
  - intros b s Hs.
    pose proof (parse_sound large cb Hcb b s Hs) as Hsound.
    split; [exact Hsound | exact (buffer_sound_safe large _ Hsound)].
  - intros input. rewrite FirmataClass_constructed. cbn [bind].
    pose proof (parse_bytes_sound large cb Hcb input _
                  (zero_object_inv large TOTAL_PINS)) as Hsound.
    split; [exact Hsound | exact (buffer_sound_safe large _ Hsound)].
Qed.

Lemma parse_writes_in_bounds_witness :
  buffer_sound false
    (s <- FirmataClass false 4 ;;
     parse_bytes false sample_callbacks
       (START_SYSEX :: replicate 200 5 ++ [END_SYSEX; 0xF4; 0x02; 0x01]) s) /\
  buffer_sound false
    (s <- FirmataClass false 4 ;;
     parse_bytes false sample_callbacks [0xF4; 0x09; 0x01] s).
Proof.
  destruct (parse_writes_in_bounds false sample_callbacks 4
              (sample_callbacks_keep false)) as (_ & _ & _ & Hrun).
  split; apply Hrun.
Defined.

(** C10. The bound does not hold from every reachable state: in the
    [LARGE_MEM_DEVICE] build the block reader leaves a state that breaks
    it. The engine is constructed and has read [START_SYSEX]; both states
    satisfy the invariant. The next read delivers 253 zero bytes. Byte by
    byte, [parse] takes the overflow path at the 252nd and stays within the
    array throughout. In [processInput] the word-wise copy moves 252 of
    them with no capacity check and leaves [sysexBytesRead =
    MAX_DATA_BYTES] with the sysex flag raised; the call of [parse] on the
    last byte then stores at [storedInputData[252]], one past the end. *)
Theorem block_read_leads_parse_out_of_bounds :
  exists constructed collecting scanned,
    FirmataClass true 4 = Ok constructed /\
    parser_inv true constructed /\
    parse true sample_callbacks START_SYSEX constructed = Ok collecting /\
    parser_inv true collecting /\
    buffer_sound true
      (parse_bytes true sample_callbacks (replicate 253 0) collecting) /\
    fast_scan (replicate 253 0) collecting = Ok ([0], scanned) /\
    parsingSysex scanned = true /\
    sysexBytesRead scanned = MAX_DATA_BYTES true /\
    Z.of_nat (length (storedInputData scanned)) = MAX_DATA_BYTES true /\
    ~ parser_inv true scanned /\
    parse true sample_callbacks 0 scanned = Err BufferOutOfBounds /\
    processInput true sample_callbacks (replicate 253 0) collecting
      = Err BufferOutOfBounds.
Proof.
  exists (zero_object true 4).
  exists (set_sysexBytesRead 0 (set_parsingSysex true (zero_object true 4))).
  eexists.
  split; [apply FirmataClass_constructed |].
  split; [apply zero_object_inv |].
  split; [reflexivity |].
  split; [repeat split; try reflexivity; vm_compute; congruence |].
  split.
  { left. eexists. split; [vm_compute; reflexivity |].
    repeat split; try reflexivity; vm_compute; congruence. }
  split; [vm_compute; reflexivity |].
  split; [reflexivity |].
  split; [reflexivity |].
  split; [reflexivity |].
  split; [intros (_ & (_ & Hread) & _); vm_compute in Hread; discriminate Hread |].
  split; vm_compute; reflexivity.
Qed.

(** ** An ignored pin stays ignored *)

Lemma bind_Ok {A B : Type} (m : res A) (k : A -> res B) (y : B) :
  (x <- m ;; k x) = Ok y -> exists x, m = Ok x /\ k x = Ok y.
Proof. destruct m as [x | f]; cbn [bind]; [eauto | discriminate]. Qed.

Ltac unbind H :=
  let x := fresh "x" in
  let E := fresh "E" in
  apply bind_Ok in H; destruct H as (x & E & H); cbv beta in H.

Lemma buf_set_pins (i v : Z) (s s' : Firmata) :
  buf_set i v s = Ok s' -> pinConfig s' = pinConfig s.
Proof.
  unfold buf_set. destruct (in_range _ _); [| discriminate].
  now intros [= <-].
Qed.

Lemma decode_string_pins
    (rounds : nat) (bufferLength i j j' : Z) (s s' : Firmata) :
  decode_string rounds bufferLength i j s = Ok (j', s') ->
  pinConfig s' = pinConfig s.
Proof.
  revert i j s. induction rounds as [| rounds IH]; intros i j s H.
  - cbn [decode_string] in H. now injection H as _ <-.
  - cbn [decode_string] in H.
    destruct (j <? bufferLength); [| now injection H as _ <-].
    unbind H. unbind H. unbind H. unbind H. unbind H.
    apply IH in H. rewrite H.
    repeat match goal with
           | E : buf_set _ _ _ = Ok _ |- _ =>
               apply buf_set_pins in E; rewrite E
           end.
    reflexivity.
Qed.

Lemma clear_buffer_pins
    (large : bool) (rounds : nat) (i : Z) (s s' : Firmata) :
  clear_buffer large rounds i s = Ok s' -> pinConfig s' = pinConfig s.
Proof.
  revert i s. induction rounds as [| rounds IH]; intros i s H.
  - cbn [clear_buffer] in H. now injection H as <-.
  - cbn [clear_buffer] in H.
    destruct (i <? MAX_DATA_BYTES large); [| now injection H as <-].
    unbind H. apply IH in H. apply buf_set_pins in E. congruence.
Qed.

Lemma printFirmwareVersion_pins (s : Firmata) :
  pinConfig (printFirmwareVersion s) = pinConfig s.
Proof.
  unfold printFirmwareVersion.
  destruct (negb _); [| reflexivity].
  unfold endSysex, startSysex.
  match goal with
  | |- context [send_chars ?text ?t] =>
      destruct (send_chars_frame text t) as (_ & E & _);
      generalize dependent (send_chars text t)
  end.
  intros u E. unfold write in *. cbn [pinConfig set_out] in *. exact E.
Qed.

Section IgnoredPin.

Variable large : bool.
Variable cb : Callbacks.
Variable pin : Z.
Hypothesis Hcb : handlers_keep (pin_ignored pin) cb.

Lemma pin_ignored_same (s s' : Firmata) :
  pinConfig s' = pinConfig s -> pin_ignored pin s -> pin_ignored pin s'.
Proof. unfold pin_ignored. now intros ->. Qed.

Lemma processSysexMessage_keeps (s : Firmata) :
  pin_ignored pin s ->
  result_keeps (pin_ignored pin) (processSysexMessage cb s).
Proof.
  intros Hs s' H.
  destruct Hcb as (_ & _ & _ & _ & _ & _ & Hstring & Hsysex).
  unfold processSysexMessage in H. unbind H.
  destruct (_ =? REPORT_FIRMWARE).
  { injection H as <-.
    apply (pin_ignored_same s);
      [apply printFirmwareVersion_pins | assumption]. }
  destruct (_ =? STRING_DATA).
  { destruct (currentStringCallback cb) as [h |] eqn:Eh;
      [| now injection H as <-].
    destruct (_ <=? 0); [now injection H as <- |].
    unbind H. destruct x0 as [j s1].
    apply decode_string_pins in E0.
    unbind H. unbind H.
    injection H as <-. apply (Hstring h eq_refl).
    apply (pin_ignored_same s); [| assumption].
    destruct (negb _).
    - apply buf_set_pins in E2. congruence.
    - injection E2 as <-. assumption. }
  destruct (currentSysexCallback cb) as [h |] eqn:Eh; injection H as <-;
    [now apply (Hsysex h) | assumption].
Qed.

Lemma setPinMode_keeps (p config : Z) (s : Firmata) :
  pin_ignored pin s ->
  result_keeps (pin_ignored pin) (setPinMode cb p config s).
Proof.
  intros Hs s' H. destruct Hcb as (_ & _ & _ & Hmode & _).
  unfold setPinMode, pin_get in H.
  destruct (in_range (pinConfig s) p) eqn:Hrange; [| discriminate].
  destruct (pinConfig s !! Z.to_nat p) as [mode |] eqn:Emode;
    [| discriminate].
  cbn [bind] in H.
  destruct (Z.eqb_spec mode PIN_MODE_IGNORE) as [-> | Hne];
    [now injection H as <- |].
  unbind H. injection H as <-.
  unfold setPinState in E.
  destruct (in_range (pinState s) p); [| discriminate].
  injection E as <-.
  assert (Hother : Z.to_nat p <> Z.to_nat pin).
  { intros Heq. unfold pin_ignored in Hs. congruence. }
  assert (Hstored : pin_ignored pin
            (set_pinConfig (<[Z.to_nat p := config]>
               (pinConfig (set_pinState (<[Z.to_nat p := 0]> (pinState s)) s)))
               (set_pinState (<[Z.to_nat p := 0]> (pinState s)) s))).
  { unfold pin_ignored. cbn [pinConfig set_pinConfig set_pinState].
    now rewrite list_lookup_insert_ne. }
  destruct (currentPinModeCallback cb) as [h |] eqn:Eh; cbn [call2];
    [now apply (Hmode h) | assumption].
Qed.

Lemma systemReset_keeps (s : Firmata) :
  pin_ignored pin s ->
  result_keeps (pin_ignored pin) (systemReset large cb s).
Proof.
  intros Hs s' H. destruct Hcb as (_ & _ & _ & _ & _ & Hreset & _).
  unfold systemReset in H. unbind H. injection H as <-.
  apply clear_buffer_pins in E.
  cbn [pinConfig set_resetting set_waitForData set_executeMultiByteCommand
       set_multiByteChannel] in E.
  assert (Hx : pin_ignored pin (set_sysexBytesRead 0 (set_parsingSysex false x)))
    by (now apply (pin_ignored_same s)).
  destruct (currentSystemResetCallback cb) as [h |] eqn:Eh; cbn [call0].
  - apply (Hreset h eq_refl) in Hx.
    now apply (pin_ignored_same (h (set_sysexBytesRead 0
                                      (set_parsingSysex false x)))).
  - assumption.
Qed.

Lemma execute_command_keeps (s : Firmata) :
  pin_ignored pin s ->
  result_keeps (pin_ignored pin) (execute_command cb s).
Proof.
  intros Hs s' H. destruct Hcb as (Hdig & Hra & Hrd & _ & Hval & _).
  unfold execute_command in H.
  destruct (_ =? ANALOG_MESSAGE).
  { unbind H. unbind H. unbind H. unbind H. unbind H. unbind H. unbind H.
    apply processSysexMessage_keeps in H; [assumption |].
    apply (pin_ignored_same s); [| assumption].
    cbn [pinConfig set_sysexBytesRead].
    repeat match goal with
           | E : buf_set _ _ _ = Ok _ |- _ =>
               apply buf_set_pins in E; rewrite E
           end.
    reflexivity. }
  destruct (_ =? DIGITAL_MESSAGE).
  { destruct (currentDigitalCallback cb) as [h |] eqn:Eh;
      [| now injection H as <-].
    unbind H. unbind H. injection H as <-. now apply (Hdig h). }
  destruct (_ =? SET_PIN_MODE).
  { unbind H. unbind H. now apply setPinMode_keeps in H. }
  destruct (_ =? SET_DIGITAL_PIN_VALUE).
  { destruct (currentPinValueCallback cb) as [h |] eqn:Eh;
      [| now injection H as <-].
    unbind H. unbind H. injection H as <-. now apply (Hval h). }
  destruct (_ =? REPORT_ANALOG).
  { destruct (currentReportAnalogCallback cb) as [h |] eqn:Eh;
      [| now injection H as <-].
    unbind H. injection H as <-. now apply (Hra h). }
  destruct (_ =? REPORT_DIGITAL).
  { destruct (currentReportDigitalCallback cb) as [h |] eqn:Eh;
      [| now injection H as <-].
    unbind H. injection H as <-. now apply (Hrd h). }
  now injection H as <-.
Qed.

Lemma start_command_keeps (command : Z) (s : Firmata) :
  pin_ignored pin s ->
  result_keeps (pin_ignored pin) (start_command large cb command s).
Proof.
  intros Hs s' H. unfold start_command in H.
  destruct (_ || _); [now injection H as <- |].
  destruct (_ || _); [now injection H as <- |].
  destruct (_ =? START_SYSEX); [now injection H as <- |].
  destruct (_ =? SYSTEM_RESET); [now apply systemReset_keeps in H |].
  destruct (_ =? REPORT_VERSION); now injection H as <-.
Qed.

Lemma parse_keeps (b : Z) (s : Firmata) :
  pin_ignored pin s -> result_keeps (pin_ignored pin) (parse large cb b s).
Proof.
  intros Hs s' H. unfold parse in H.
  destruct (b =? SYSTEM_RESET); [now apply systemReset_keeps in H |].
  destruct (parsingSysex s).
  { destruct (b =? END_SYSEX);
      [now apply processSysexMessage_keeps in H |].
    unbind H. apply buf_set_pins in E.
    cbn [sysexBytesRead set_sysexBytesRead] in H.
    destruct (_ =? MAX_DATA_BYTES large); injection H as <-.
    - match goal with
      | |- context [sendString overflow_text ?t] =>
          destruct (sendString_overflow t) as (_ & _ & _ & Ecfg & _);
          assert (Ht : pinConfig t = pinConfig s) by exact E;
          generalize dependent (sendString overflow_text t)
      end.
      intros u Ecfg. apply (pin_ignored_same s); [| assumption].
      cbn [pinConfig set_waitForData set_sysexBytesRead set_parsingSysex].
      congruence.
    - now apply (pin_ignored_same s). }
  destruct (_ && _).
  { unbind H. apply buf_set_pins in E.
    assert (Hx : pin_ignored pin x) by (now apply (pin_ignored_same s)).
    destruct (_ && _); [| now injection H as <-].
    unbind H. injection H as <-.
    now apply execute_command_keeps in E0. }
  destruct (b <? 240); now apply start_command_keeps in H.
Qed.

Lemma parse_bytes_keeps (input : list Z) (s : Firmata) :
  pin_ignored pin s ->
  result_keeps (pin_ignored pin) (parse_bytes large cb input s).
Proof.
  revert s. induction input as [| b input IH]; intros s Hs s' H.
  - now injection H as <-.
  - cbn [parse_bytes] in H. unbind H.
    apply parse_keeps in E; [| assumption]. now apply (IH x).
Qed.

End IgnoredPin.
Lemma sample_callbacks_guarded (pin : Z) :
  handlers_keep (pin_ignored pin) sample_callbacks.
Proof.
  assert (Hsysex : forall c n v s,
            pin_ignored pin s -> pin_ignored pin (sendSysex c n v s)).
  { intros c n v s Hs.
    destruct (sendSysex_frame c n v s) as (_ & E).
    unfold pin_ignored in *. now rewrite E. }
  assert (Hreset : forall s, pin_ignored pin s -> pin_ignored pin (reset_pins s)).
  { apply reset_pins_keeps. intros p s s' Hs E.
    exact (setPinMode_keeps no_callbacks pin (no_callbacks_keep _)
             p PIN_MODE_INPUT s Hs s' E). }
  unfold handlers_keep, sample_callbacks.
  cbn [currentDigitalCallback currentReportAnalogCallback
       currentReportDigitalCallback currentPinModeCallback
       currentPinValueCallback currentSystemResetCallback
       currentStringCallback currentSysexCallback].
  repeat match goal with |- _ /\ _ => split end;
    intros h Eh; try discriminate Eh;
    injection Eh as <-; intros;
    try (now apply Hsysex); try (now apply Hreset); assumption.
Qed.

Lemma pin_mode_callbacks_guarded (pin : Z) :
  handlers_keep (pin_ignored pin) pin_mode_callbacks.
Proof.
  pose proof (sample_callbacks_guarded pin) as Hsample.
  unfold handlers_keep, pin_mode_callbacks, sample_callbacks in *.
  cbn [currentDigitalCallback currentReportAnalogCallback
       currentReportDigitalCallback currentPinModeCallback
       currentPinValueCallback currentSystemResetCallback
       currentStringCallback currentSysexCallback] in *.
  destruct Hsample as (H1 & H2 & H3 & _ & H5 & H6 & H7 & H8).
  repeat match goal with |- _ /\ _ => split end; try assumption.
  intros h Eh a b s Hs. injection Eh as <-. exact Hs.
Qed.

(** C7. The IGNORE guard of [setPinMode]: on a pin whose mode is
    [PIN_MODE_IGNORE] every call, and every run of calls, returns the state
    as it was (mode kept, state not zeroed, no handler invoked whatever is
    attached), and no run of input bytes through [parse] changes that mode
    either, as long as the attached handlers reach the pin table through
    the guard as well; on any other pin the call zeroes the pin's state,
    stores the new mode and then invokes the pin-mode handler if one is
    attached: the result is the handler applied to pin, mode and the
    state with both stored. *)
Theorem setPinMode_write_once
    (cb : Callbacks) (pin config : Z) (s : Firmata) :
  0 <= pin ->
  length (pinState s) = length (pinConfig s) ->
  (pin_ignored pin s ->
     setPinMode cb pin config s = Ok s /\
     (forall configs, setPinMode_each cb pin configs s = Ok s) /\
     (handlers_keep (pin_ignored pin) cb ->
      forall large input s',
        parse_bytes large cb input s = Ok s' -> pin_ignored pin s')) /\
  (forall mode,
     pinConfig s !! Z.to_nat pin = Some mode -> mode <> PIN_MODE_IGNORE ->
     let stored :=
       set_pinConfig (<[Z.to_nat pin := config]> (pinConfig s))
         (set_pinState (<[Z.to_nat pin := 0]> (pinState s)) s) in
     pinState stored !! Z.to_nat pin = Some 0 /\
     pinConfig stored !! Z.to_nat pin = Some config /\
     (forall h, currentPinModeCallback cb = Some h ->
        setPinMode cb pin config s = Ok (h pin config stored)) /\
     (currentPinModeCallback cb = None ->
        setPinMode cb pin config s = Ok stored)).
Proof.
  intros Hpin Hlen. split.
  - intros Hmode. split; [now apply setPinMode_ignored |]. split.
    + induction configs as [| c configs IH]; [reflexivity |].
      cbn [setPinMode_each].
      now rewrite (setPinMode_ignored cb pin c s Hpin Hmode).
    + intros Hcb large input s' Hrun.
      exact (parse_bytes_keeps large cb pin Hcb input s Hmode s' Hrun).
  - intros mode Hmode Hne stored.
    pose proof (lookup_lt_Some _ _ _ Hmode) as Hlt.
    assert (Hcall : setPinMode cb pin config s =
                    Ok (match currentPinModeCallback cb with
                        | Some h => h pin config stored
                        | None => stored
                        end)).
    { unfold setPinMode, setPinState.
      rewrite (pin_get_lookup _ _ _ Hpin Hmode). cbn [bind].
      apply Z.eqb_neq in Hne. rewrite Hne.
      rewrite in_range_true by lia. reflexivity. }
    repeat match goal with |- _ /\ _ => split end.
    + subst stored. cbn [pinState set_pinConfig set_pinState].
      apply list_lookup_insert_eq. lia.
    + subst stored. cbn [pinConfig set_pinConfig].
      now apply list_lookup_insert_eq.
    + intros h Eh. rewrite Hcall, Eh. reflexivity.
    + intros Eh. rewrite Hcall, Eh. reflexivity.
Qed.

Lemma setPinMode_write_once_witness :
  setPinMode pin_mode_callbacks 1 0 sample_state = Ok sample_state /\
  (exists stored,
     setPinMode pin_mode_callbacks 0 3 sample_state
       = Ok (echo_pin_mode 0 3 stored) /\
     pinConfig stored = [3; PIN_MODE_IGNORE; 0; 0] /\
     pinState stored = [0; 1; 0; 0] /\
     written sample_state (echo_pin_mode 0 3 stored) = [SET_PIN_MODE; 0; 3]) /\
  (exists s', parse_bytes false pin_mode_callbacks
                [SET_PIN_MODE; 1; 3; SET_PIN_MODE; 2; 3; SYSTEM_RESET]
                sample_state = Ok s' /\
              pin_ignored 1 s').
Proof.
  destruct (setPinMode_write_once pin_mode_callbacks 1 0 sample_state)
    as [Hignored _]; [lia | reflexivity |].
  destruct (Hignored eq_refl) as (Eone & _ & Hrun).
  split; [exact Eone |]. split.
  - destruct (setPinMode_write_once pin_mode_callbacks 0 3 sample_state)
      as [_ Hset]; [lia | reflexivity |].
    destruct (Hset 1) as (_ & _ & Hfire & _); [reflexivity | discriminate |].
    eexists. split; [exact (Hfire echo_pin_mode eq_refl) |].
    repeat split.
  - destruct (parse_bytes false pin_mode_callbacks
                [SET_PIN_MODE; 1; 3; SET_PIN_MODE; 2; 3; SYSTEM_RESET]
                sample_state) as [s' | f] eqn:Erun;
      [| vm_compute in Erun; discriminate Erun].
    exists s'. split; [reflexivity |].
    exact (Hrun (pin_mode_callbacks_guarded 1) false _ s' Erun).
Defined.

(** ** The block reader *)

Lemma fast_scan_outside_sysex (unread : list Z) (s : Firmata) :
  parsingSysex s = false -> fast_scan unread s = Ok (unread, s).
Proof.
  intros Hsys.
  destruct unread as [| b0 [| b1 [| b2 [| b3 [| b4 unread]]]]];
    cbn [fast_scan]; rewrite ?Hsys; reflexivity.
Qed.

(** A block that arrives outside a sysex message is parsed byte by byte. *)
Lemma processInput_outside_sysex
    (cb : Callbacks) (block : list Z) (s : Firmata) :
  parsingSysex s = false ->
  (length block <= Z.to_nat LARGE_MEM_RCV_BUF_SIZE)%nat ->
  processInput true cb block s =
    (s' <- parse_bytes true cb block s ;; Ok ([], s')).
Proof.
  intros Hsys Hlen. unfold processInput.
  rewrite take_ge, drop_ge by exact Hlen.
  now rewrite fast_scan_outside_sysex.
Qed.

(** The word moved by the fast scan, byte by byte. *)
Lemma load_word_sum (b0 b1 b2 b3 : Z) :
  0 <= b0 < 256 -> 0 <= b1 < 256 -> 0 <= b2 < 256 -> 0 <= b3 < 256 ->
  load_word b0 b1 b2 b3 = b0 + b1 * 2 ^ 8 + (b2 + b3 * 2 ^ 8) * 2 ^ 16.
Proof.
  intros H0 H1 H2 H3. unfold load_word.
  replace (Z.shiftl b3 24) with (Z.shiftl (Z.shiftl b3 8) 16)
    by (rewrite Z.shiftl_shiftl by lia; reflexivity).
  rewrite <- Z.shiftl_lor.
  rewrite (lor_shiftl_add b0 b1 8) by lia.
  rewrite (lor_shiftl_add b2 b3 8) by lia.
  rewrite lor_shiftl_add by lia. reflexivity.
Qed.

Lemma store_load_bytes (b0 b1 b2 b3 : Z) :
  0 <= b0 < 256 -> 0 <= b1 < 256 -> 0 <= b2 < 256 -> 0 <= b3 < 256 ->
  let word := load_word b0 b1 b2 b3 in
  Z.land word 0xFF = b0 /\ Z.land (Z.shiftr word 8) 0xFF = b1 /\
  Z.land (Z.shiftr word 16) 0xFF = b2 /\ Z.land (Z.shiftr word 24) 0xFF = b3.
Proof.
  intros H0 H1 H2 H3 word. subst word.
  rewrite load_word_sum by assumption.
  change 0xFF with (Z.ones 8).
  rewrite !Z.land_ones, !Z.shiftr_div_pow2 by lia.
  change (2 ^ 8) with 256. change (2 ^ 16) with 65536.
  change (2 ^ 24) with 16777216.
  repeat split; Z.to_euclidean_division_equations; lia.
Qed.

Lemma top_bit_clear (b : Z) :
  0 <= b < 256 -> Z.testbit b 7 = false -> b < 128.
Proof.
  intros Hb Hbit. apply Z.testbit_false in Hbit; [| lia].
  change (2 ^ 7) with 128 in Hbit.
  Z.to_euclidean_division_equations. lia.
Qed.

Lemma masked_bit_clear (word k : Z) :
  0 <= k -> Z.land word 0x80808080 = 0 ->
  Z.testbit 0x80808080 k = true -> Z.testbit word k = false.
Proof.
  intros Hk Hland Hmask.
  assert (H : Z.testbit (Z.land word 0x80808080) k = false)
    by (rewrite Hland; apply Z.bits_0).
  rewrite Z.land_spec, Hmask, andb_true_r in H. exact H.
Qed.

Lemma plain_word_bytes (b0 b1 b2 b3 : Z) :
  0 <= b0 < 256 -> 0 <= b1 < 256 -> 0 <= b2 < 256 -> 0 <= b3 < 256 ->
  Z.land (load_word b0 b1 b2 b3) 0x80808080 = 0 ->
  b0 < 128 /\ b1 < 128 /\ b2 < 128 /\ b3 < 128.
Proof.
  intros H0 H1 H2 H3 Hland.
  destruct (store_load_bytes b0 b1 b2 b3 H0 H1 H2 H3) as (E0 & E1 & E2 & E3).
  cbv zeta in *.
  repeat split; apply top_bit_clear; try assumption.
  - rewrite <- E0, Z.land_spec.
    rewrite (masked_bit_clear _ 7) by (assumption || lia || reflexivity).
    reflexivity.
  - rewrite <- E1, Z.land_spec, Z.shiftr_spec by lia.
    rewrite (masked_bit_clear _ (7 + 8)) by (assumption || lia || reflexivity).
    reflexivity.
  - rewrite <- E2, Z.land_spec, Z.shiftr_spec by lia.
    rewrite (masked_bit_clear _ (7 + 16)) by (assumption || lia || reflexivity).
    reflexivity.
  - rewrite <- E3, Z.land_spec, Z.shiftr_spec by lia.
    rewrite (masked_bit_clear _ (7 + 24)) by (assumption || lia || reflexivity).
    reflexivity.
Qed.

Lemma insert_four (l : list Z) (n : nat) (a b c d : Z) :
  (n + 4 <= length l)%nat ->
  <[(n + 3)%nat := d]> (<[(n + 2)%nat := c]> (<[(n + 1)%nat := b]>
    (<[n := a]> l)))
  = take n l ++ [a; b; c; d] ++ drop (n + 4) l.
Proof.
  intros Hlen.
  assert (Htake : length (take n l) = n) by (rewrite length_take; lia).
  rewrite <- (take_drop n l) at 1.
  rewrite !insert_app_r_alt by (rewrite ?length_app, ?length_insert; lia).
  rewrite Htake. f_equal.
  rewrite <- drop_drop.
  destruct (drop n l) as [| x0 [| x1 [| x2 [| x3 rest]]]] eqn:E;
    try (apply (f_equal length) in E; rewrite length_drop in E;
         cbn [length] in E; lia).
  replace (n - n)%nat with 0%nat by lia.
  replace (n + 1 - n)%nat with 1%nat by lia.
  replace (n + 2 - n)%nat with 2%nat by lia.
  replace (n + 3 - n)%nat with 3%nat by lia.
  reflexivity.
Qed.

Lemma store_word_bytes (pos b0 b1 b2 b3 : Z) (s : Firmata) :
  0 <= b0 < 256 -> 0 <= b1 < 256 -> 0 <= b2 < 256 -> 0 <= b3 < 256 ->
  0 <= pos -> (Z.to_nat pos + 4 <= length (storedInputData s))%nat ->
  store_word pos (load_word b0 b1 b2 b3) s =
    Ok (set_storedInputData
          (take (Z.to_nat pos) (storedInputData s) ++ [b0; b1; b2; b3]
             ++ drop (Z.to_nat pos + 4) (storedInputData s)) s).
Proof.
  intros H0 H1 H2 H3 Hpos Hlen.
  destruct (store_load_bytes b0 b1 b2 b3 H0 H1 H2 H3) as (E0 & E1 & E2 & E3).
  cbv zeta in *. unfold store_word. rewrite E0, E1, E2, E3.
  rewrite buf_set_ok by lia. cbn [bind].
  rewrite buf_set_ok
    by (cbn [storedInputData set_storedInputData];
        rewrite ?length_insert; lia).
  cbn [bind].
  rewrite buf_set_ok
    by (cbn [storedInputData set_storedInputData];
        rewrite ?length_insert; lia).
  cbn [bind].
  rewrite buf_set_ok
    by (cbn [storedInputData set_storedInputData];
        rewrite ?length_insert; lia).
  cbn [storedInputData set_storedInputData].
  replace (Z.to_nat (pos + 1)) with (Z.to_nat pos + 1)%nat by lia.
  replace (Z.to_nat (pos + 2)) with (Z.to_nat pos + 2)%nat by lia.
  replace (Z.to_nat (pos + 3)) with (Z.to_nat pos + 3)%nat by lia.
  rewrite insert_four by exact Hlen.
  now destruct s.
Qed.

Section BlockReader.

Variable large : bool.
Variable cb : Callbacks.

Lemma fast_scan_step (b0 b1 b2 b3 b4 : Z) (tl : list Z) (s : Firmata) :
  fast_scan (b0 :: b1 :: b2 :: b3 :: b4 :: tl) s =
    if parsingSysex s then
      let nextWord := load_word b0 b1 b2 b3 in
      if negb (Z.land nextWord 0x80808080 =? 0)
      then Ok (b0 :: b1 :: b2 :: b3 :: b4 :: tl, s)
      else
        s <- store_word (sysexBytesRead s) nextWord s ;;
        fast_scan (b4 :: tl) (set_sysexBytesRead (sysexBytesRead s + 4) s)
    else Ok (b0 :: b1 :: b2 :: b3 :: b4 :: tl, s).
Proof. reflexivity. Qed.

(** With room in the buffer for everything unread, the fast scan is a
    prefix of the byte-wise parse. *)
Lemma fast_scan_with_room (fuel : nat) (unread : list Z) (s : Firmata) :
  (length unread <= fuel)%nat ->
  parsingSysex s = true -> Forall (fun b => 0 <= b < 256) unread ->
  0 <= sysexBytesRead s ->
  Z.of_nat (length (storedInputData s)) = MAX_DATA_BYTES large ->
  sysexBytesRead s + Z.of_nat (length unread) < MAX_DATA_BYTES large ->
  exists rest s',
    fast_scan unread s = Ok (rest, s') /\
    parse_bytes large cb unread s = parse_bytes large cb rest s'.
Proof.
  revert unread s.
  induction fuel as [| fuel IH]; intros unread s Hfuel Hsys Hbytes Hn Hlen Hroom.
  { destruct unread; [| cbn in Hfuel; lia]. now exists [], s. }
  destruct unread as [| b0 [| b1 [| b2 [| b3 [| b4 tl]]]]];
    try (eexists; eexists; split; reflexivity).
  rewrite fast_scan_step, Hsys. cbv zeta.
  destruct (negb (Z.land (load_word b0 b1 b2 b3) 0x80808080 =? 0)) eqn:Etest;
    [eexists; eexists; split; reflexivity |].
  apply negb_false_iff, Z.eqb_eq in Etest.
  apply Forall_cons in Hbytes as [H0 Hbytes].
  apply Forall_cons in Hbytes as [H1 Hbytes].
  apply Forall_cons in Hbytes as [H2 Hbytes].
  apply Forall_cons in Hbytes as [H3 Hbytes].
  destruct (plain_word_bytes b0 b1 b2 b3 H0 H1 H2 H3 Etest)
    as (L0 & L1 & L2 & L3).
  cbn [length] in Hroom, Hfuel.
  rewrite store_word_bytes by (assumption || lia). cbn [bind].
  match goal with
  | |- context [fast_scan (b4 :: tl) ?t] =>
      destruct (IH (b4 :: tl) t) as (rest & s' & Escan & Eparse);
        cbn [length parsingSysex sysexBytesRead storedInputData
             set_sysexBytesRead set_storedInputData];
        rewrite ?length_app, ?length_take, ?length_drop;
        cbn [length]; try assumption; try lia
  end.
  exists rest, s'. split; [exact Escan |]. rewrite <- Eparse.
  change (b0 :: b1 :: b2 :: b3 :: b4 :: tl)
    with ([b0; b1; b2; b3] ++ b4 :: tl).
  rewrite parse_bytes_app.
  rewrite collect_sysex; try assumption.
  - cbn [bind length]. do 2 f_equal; now destruct s.
  - repeat constructor; unfold data_byte, SYSTEM_RESET, END_SYSEX; lia.
  - cbn [length]. lia.
Qed.

End BlockReader.

(** A block for which the buffer has room is handled by [processInput]
    exactly as by [parse], byte after byte. *)
Lemma processInput_with_room
    (cb : Callbacks) (block : list Z) (s : Firmata) :
  (length block <= Z.to_nat LARGE_MEM_RCV_BUF_SIZE)%nat ->
  parsingSysex s = true -> Forall (fun b => 0 <= b < 256) block ->
  0 <= sysexBytesRead s ->
  Z.of_nat (length (storedInputData s)) = MAX_DATA_BYTES true ->
  sysexBytesRead s + Z.of_nat (length block) < MAX_DATA_BYTES true ->
  processInput true cb block s =
    (s' <- parse_bytes true cb block s ;; Ok ([], s')).
Proof.
  intros Hblock Hsys Hbytes Hn Hlen Hroom. unfold processInput.
  rewrite take_ge, drop_ge by exact Hblock.
  destruct (fast_scan_with_room true cb (length block) block s)
    as (rest & s' & -> & ->); try assumption; try lia.
  reflexivity.
Qed.

(** C4, at the failing input. The engine has received [START_SYSEX]; the
    next read delivers 252 zero bytes, [END_SYSEX] and four more zeros in
    one block. Byte by byte, the 252nd data byte fills the buffer and takes
    the overflow path: the diagnostic is emitted and nothing is dispatched.
    Through the block reader the fast scan copies the 252 bytes without the
    capacity check, and the message is dispatched to the sysex handler with
    no diagnostic. With 260 zero bytes the fast scan writes past the end of
    [storedInputData]. *)
Theorem block_read_skips_capacity_check :
  let block := replicate 252 0 ++ [END_SYSEX; 0; 0; 0; 0] in
  exists collecting byte_wise bulk,
    parse true sample_callbacks START_SYSEX (zero_object true 4)
      = Ok collecting /\
    parse_bytes true sample_callbacks block collecting = Ok byte_wise /\
    processInput true sample_callbacks block collecting = Ok ([], bulk) /\
    written collecting byte_wise = overflow_message /\
    written collecting bulk
      = [START_SYSEX; 0] ++ concat (replicate 251 [0; 0]) ++ [END_SYSEX] /\
    out byte_wise <> out bulk /\
    processInput true sample_callbacks (replicate 260 0) collecting
      = Err BufferOutOfBounds /\
    exists s', parse_bytes true sample_callbacks (replicate 260 0) collecting
                 = Ok s' /\ written collecting s' = overflow_message.
Proof.
  eexists. eexists. eexists.
  split; [vm_compute; reflexivity |].
  split; [vm_compute; reflexivity |].
  split; [vm_compute; reflexivity |].
  split; [vm_compute; reflexivity |].
  split; [vm_compute; reflexivity |].
  split; [vm_compute; discriminate |].
  split; [vm_compute; reflexivity |].
  eexists. split; vm_compute; reflexivity.
Qed.

(** * Further properties *)

(** ** The two-7-bit encoding *)

Lemma two7bit_groups (value : Z) :
  two7bit value = [value mod 128; (value / 128) mod 128].
Proof.
  unfold two7bit. now rewrite !mask7, Z.shiftr_div_pow2 by lia.
Qed.

Lemma two7bit_seven_bit (value : Z) : Forall seven_bit (two7bit value).
Proof.
  rewrite two7bit_groups. unfold seven_bit.
  repeat constructor; apply Z.mod_pos_bound; lia.
Qed.

Lemma sendValueAsTwo7bitBytes_out (value : Z) (s : Firmata) :
  out (sendValueAsTwo7bitBytes value s) = out s ++ two7bit value.
Proof.
  unfold sendValueAsTwo7bitBytes, write, two7bit. cbn [out set_out].
  rewrite !mask7, !to_byte_mod128, <- app_assoc. reflexivity.
Qed.

Lemma send_chars_written (text : list Z) (s : Firmata) :
  out (send_chars text s) = out s ++ flat_map two7bit text.
Proof.
  rewrite send_chars_out. f_equal.
  induction text as [| c text IH]; [reflexivity |].
  cbn [flat_map]. rewrite IH. unfold two7bit.
  now rewrite !mask7, !to_byte_mod128.
Qed.

Lemma flat_two7bit_seven_bit (text : list Z) :
  Forall seven_bit (flat_map two7bit text).
Proof.
  induction text as [| c text IH]; cbn [flat_map]; [constructor |].
  apply Forall_app. split; [apply two7bit_seven_bit | exact IH].
Qed.

Lemma length_flat_two7bit (text : list Z) :
  length (flat_map two7bit text) = (2 * length text)%nat.
Proof.
  induction text as [| c text IH]; cbn [flat_map two7bit length app]; lia.
Qed.

Lemma decode_pairs_two7bit (text : list Z) :
  decode_pairs (flat_map two7bit text) = map to_byte text.
Proof.
  induction text as [| c text IH]; [reflexivity |].
  cbn [flat_map map]. rewrite two7bit_groups. cbn [app decode_pairs].
  rewrite IH. f_equal. unfold to_byte.
  rewrite Z.shiftl_mul_pow2 by lia. change (2 ^ 7) with 128.
  Z.to_euclidean_division_equations. lia.
Qed.

Lemma map_to_byte_bytes (text : list Z) :
  Forall (fun c => 0 <= c < 256) text -> map to_byte text = text.
Proof.
  induction 1 as [| c text Hc _ IH]; [reflexivity |].
  cbn [map]. now rewrite IH, to_byte_small.
Qed.

(** ** The string message *)

Ltac norm_app :=
  repeat first [rewrite <- !app_assoc | progress cbn [app]].

Lemma set_storedInputData_twice (a b : list Z) (s : Firmata) :
  set_storedInputData a (set_storedInputData b s) = set_storedInputData a s.
Proof. reflexivity. Qed.

Lemma set_storedInputData_same (s : Firmata) :
  set_storedInputData (storedInputData s) s = s.
Proof. now destruct s. Qed.

Lemma decode_pairs_cons_inv (payload : list Z) (n : nat) :
  length (decode_pairs payload) = S n ->
  exists low high payload',
    payload = low :: high :: payload' /\
    length (decode_pairs payload') = n.
Proof.
  destruct payload as [| low [| high payload']]; cbn [decode_pairs length];
    try discriminate.
  intros [= E]. now exists low, high, payload'.
Qed.

(** The decoding loop on a buffer split as: characters decoded so far,
    a gap one longer, the pairs still to decode, the rest. It returns the
    buffer with the decoded characters in front and the length unchanged. *)
Lemma decode_string_run
    (rounds : nat) (done gap todo rest : list Z) (s : Firmata) :
  storedInputData s = done ++ gap ++ todo ++ rest ->
  length gap = S (length done) ->
  rounds = length (decode_pairs todo) ->
  2 * Z.of_nat (length done + rounds) + 1 <= 255 ->
  exists tail,
    decode_string rounds (Z.of_nat (length done + rounds))
      (2 * Z.of_nat (length done) + 1) (Z.of_nat (length done)) s
    = Ok (Z.of_nat (length done + rounds),
          set_storedInputData (done ++ decode_pairs todo ++ tail) s) /\
    length (done ++ decode_pairs todo ++ tail) = length (storedInputData s).
Proof.
  revert done gap todo s.
  induction rounds as [| rounds IH]; intros done gap todo s Hbuf Hgap Hrounds Hsmall.
  - exists (gap ++ todo ++ rest).
    symmetry in Hrounds. apply length_zero_iff_nil in Hrounds.
    rewrite Hrounds, Nat.add_0_r. cbn [decode_string app].
    rewrite <- Hbuf, set_storedInputData_same. now split.
  - symmetry in Hrounds.
    destruct (decode_pairs_cons_inv todo rounds Hrounds)
      as (low & high & todo' & -> & Hrounds').
    destruct gap as [| g0 gap']; [discriminate Hgap |].
    cbn [length] in Hgap. injection Hgap as Hgap.
    cbn [decode_string].
    replace (Z.of_nat (length done) <? Z.of_nat (length done + S rounds))
      with true by (symmetry; apply Z.ltb_lt; lia).
    (* c = storedInputData[i] *)
    rewrite (buf_get_ok _ low); [| lia |].
    2:{ rewrite Hbuf.
        replace (done ++ (g0 :: gap') ++ (low :: high :: todo') ++ rest)
          with ((done ++ g0 :: gap') ++ low :: high :: todo' ++ rest)
          by (norm_app; reflexivity).
        apply list_lookup_middle. rewrite length_app. cbn [length]. lia. }
    cbn [bind].
    (* storedInputData[j] = c *)
    rewrite buf_set_ok; [| lia |].
    2:{ rewrite Hbuf, !length_app. cbn [length]. lia. }
    cbn [bind].
    rewrite (buf_get_ok _ low); [| lia |].
    2:{ cbn [storedInputData set_storedInputData].
        apply list_lookup_insert_eq.
        rewrite Hbuf, !length_app. cbn [length]. lia. }
    cbn [bind].
    rewrite (to_byte_small (2 * Z.of_nat (length done) + 1 + 1)) by lia.
    rewrite (buf_get_ok _ high); [| lia |].
    2:{ cbn [storedInputData set_storedInputData].
        rewrite list_lookup_insert_ne by lia.
        rewrite Hbuf.
        replace (done ++ (g0 :: gap') ++ (low :: high :: todo') ++ rest)
          with ((done ++ g0 :: gap' ++ [low]) ++ high :: todo' ++ rest)
          by (norm_app; reflexivity).
        apply list_lookup_middle.
        rewrite !length_app. cbn [length]. rewrite length_app.
        cbn [length]. lia. }
    cbn [bind].
    rewrite buf_set_ok; [| lia |].
    2:{ cbn [storedInputData set_storedInputData].
        rewrite length_insert, Hbuf, !length_app. cbn [length]. lia. }
    cbn [bind storedInputData set_storedInputData].
    rewrite set_storedInputData_twice, list_insert_insert_eq.
    rewrite (to_byte_small (2 * Z.of_nat (length done) + 1 + 1 + 1)) by lia.
    rewrite (to_byte_small (Z.of_nat (length done) + 1)) by lia.
    set (d := to_byte (low + Z.shiftl high 7)).
    destruct (IH (done ++ [d]) (gap' ++ [low; high]) todo'
                (set_storedInputData
                   (<[Z.to_nat (Z.of_nat (length done)) := d]> (storedInputData s)) s))
      as (tail & Erun & Elen).
    + cbn [storedInputData set_storedInputData]. rewrite Hbuf.
      rewrite Nat2Z.id.
      replace (length done) with (length done + 0)%nat at 1 by lia.
      rewrite insert_app_r. cbn [insert list_insert].
      norm_app. reflexivity.
    + rewrite !length_app. cbn [length]. lia.
    + now rewrite Hrounds'.
    + rewrite length_app. cbn [length]. lia.
    + exists tail.
      rewrite length_app in Erun. cbn [length] in Erun.
      replace (length done + 1 + rounds)%nat
        with (length done + S rounds)%nat in Erun by lia.
      replace (2 * Z.of_nat (length done + 1) + 1)
        with (2 * Z.of_nat (length done) + 1 + 1 + 1) in Erun by lia.
      replace (Z.of_nat (length done + 1))
        with (Z.of_nat (length done) + 1) in Erun by lia.
      rewrite Erun, set_storedInputData_twice.
      cbn [decode_pairs]. fold d.
      split; [norm_app; reflexivity |].
      transitivity (length ((done ++ [d]) ++ decode_pairs todo' ++ tail));
        [f_equal; norm_app; reflexivity |].
      rewrite Elen. cbn [storedInputData set_storedInputData].
      now rewrite length_insert.
Qed.

Lemma list_pair_ind {A : Type} (P : list A -> Prop) :
  P [] -> (forall a, P [a]) -> (forall a b l, P l -> P (a :: b :: l)) ->
  forall l, P l.
Proof.
  intros Hnil Hone Hstep l.
  assert (H : P l /\ forall a, P (a :: l)).
  { induction l as [| b l [IH1 IH2]]; [now split |].
    split; [apply IH2 |]. intros a. now apply Hstep. }
  apply H.
Qed.

Lemma length_decode_pairs (payload : list Z) :
  Z.of_nat (length (decode_pairs payload))
    = Z.quot (Z.of_nat (length payload)) 2.
Proof.
  induction payload as [| a | a b payload IH] using list_pair_ind;
    [reflexivity | reflexivity |].
  cbn [decode_pairs length].
  rewrite !Nat2Z.inj_succ, IH.
  rewrite !Z.quot_div_nonneg by lia.
  Z.to_euclidean_division_equations. lia.
Qed.

Lemma cstring_app_nul (text tail : list Z) :
  cstring (text ++ 0 :: tail) = cstring text.
Proof.
  induction text as [| c text IH]; [reflexivity |].
  cbn [app cstring]. destruct (c =? 0); [reflexivity | now rewrite IH].
Qed.

Lemma cstring_no_nul (text : list Z) :
  Forall (fun c => c <> 0) text -> cstring text = text.
Proof.
  induction 1 as [| c text Hc _ IH]; [reflexivity |].
  cbn [cstring]. apply Z.eqb_neq in Hc. now rewrite Hc, IH.
Qed.

(** The string case of [processSysexMessage] on a buffer that holds the
    command and at least one pair: the handler gets the decoded characters
    up to the first NUL; only the buffer contents change. *)
Lemma processSysexMessage_string
    (cb : Callbacks) (h : list Z -> Firmata -> Firmata)
    (data rest : list Z) (s : Firmata) :
  currentStringCallback cb = Some h ->
  storedInputData s = STRING_DATA :: data ++ rest ->
  sysexBytesRead s = 1 + Z.of_nat (length data) ->
  (2 <= length data)%nat -> Z.of_nat (length data) < 255 ->
  exists buffer,
    processSysexMessage cb s
      = Ok (h (cstring (decode_pairs data)) (set_storedInputData buffer s)) /\
    length buffer = length (storedInputData s).
Proof.
  intros Hcb Hbuf Hread Hpair Hsmall.
  pose proof (length_decode_pairs data) as Hn.
  rewrite Z.quot_div_nonneg in Hn by lia.
  set (n := length (decode_pairs data)) in *.
  assert (Hn1 : (1 <= n)%nat /\ 2 * Z.of_nat n <= Z.of_nat (length data)).
  { split; Z.to_euclidean_division_equations; lia. }
  destruct Hn1 as [Hn1 Hn2].
  unfold processSysexMessage.
  rewrite (buf_get_ok 0 STRING_DATA) by (rewrite ?Hbuf; first [lia | reflexivity]).
  cbn [bind].
  change (STRING_DATA =? REPORT_FIRMWARE) with false.
  change (STRING_DATA =? STRING_DATA) with true. cbn iota. rewrite Hcb.
  rewrite Hread.
  replace (1 + Z.of_nat (length data) - 1) with (Z.of_nat (length data)) by lia.
  rewrite Z.quot_div_nonneg, <- Hn by lia.
  rewrite (to_byte_small (Z.of_nat n)) by lia.
  replace (Z.of_nat n <=? 0) with false by (symmetry; apply Z.leb_gt; lia).
  rewrite Nat2Z.id.
  destruct (decode_string_run n [] [STRING_DATA] data rest s)
    as (tail & Erun & Elen); try reflexivity; try (cbn [length]; lia);
    [exact Hbuf |].
  cbn [app length Nat.add] in Erun, Elen.
  change (2 * Z.of_nat 0 + 1) with 1 in Erun.
  change (Z.of_nat 0) with 0 in Erun.
  rewrite Erun. cbn [bind]. fold n in Elen.
  assert (Htail : tail <> []).
  { intros ->. rewrite app_nil_r, Hbuf in Elen.
    cbn [length] in Elen. rewrite length_app in Elen. fold n in Elen. lia. }
  destruct tail as [| t0 tail']; [contradiction |].
  destruct (decode_pairs data) as [| d ds] eqn:ED using rev_ind;
    [cbn [length] in n; subst n; lia |].
  clear IHds.
  assert (En : n = S (length ds))
    by (subst n; rewrite length_app; cbn [length]; lia).
  rewrite <- app_assoc in Elen. rewrite <- app_assoc. cbn [app] in *.
  rewrite (buf_get_ok (Z.of_nat n - 1) d); [| lia |].
  2:{ cbn [storedInputData set_storedInputData].
      replace (Z.to_nat (Z.of_nat n - 1)) with (length ds) by lia.
      now apply list_lookup_middle. }
  cbn [bind].
  destruct (Z.eqb_spec d 0) as [-> | Hd]; cbn [negb bind].
  - eexists. split; [| exact Elen].
    cbn [storedInputData set_storedInputData].
    now rewrite cstring_app_nul, (cstring_app_nul ds []).
  - rewrite buf_set_ok; [| lia |].
    2:{ cbn [storedInputData set_storedInputData].
        rewrite !length_app. cbn [length]. lia. }
    cbn [bind storedInputData set_storedInputData].
    rewrite set_storedInputData_twice.
    replace (Z.to_nat (Z.of_nat n)) with (length ds + 1)%nat by lia.
    rewrite insert_app_r. cbn [insert list_insert].
    eexists. split.
    + replace (ds ++ d :: 0 :: tail') with ((ds ++ [d]) ++ 0 :: tail')
        by (now rewrite <- app_assoc).
      now rewrite cstring_app_nul.
    + rewrite <- Elen, !length_app. cbn [length]. lia.
Qed.

Lemma seven_bit_data_byte (b : Z) : seven_bit b -> data_byte b.
Proof. unfold seven_bit, data_byte, SYSTEM_RESET, END_SYSEX. lia. Qed.

Lemma Forall_seven_bit_data_byte (l : list Z) :
  Forall seven_bit l -> Forall data_byte l.
Proof.
  intros H. eapply Forall_impl; [exact H | apply seven_bit_data_byte].
Qed.

(** A whole sysex message with room in the buffer reaches
    [processSysexMessage] in the collected state. *)
Lemma sysex_message
    (large : bool) (cb : Callbacks) (data : list Z) (s : Firmata) :
  parsingSysex s = false -> Forall data_byte data ->
  Z.of_nat (length (storedInputData s)) = MAX_DATA_BYTES large ->
  Z.of_nat (length data) < MAX_DATA_BYTES large ->
  parse_bytes large cb (START_SYSEX :: data ++ [END_SYSEX]) s
    = processSysexMessage cb (collected data s).
Proof.
  intros Hsys Hdata Hlen Hroom.
  change (START_SYSEX :: data ++ [END_SYSEX])
    with ((START_SYSEX :: data) ++ [END_SYSEX]).
  rewrite parse_bytes_app, collect_message by assumption.
  cbn [bind parse_bytes].
  rewrite parse_end_sysex by reflexivity.
  destruct (processSysexMessage cb _); reflexivity.
Qed.

Lemma string_message_run
    (large : bool) (cb : Callbacks) (h : list Z -> Firmata -> Firmata)
    (data : list Z) (s : Firmata) :
  currentStringCallback cb = Some h ->
  parsingSysex s = false ->
  Z.of_nat (length (storedInputData s)) = MAX_DATA_BYTES large ->
  Forall data_byte data -> (2 <= length data)%nat ->
  1 + Z.of_nat (length data) < MAX_DATA_BYTES large ->
  exists t,
    parse_bytes large cb
      (START_SYSEX :: STRING_DATA :: data ++ [END_SYSEX]) s
      = Ok (h (cstring (decode_pairs data)) t) /\
    same_io s t /\ parsingSysex t = false /\
    waitForData t = waitForData s /\
    length (storedInputData t) = length (storedInputData s).
Proof.
  intros Hcb Hsys Hlen Hdata Hpair Hroom.
  pose proof (MAX_DATA_BYTES_pos large) as Hmax.
  assert (Hcmd : data_byte STRING_DATA) by (repeat split; discriminate).
  change (START_SYSEX :: STRING_DATA :: data ++ [END_SYSEX])
    with (START_SYSEX :: (STRING_DATA :: data) ++ [END_SYSEX]).
  rewrite sysex_message; try assumption;
    [| now constructor | cbn [length]; lia].
  destruct (processSysexMessage_string cb h data
              (drop (length (STRING_DATA :: data)) (storedInputData s))
              (collected (STRING_DATA :: data) s))
    as (buffer & Erun & Ebuf); try assumption; try reflexivity;
    [cbn [collected sysexBytesRead set_parsingSysex set_sysexBytesRead length];
     lia | lia |].
  eexists. split; [exact Erun |].
  unfold same_io.
  cbn [pinConfig pinState out console parsingSysex waitForData storedInputData
       set_storedInputData collected set_parsingSysex set_sysexBytesRead].
  repeat split.
  rewrite Ebuf.
  cbn [storedInputData collected set_parsingSysex set_sysexBytesRead
       set_storedInputData].
  rewrite length_app, length_drop. cbn [length] in *. lia.
Qed.

(** X1. A string message [F0 71 <pairs> F7] with at least one pair and
    room in the buffer invokes the string handler, when one is attached,
    with the characters decoded pair by pair ([low + (high << 7)] kept in
    a byte), cut at the first NUL. The handler runs on a state whose pin
    table and streams are untouched, with the sysex flag lowered. *)
Theorem string_message_decoded
    (large : bool) (cb : Callbacks) (h : list Z -> Firmata -> Firmata)
    (data : list Z) (s : Firmata) :
  currentStringCallback cb = Some h ->
  parsingSysex s = false ->
  Z.of_nat (length (storedInputData s)) = MAX_DATA_BYTES large ->
  Forall data_byte data -> (2 <= length data)%nat ->
  1 + Z.of_nat (length data) < MAX_DATA_BYTES large ->
  exists t,
    parse_bytes large cb
      (START_SYSEX :: STRING_DATA :: data ++ [END_SYSEX]) s
      = Ok (h (cstring (decode_pairs data)) t) /\
    same_io s t /\ parsingSysex t = false /\
    waitForData t = waitForData s /\
    length (storedInputData t) = length (storedInputData s).
Proof. apply string_message_run. Qed.

Lemma string_message_decoded_witness :
  exists t,
    parse_bytes false sample_callbacks
      [0xF0; 0x71; 0x48; 0x00; 0x69; 0x00; 0xF7] (zero_object false 4)
      = Ok (echo_string [0x48; 0x69] t).
Proof.
  destruct (string_message_decoded false sample_callbacks echo_string
              [0x48; 0x00; 0x69; 0x00] (zero_object false 4))
    as (t & Erun & _); try reflexivity.
  - repeat constructor; discriminate.
  - cbn [length]. lia.
  - exists t. exact Erun.
Defined.

(** X2. A string message too short to hold a pair (no payload byte, or a
    single one), or any string message when no string handler is attached,
    is dropped: the message is collected and closed, and nothing is
    invoked or written. *)
Theorem string_message_dropped
    (large : bool) (cb : Callbacks) (data : list Z) (s : Firmata) :
  parsingSysex s = false ->
  Z.of_nat (length (storedInputData s)) = MAX_DATA_BYTES large ->
  Forall data_byte data ->
  1 + Z.of_nat (length data) < MAX_DATA_BYTES large ->
  (length data < 2)%nat \/ currentStringCallback cb = None ->
  parse_bytes large cb
    (START_SYSEX :: STRING_DATA :: data ++ [END_SYSEX]) s
    = Ok (collected (STRING_DATA :: data) s) /\
  same_io s (collected (STRING_DATA :: data) s).
Proof.
  intros Hsys Hlen Hdata Hroom Hcase.
  assert (Hcmd : data_byte STRING_DATA) by (repeat split; discriminate).
  split; [| repeat split].
  change (START_SYSEX :: STRING_DATA :: data ++ [END_SYSEX])
    with (START_SYSEX :: (STRING_DATA :: data) ++ [END_SYSEX]).
  rewrite sysex_message; try assumption;
    [| now constructor | cbn [length]; lia].
  unfold processSysexMessage.
  rewrite (buf_get_ok 0 STRING_DATA) by (first [lia | reflexivity]).
  cbn [bind].
  change (STRING_DATA =? REPORT_FIRMWARE) with false.
  change (STRING_DATA =? STRING_DATA) with true. cbn iota.
  destruct (currentStringCallback cb) as [h |]; [| reflexivity].
  destruct Hcase as [Hshort | Hnone]; [| discriminate Hnone].
  destruct data as [| a [| b data]]; try reflexivity.
  cbn [length] in Hshort. lia.
Qed.

Lemma string_message_dropped_witness :
  parse_bytes false sample_callbacks [0xF0; 0x71; 0x48; 0xF7]
    (zero_object false 4)
  = Ok (collected [0x71; 0x48] (zero_object false 4)).
Proof.
  apply (string_message_dropped false sample_callbacks [0x48]
           (zero_object false 4)); try reflexivity.
  - repeat constructor; discriminate.
  - left. cbn [length]. lia.
Defined.

(** ** What the encoder writes, read back by the parser *)

Lemma sendSysex_written (command bytec : Z) (bytev : list Z) (s : Firmata) :
  written s (sendSysex command bytec bytev s)
    = START_SYSEX :: to_byte command
        :: flat_map two7bit (take (Z.to_nat bytec) bytev) ++ [END_SYSEX].
Proof.
  apply written_app. unfold sendSysex, endSysex, startSysex, write.
  cbn [out set_out]. rewrite send_chars_written. cbn [out set_out].
  norm_app. reflexivity.
Qed.

Lemma sendString_written (text : list Z) (s : Firmata) :
  written s (sendString text s)
    = START_SYSEX :: STRING_DATA :: flat_map two7bit text ++ [END_SYSEX].
Proof.
  apply written_app. unfold sendString, endSysex, startSysex, write.
  cbn [out set_out]. rewrite send_chars_written. cbn [out set_out].
  destruct (negb (outputIsConsole s)); cbn [out Serial_println set_console];
    norm_app; reflexivity.
Qed.

Lemma sendSysex_frame_bytes
    (command bytec : Z) (bytev : list Z) (s : Firmata) :
  seven_bit command -> 0 <= bytec <= Z.of_nat (length bytev) ->
  Forall (fun b => 0 <= b < 256) bytev ->
  exists payload,
    written s (sendSysex command bytec bytev s)
      = START_SYSEX :: command :: payload ++ [END_SYSEX] /\
    Forall seven_bit payload /\
    Z.of_nat (length payload) = 2 * bytec /\
    decode_pairs payload = take (Z.to_nat bytec) bytev.
Proof.
  intros Hcmd Hcount Hbytes.
  exists (flat_map two7bit (take (Z.to_nat bytec) bytev)).
  split; [| split; [| split]].
  - rewrite sendSysex_written, to_byte_small; [reflexivity |].
    unfold seven_bit in Hcmd. lia.
  - apply flat_two7bit_seven_bit.
  - rewrite length_flat_two7bit, length_take. lia.
  - rewrite decode_pairs_two7bit. apply map_to_byte_bytes.
    now apply Forall_take.
Qed.

(** X3. The frame [sendSysex] writes is well formed whatever the data:
    start marker, command, two bytes with the top bit clear for each of the
    first [bytec] data bytes, end marker; the pairs decode back to the data
    bytes. *)
Theorem sendSysex_wire
    (command bytec : Z) (bytev : list Z) (s : Firmata) :
  seven_bit command -> 0 <= bytec <= Z.of_nat (length bytev) ->
  Forall (fun b => 0 <= b < 256) bytev ->
  exists payload,
    written s (sendSysex command bytec bytev s)
      = START_SYSEX :: command :: payload ++ [END_SYSEX] /\
    Forall seven_bit payload /\
    Z.of_nat (length payload) = 2 * bytec /\
    decode_pairs payload = take (Z.to_nat bytec) bytev.
Proof. apply sendSysex_frame_bytes. Qed.

Lemma sendSysex_wire_witness :
  exists payload,
    written (zero_object false 4)
      (sendSysex 0x50 2 [0xFF; 0x80] (zero_object false 4))
      = START_SYSEX :: 0x50 :: payload ++ [END_SYSEX] /\
    Forall seven_bit payload /\ decode_pairs payload = [0xFF; 0x80].
Proof.
  destruct (sendSysex_wire 0x50 2 [0xFF; 0x80] (zero_object false 4))
    as (payload & Ew & Hseven & _ & Edec).
  - unfold seven_bit. lia.
  - cbn [length]. lia.
  - repeat constructor; lia.
  - exists payload. now split.
Defined.

Lemma processSysexMessage_generic
    (cb : Callbacks) (command : Z) (args : list Z) (s : Firmata) :
  command <> REPORT_FIRMWARE -> command <> STRING_DATA ->
  Z.of_nat (length args) < 255 ->
  processSysexMessage cb (collected (command :: args) s) =
    Ok (match currentSysexCallback cb with
        | Some h =>
            h command (Z.of_nat (length args))
              (args ++ drop (S (length args)) (storedInputData s))
              (collected (command :: args) s)
        | None => collected (command :: args) s
        end).
Proof.
  intros Hfw Hstr Hsmall. unfold processSysexMessage.
  rewrite (buf_get_ok 0 command) by (first [lia | reflexivity]).
  cbn [bind]. apply Z.eqb_neq in Hfw, Hstr. rewrite Hfw, Hstr.
  destruct (currentSysexCallback cb); [| reflexivity].
  cbn [collected sysexBytesRead storedInputData set_parsingSysex
       set_sysexBytesRead set_storedInputData length].
  replace (Z.of_nat (S (length args)) - 1) with (Z.of_nat (length args)) by lia.
  rewrite to_byte_small by lia. reflexivity.
Qed.

(** X4. A sysex message written by [sendSysex] and fed to a receiving
    engine reaches its sysex handler with the same command, twice the
    count, and arguments whose pairs decode to the bytes sent. *)
Theorem sendSysex_received
    (large : bool) (cb : Callbacks)
    (h : Z -> Z -> list Z -> Firmata -> Firmata)
    (command bytec : Z) (bytev : list Z) (sender s : Firmata) :
  currentSysexCallback cb = Some h ->
  seven_bit command -> command <> REPORT_FIRMWARE -> command <> STRING_DATA ->
  0 <= bytec <= Z.of_nat (length bytev) ->
  Forall (fun b => 0 <= b < 256) bytev ->
  1 + 2 * bytec < MAX_DATA_BYTES large ->
  parsingSysex s = false ->
  Z.of_nat (length (storedInputData s)) = MAX_DATA_BYTES large ->
  exists argv t,
    parse_bytes large cb
      (written sender (sendSysex command bytec bytev sender)) s
      = Ok (h command (2 * bytec) argv t) /\
    decode_pairs (take (Z.to_nat (2 * bytec)) argv)
      = take (Z.to_nat bytec) bytev /\
    same_io s t /\ parsingSysex t = false.
Proof.
  intros Hcb Hcmd Hfw Hstr Hcount Hbytes Hroom Hsys Hlen.
  pose proof (MAX_DATA_BYTES_pos large) as Hmax.
  destruct (sendSysex_frame_bytes command bytec bytev sender Hcmd Hcount Hbytes)
    as (payload & -> & Hseven & Hpl & Hdec).
  change (START_SYSEX :: command :: payload ++ [END_SYSEX])
    with (START_SYSEX :: (command :: payload) ++ [END_SYSEX]).
  rewrite sysex_message; try assumption.
  - rewrite processSysexMessage_generic, Hcb by (assumption || lia).
    rewrite Hpl. eexists. eexists. split; [reflexivity |].
    split; [| repeat split].
    replace (Z.to_nat (2 * bytec)) with (length payload) by lia.
    now rewrite take_app_length.
  - constructor; [now apply seven_bit_data_byte |].
    now apply Forall_seven_bit_data_byte.
  - cbn [length]. lia.
Qed.

Lemma sendSysex_received_witness :
  exists argv t,
    parse_bytes false sample_callbacks
      (written (zero_object false 4)
         (sendSysex 0x50 2 [0xFF; 0x80] (zero_object false 4)))
      (zero_object false 4)
      = Ok (echo_sysex 0x50 4 argv t) /\
    decode_pairs (take 4 argv) = [0xFF; 0x80].
Proof.
  destruct (sendSysex_received false sample_callbacks echo_sysex 0x50 2
              [0xFF; 0x80] (zero_object false 4) (zero_object false 4))
    as (argv & t & Erun & Edec & _); try reflexivity; try discriminate.
  - unfold seven_bit. lia.
  - cbn [length]. lia.
  - repeat constructor; lia.
  - exists argv, t. split; [exact Erun | exact Edec].
Defined.

(** X5. A string sent with [sendString] and fed to a receiving engine
    reaches its string handler unchanged, for any non-empty text of
    non-zero bytes that fits the receiver's buffer; the form that takes a
    command and a [char*] writes the same bytes. *)
Theorem string_round_trip
    (large : bool) (cb : Callbacks) (h : list Z -> Firmata -> Firmata)
    (text : list Z) (sender s : Firmata) :
  currentStringCallback cb = Some h ->
  text <> [] -> Forall (fun c => 1 <= c < 256) text ->
  1 + 2 * Z.of_nat (length text) < MAX_DATA_BYTES large ->
  parsingSysex s = false ->
  Z.of_nat (length (storedInputData s)) = MAX_DATA_BYTES large ->
  written sender (sendString_command STRING_DATA (Some text) sender)
    = written sender (sendString text sender) /\
  exists t,
    parse_bytes large cb (written sender (sendString text sender)) s
      = Ok (h text t) /\
    same_io s t /\ parsingSysex t = false.
Proof.
  intros Hcb Hne Htext Hroom Hsys Hlen.
  pose proof (MAX_DATA_BYTES_pos large) as Hmax.
  split.
  - unfold sendString_command.
    rewrite sendSysex_written, sendString_written.
    rewrite (to_byte_small (Z.of_nat (length text))) by lia.
    rewrite Nat2Z.id, take_ge by lia. reflexivity.
  - rewrite sendString_written.
    destruct (string_message_run large cb h
                (flat_map two7bit text) s)
      as (t & Erun & Hio & Hflag & _); try assumption.
    + apply Forall_seven_bit_data_byte, flat_two7bit_seven_bit.
    + rewrite length_flat_two7bit. destruct text; [contradiction |].
      cbn [length]. lia.
    + rewrite length_flat_two7bit. lia.
    + exists t. split; [| now split].
      rewrite Erun, decode_pairs_two7bit, map_to_byte_bytes, cstring_no_nul;
        [reflexivity | |];
        (eapply Forall_impl; [exact Htext |]); cbv beta; intros; lia.
Qed.

Lemma string_round_trip_witness :
  exists t,
    parse_bytes false sample_callbacks
      (written (zero_object false 4)
         (sendString (chars "Hi") (zero_object false 4)))
      (zero_object false 4)
      = Ok (echo_string (chars "Hi") t).
Proof.
  destruct (string_round_trip false sample_callbacks echo_string (chars "Hi")
              (zero_object false 4) (zero_object false 4))
    as (_ & t & Erun & _); try reflexivity; try discriminate.
  - repeat constructor; vm_compute; discriminate.
  - exists t. exact Erun.
Defined.

(** X6. [sendString(command, string)] passes the length through a byte:
    only the first [strlen mod 256] characters go on the wire (none at all
    for a string of exactly 256), and a null pointer writes nothing. *)
Theorem sendString_command_length
    (command : Z) (text : list Z) (s : Firmata) :
  seven_bit command ->
  written s (sendString_command command None s) = [] /\
  written s (sendString_command command (Some text) s)
    = START_SYSEX :: command
        :: flat_map two7bit (take (length text mod 256) text)
        ++ [END_SYSEX] /\
  ((length text < 256)%nat ->
   written s (sendString_command command (Some text) s)
     = START_SYSEX :: command :: flat_map two7bit text ++ [END_SYSEX]) /\
  (length text = 256%nat ->
   written s (sendString_command command (Some text) s)
     = [START_SYSEX; command; END_SYSEX]).
Proof.
  intros Hcmd.
  assert (Hc : to_byte command = command)
    by (apply to_byte_small; unfold seven_bit in Hcmd; lia).
  assert (Hmod : Z.to_nat (to_byte (Z.of_nat (length text)))
                 = (length text mod 256)%nat).
  { unfold to_byte. rewrite <- (Nat2Z.id (length text mod 256)).
    f_equal. now rewrite Nat2Z.inj_mod. }
  assert (Ewire : written s (sendString_command command (Some text) s)
            = START_SYSEX :: command
                :: flat_map two7bit (take (length text mod 256) text)
                ++ [END_SYSEX]).
  { unfold sendString_command. now rewrite sendSysex_written, Hc, Hmod. }
  split; [| split; [exact Ewire | split]].
  - unfold sendString_command, written. now rewrite drop_all.
  - intros Hshort. rewrite Ewire, Nat.mod_small, take_ge by lia. reflexivity.
  - intros Hfull. rewrite Ewire, Hfull. reflexivity.
Qed.

Lemma sendString_command_length_witness :
  written (zero_object false 4)
    (sendString_command 0x71 (Some (replicate 256 0x41)) (zero_object false 4))
  = [START_SYSEX; 0x71; END_SYSEX].
Proof.
  apply (sendString_command_length 0x71 (replicate 256 0x41)
           (zero_object false 4)).
  - unfold seven_bit. lia.
  - reflexivity.
Defined.

(** ** Values on the wire *)

(** X7. [sendValueAsTwo7bitBytes] keeps exactly the low fourteen bits of
    any integer, negative ones included: the two bytes have their top bit
    clear and [decodePackedUInt14] reads them back as [value mod 2^14]. *)
Theorem two7bit_low_fourteen_bits (value : Z) (s : Firmata) :
  written s (sendValueAsTwo7bitBytes value s) = two7bit value /\
  Forall seven_bit (two7bit value) /\
  decodePackedUInt14 (two7bit value) = Some (value mod 2 ^ 14).
Proof.
  split; [apply written_app, sendValueAsTwo7bitBytes_out |].
  split; [apply two7bit_seven_bit |].
  rewrite two7bit_groups.
  rewrite decodePackedUInt14_groups by (apply Z.mod_pos_bound; lia).
  f_equal.
  pose proof (Z.mod_pos_bound value 128).
  rewrite lor_shiftl_add by lia.
  change (2 ^ 7) with 128. change (2 ^ 14) with 16384.
  Z.to_euclidean_division_equations. lia.
Qed.

Lemma command_channel (command channel : Z) :
  In command [ANALOG_MESSAGE; DIGITAL_MESSAGE; REPORT_ANALOG; REPORT_DIGITAL] ->
  to_byte (Z.lor command (Z.land channel 0xF)) = command + channel mod 16.
Proof.
  intros Hc.
  change 0xF with (Z.ones 4). rewrite Z.land_ones by lia.
  change (2 ^ 4) with 16.
  pose proof (Z.mod_pos_bound channel 16).
  assert (Hall : Forall (fun n => to_byte (Z.lor command n) = command + n)
                        (seqZ 0 16)).
  { cbn [In] in Hc.
    destruct Hc as [<- | [<- | [<- | [<- | []]]]];
      vm_compute; repeat constructor. }
  rewrite Forall_forall in Hall. apply Hall, elem_of_seqZ. lia.
Qed.

Lemma sendAnalog_written (analogPin value : Z) (s : Firmata) :
  0 <= analogPin < 256 ->
  written s (sendAnalog analogPin value s) =
    if analogPin <=? 15
    then (ANALOG_MESSAGE + analogPin) :: two7bit value
    else START_SYSEX :: EXTENDED_ANALOG :: analogPin :: two7bit value
           ++ [END_SYSEX].
Proof.
  intros Hpin. apply written_app. unfold sendAnalog.
  destruct (Z.leb_spec analogPin 15) as [Hlow | Hhigh].
  - rewrite sendValueAsTwo7bitBytes_out. unfold write. cbn [out set_out].
    rewrite command_channel by (cbn [In]; auto).
    rewrite Z.mod_small by lia. norm_app. reflexivity.
  - unfold endSysex, startSysex, write. cbn [out set_out].
    rewrite sendValueAsTwo7bitBytes_out. cbn [out set_out].
    rewrite (to_byte_small analogPin) by lia. norm_app. reflexivity.
Qed.

(** X8. An analog value written by [sendAnalog], in the short form for
    pins up to 15 and in the extended sysex form above, reaches the
    receiving engine's sysex handler in one and the same shape: command
    [EXTENDED_ANALOG], three arguments, the pin and the two 7-bit groups,
    which decode to the value's low fourteen bits. *)
Theorem sendAnalog_received
    (large : bool) (cb : Callbacks)
    (h : Z -> Z -> list Z -> Firmata -> Firmata)
    (analogPin value : Z) (sender s : Firmata) :
  currentSysexCallback cb = Some h ->
  0 <= analogPin < 128 ->
  parsingSysex s = false ->
  Z.of_nat (length (storedInputData s)) = MAX_DATA_BYTES large ->
  exists argv t,
    parse_bytes large cb (written sender (sendAnalog analogPin value sender)) s
      = Ok ((if analogPin <=? 15 then set_executeMultiByteCommand 0
             else fun s' => s') (h EXTENDED_ANALOG 3 argv t)) /\
    take 3 argv = analogPin :: two7bit value /\
    decodePackedUInt14 (drop 1 argv) = Some (value mod 2 ^ 14) /\
    same_io s t /\ parsingSysex t = false.
Proof.
  intros Hcb Hpin Hsys Hlen.
  pose proof (MAX_DATA_BYTES_pos large) as Hmax.
  assert (Hdec : forall rest,
            decodePackedUInt14
              (value mod 128 :: (value / 128) mod 128 :: rest)
              = Some (value mod 2 ^ 14)).
  { intros rest.
    rewrite decodePackedUInt14_groups by (apply Z.mod_pos_bound; lia).
    f_equal. pose proof (Z.mod_pos_bound value 128).
    rewrite lor_shiftl_add by lia.
    change (2 ^ 7) with 128. change (2 ^ 14) with 16384.
    Z.to_euclidean_division_equations. lia. }
  pose proof (two7bit_seven_bit value) as Hseven.
  rewrite sendAnalog_written by lia.
  destruct (Z.leb_spec analogPin 15) as [Hlow | Hhigh].
  - rewrite two7bit_groups in *.
    apply Forall_cons in Hseven as [Hlo Hseven].
    apply Forall_cons in Hseven as [Hhi _].
    rewrite analog_message by (assumption || lia).
    rewrite repacked_analog_dispatch, Hcb. cbn [bind].
    eexists. eexists. split; [reflexivity |].
    split; [reflexivity |]. split; [| repeat split; exact Hsys].
    cbn [drop]. apply Hdec.
  - change (START_SYSEX :: EXTENDED_ANALOG :: analogPin :: two7bit value
              ++ [END_SYSEX])
      with (START_SYSEX :: (EXTENDED_ANALOG :: analogPin :: two7bit value)
              ++ [END_SYSEX]).
    rewrite sysex_message; try assumption.
    + rewrite processSysexMessage_generic, Hcb;
        try discriminate; [| cbn [length two7bit]; lia].
      eexists. eexists. split; [reflexivity |].
      split; [reflexivity |]. split; [| repeat split].
      rewrite two7bit_groups. cbn [app drop]. apply Hdec.
    + constructor; [repeat split; discriminate |].
      constructor; [unfold data_byte, SYSTEM_RESET, END_SYSEX; lia |].
      now apply Forall_seven_bit_data_byte.
    + cbn [length two7bit]. lia.
Qed.

Lemma sendAnalog_received_witness :
  (exists argv t,
     parse_bytes false sample_callbacks
       (written (zero_object false 4) (sendAnalog 3 255 (zero_object false 4)))
       (zero_object false 4)
     = Ok (set_executeMultiByteCommand 0 (echo_sysex EXTENDED_ANALOG 3 argv t))
     /\ take 3 argv = [3; 0x7F; 0x01]) /\
  (exists argv t,
     parse_bytes false sample_callbacks
       (written (zero_object false 4) (sendAnalog 20 255 (zero_object false 4)))
       (zero_object false 4)
     = Ok (echo_sysex EXTENDED_ANALOG 3 argv t)
     /\ take 3 argv = [20; 0x7F; 0x01]).
Proof.
  split.
  - destruct (sendAnalog_received false sample_callbacks echo_sysex 3 255
                (zero_object false 4) (zero_object false 4))
      as (argv & t & Erun & Eargs & _); try reflexivity; [lia |].
    exists argv, t. split; [exact Erun | exact Eargs].
  - destruct (sendAnalog_received false sample_callbacks echo_sysex 20 255
                (zero_object false 4) (zero_object false 4))
      as (argv & t & Erun & Eargs & _); try reflexivity; [lia |].
    exists argv, t. split; [exact Erun | exact Eargs].
Defined.

(** ** Fixed-length messages *)

Lemma parse_one_byte_command
    (large : bool) (cb : Callbacks) (command channel : Z) (s : Firmata) :
  In command [REPORT_ANALOG; REPORT_DIGITAL] ->
  0 <= channel < 16 -> parsingSysex s = false ->
  parse large cb (command + channel) s =
    Ok (set_executeMultiByteCommand command
          (set_waitForData 1 (set_multiByteChannel channel s))).
Proof.
  intros Hc Hn Hsys.
  assert (Hc' : In command
            [ANALOG_MESSAGE; DIGITAL_MESSAGE; REPORT_ANALOG; REPORT_DIGITAL])
    by (cbn [In] in *; tauto).
  destruct (channel_split command channel Hc' Hn) as [Ehi Elo].
  assert (Hrange : 128 <= command + channel < 0xF0)
    by (cbn [In] in Hc; unfold REPORT_ANALOG, REPORT_DIGITAL in Hc; lia).
  rewrite parse_command_byte; [| assumption | lia | unfold SYSTEM_RESET; lia].
  replace (command + channel <? 0xF0) with true
    by (symmetry; apply Z.ltb_lt; lia).
  rewrite Ehi, Elo.
  cbn [In] in Hc. destruct Hc as [<- | [<- | []]]; reflexivity.
Qed.

Lemma parse_pin_command
    (large : bool) (cb : Callbacks) (command : Z) (s : Firmata) :
  In command [SET_PIN_MODE; SET_DIGITAL_PIN_VALUE] ->
  parsingSysex s = false ->
  parse large cb command s =
    Ok (set_executeMultiByteCommand command (set_waitForData 2 s)).
Proof.
  intros Hc Hsys. cbn [In] in Hc.
  rewrite parse_command_byte; try assumption;
    destruct Hc as [<- | [<- | []]]; try reflexivity; discriminate.
Qed.

(** The three bytes of a pin message: the command runs with the second
    argument at index 0 and the first at index 1; the channel is kept. *)
Lemma pin_message
    (large : bool) (cb : Callbacks) (command first second : Z) (s : Firmata) :
  In command [SET_PIN_MODE; SET_DIGITAL_PIN_VALUE] ->
  parsingSysex s = false -> (2 <= length (storedInputData s))%nat ->
  0 <= first < 128 -> 0 <= second < 128 ->
  parse_bytes large cb [command; first; second] s =
    (s' <- execute_command cb
             (set_storedInputData
                (<[0%nat := second]> (<[1%nat := first]> (storedInputData s)))
                (set_executeMultiByteCommand command (set_waitForData 0 s))) ;;
     Ok (set_executeMultiByteCommand 0 s')).
Proof.
  intros Hc Hsys Hlen H1 H2.
  assert (Hnz : (command =? 0) = false)
    by (cbn [In] in Hc; destruct Hc as [<- | [<- | []]]; reflexivity).
  cbn [parse_bytes].
  rewrite parse_pin_command by assumption. cbn [bind].
  rewrite parse_argument_byte; cbn; try lia; try assumption.
  rewrite parse_argument_byte; cbn; rewrite ?length_insert;
    try lia; try assumption.
  rewrite Hnz. cbn.
  destruct (execute_command cb _); reflexivity.
Qed.

(** The two bytes of a report message. *)
Lemma report_message
    (large : bool) (cb : Callbacks) (command channel value : Z) (s : Firmata) :
  In command [REPORT_ANALOG; REPORT_DIGITAL] ->
  parsingSysex s = false -> (1 <= length (storedInputData s))%nat ->
  0 <= channel < 16 -> 0 <= value < 128 ->
  parse_bytes large cb [command + channel; value] s =
    (s' <- execute_command cb
             (set_storedInputData (<[0%nat := value]> (storedInputData s))
                (set_executeMultiByteCommand command
                   (set_waitForData 0 (set_multiByteChannel channel s)))) ;;
     Ok (set_executeMultiByteCommand 0 s')).
Proof.
  intros Hc Hsys Hlen Hch Hv.
  assert (Hnz : (command =? 0) = false)
    by (cbn [In] in Hc; destruct Hc as [<- | [<- | []]]; reflexivity).
  cbn [parse_bytes].
  rewrite parse_one_byte_command by assumption. cbn [bind].
  rewrite parse_argument_byte; cbn; try lia; try assumption.
  rewrite Hnz. cbn.
  destruct (execute_command cb _); reflexivity.
Qed.

Lemma sendDigitalPort_written (portNumber portData : Z) (s : Firmata) :
  0 <= portData < 2 ^ 14 ->
  written s (sendDigitalPort portNumber portData s)
    = [DIGITAL_MESSAGE + portNumber mod 16; portData mod 128; portData / 128].
Proof.
  intros Hdata. apply written_app. unfold sendDigitalPort. cbn [out set_out].
  rewrite command_channel by (cbn [In]; auto).
  rewrite Z.shiftr_div_pow2 by lia. change (2 ^ 7) with 128.
  do 3 f_equal; [| f_equal]; unfold to_byte;
    change (2 ^ 14) with 16384 in Hdata;
    Z.to_euclidean_division_equations; lia.
Qed.

(** X9. A port value written by [sendDigitalPort] reaches the receiving
    engine's digital handler as sent, for any value of up to fourteen bits;
    the port number travels in four bits, so the handler sees it modulo
    16. *)
Theorem sendDigitalPort_received
    (large : bool) (cb : Callbacks) (h : Z -> Z -> Firmata -> Firmata)
    (portNumber portData : Z) (sender s : Firmata) :
  currentDigitalCallback cb = Some h ->
  0 <= portData < 2 ^ 14 ->
  parsingSysex s = false -> (2 <= length (storedInputData s))%nat ->
  exists t,
    parse_bytes large cb
      (written sender (sendDigitalPort portNumber portData sender)) s
      = Ok (set_executeMultiByteCommand 0 (h (portNumber mod 16) portData t)) /\
    same_io s t /\ waitForData t = 0 /\ parsingSysex t = false.
Proof.
  intros Hcb Hdata Hsys Hlen.
  rewrite sendDigitalPort_written by assumption.
  change (2 ^ 14) with 16384 in Hdata.
  assert (Hlo : 0 <= portData mod 128 < 128) by (apply Z.mod_pos_bound; lia).
  assert (Hhi : 0 <= portData / 128 < 128)
    by (Z.to_euclidean_division_equations; lia).
  assert (Hport : 0 <= portNumber mod 16 < 16) by (apply Z.mod_pos_bound; lia).
  rewrite two_byte_message; cbn [In]; auto.
  unfold execute_command.
  cbn [executeMultiByteCommand set_storedInputData set_waitForData
       set_executeMultiByteCommand set_multiByteChannel].
  change (DIGITAL_MESSAGE =? ANALOG_MESSAGE) with false.
  change (DIGITAL_MESSAGE =? DIGITAL_MESSAGE) with true.
  cbn iota. rewrite Hcb.
  rewrite (buf_get_ok 0 (portData / 128)).
  2: lia.
  2:{ cbn [storedInputData set_storedInputData].
      apply list_lookup_insert_eq. rewrite length_insert. lia. }
  rewrite (buf_get_ok 1 (portData mod 128)).
  2: lia.
  2:{ cbn [storedInputData set_storedInputData].
      rewrite list_lookup_insert_ne by lia.
      apply list_lookup_insert_eq. lia. }
  cbn [bind multiByteChannel set_storedInputData set_executeMultiByteCommand
       set_waitForData set_multiByteChannel].
  replace (Z.shiftl (portData / 128) 7 + portData mod 128) with portData.
  - eexists. split; [reflexivity |]. repeat split. exact Hsys.
  - rewrite Z.shiftl_mul_pow2 by lia. change (2 ^ 7) with 128.
    Z.to_euclidean_division_equations. lia.
Qed.

Lemma sendDigitalPort_received_witness :
  exists t,
    parse_bytes false sample_callbacks
      (written (zero_object false 4)
         (sendDigitalPort 18 0xAB (zero_object false 4)))
      (zero_object false 4)
    = Ok (set_executeMultiByteCommand 0 (echo_digital 2 0xAB t)).
Proof.
  destruct (sendDigitalPort_received false sample_callbacks echo_digital
              18 0xAB (zero_object false 4) (zero_object false 4))
    as (t & Erun & _); try reflexivity.
  - lia.
  - vm_compute. lia.
  - exists t. exact Erun.
Defined.

(** X10. The report and pin-value messages hand their decoded arguments
    to the handler of their slot, on the state in which the argument bytes
    are stored, and clear the pending command afterwards; with no handler
    in the slot nothing else happens. *)
Theorem report_and_pin_value_messages
    (large : bool) (cb : Callbacks) (channel value pin : Z) (s : Firmata) :
  parsingSysex s = false -> (2 <= length (storedInputData s))%nat ->
  0 <= channel < 16 -> 0 <= value < 128 -> 0 <= pin < 128 ->
  parse_bytes large cb [REPORT_ANALOG + channel; value] s =
    Ok (set_executeMultiByteCommand 0
          (call2 (currentReportAnalogCallback cb) channel value
             (set_storedInputData (<[0%nat := value]> (storedInputData s))
                (set_executeMultiByteCommand REPORT_ANALOG
                   (set_waitForData 0 (set_multiByteChannel channel s)))))) /\
  parse_bytes large cb [REPORT_DIGITAL + channel; value] s =
    Ok (set_executeMultiByteCommand 0
          (call2 (currentReportDigitalCallback cb) channel value
             (set_storedInputData (<[0%nat := value]> (storedInputData s))
                (set_executeMultiByteCommand REPORT_DIGITAL
                   (set_waitForData 0 (set_multiByteChannel channel s)))))) /\
  parse_bytes large cb [SET_DIGITAL_PIN_VALUE; pin; value] s =
    Ok (set_executeMultiByteCommand 0
          (call2 (currentPinValueCallback cb) pin value
             (set_storedInputData
                (<[0%nat := value]> (<[1%nat := pin]> (storedInputData s)))
                (set_executeMultiByteCommand SET_DIGITAL_PIN_VALUE
                   (set_waitForData 0 s))))).
Proof.
  intros Hsys Hlen Hch Hv Hpin.
  split; [| split].
  - rewrite report_message; cbn [In]; auto; [| lia].
    unfold execute_command.
    cbn [executeMultiByteCommand set_storedInputData set_waitForData
         set_executeMultiByteCommand set_multiByteChannel].
    change (REPORT_ANALOG =? ANALOG_MESSAGE) with false.
    change (REPORT_ANALOG =? DIGITAL_MESSAGE) with false.
    change (REPORT_ANALOG =? SET_PIN_MODE) with false.
    change (REPORT_ANALOG =? SET_DIGITAL_PIN_VALUE) with false.
    change (REPORT_ANALOG =? REPORT_ANALOG) with true. cbn iota.
    destruct (currentReportAnalogCallback cb); [| reflexivity].
    rewrite (buf_get_ok 0 value); [reflexivity | lia |].
    cbn [storedInputData set_storedInputData].
    apply list_lookup_insert_eq. lia.
  - rewrite report_message; cbn [In]; auto; [| lia].
    unfold execute_command.
    cbn [executeMultiByteCommand set_storedInputData set_waitForData
         set_executeMultiByteCommand set_multiByteChannel].
    change (REPORT_DIGITAL =? ANALOG_MESSAGE) with false.
    change (REPORT_DIGITAL =? DIGITAL_MESSAGE) with false.
    change (REPORT_DIGITAL =? SET_PIN_MODE) with false.
    change (REPORT_DIGITAL =? SET_DIGITAL_PIN_VALUE) with false.
    change (REPORT_DIGITAL =? REPORT_ANALOG) with false.
    change (REPORT_DIGITAL =? REPORT_DIGITAL) with true. cbn iota.
    destruct (currentReportDigitalCallback cb); [| reflexivity].
    rewrite (buf_get_ok 0 value); [reflexivity | lia |].
    cbn [storedInputData set_storedInputData].
    apply list_lookup_insert_eq. lia.
  - rewrite pin_message; cbn [In]; auto.
    unfold execute_command.
    cbn [executeMultiByteCommand set_storedInputData set_waitForData
         set_executeMultiByteCommand].
    change (SET_DIGITAL_PIN_VALUE =? ANALOG_MESSAGE) with false.
    change (SET_DIGITAL_PIN_VALUE =? DIGITAL_MESSAGE) with false.
    change (SET_DIGITAL_PIN_VALUE =? SET_PIN_MODE) with false.
    change (SET_DIGITAL_PIN_VALUE =? SET_DIGITAL_PIN_VALUE) with true.
    cbn iota.
    destruct (currentPinValueCallback cb); [| reflexivity].
    rewrite (buf_get_ok 1 pin).
    2: lia.
    2:{ cbn [storedInputData set_storedInputData].
        rewrite list_lookup_insert_ne by lia.
        apply list_lookup_insert_eq. lia. }
    rewrite (buf_get_ok 0 value); [reflexivity | lia |].
    cbn [storedInputData set_storedInputData].
    apply list_lookup_insert_eq. rewrite length_insert. lia.
Qed.

Lemma report_and_pin_value_messages_witness :
  exists t,
    parse_bytes false
      (attach REPORT_ANALOG (Some echo_digital) sample_callbacks)
      [REPORT_ANALOG + 3; 1] (zero_object false 4)
    = Ok (set_executeMultiByteCommand 0 (echo_digital 3 1 t)).
Proof.
  destruct (report_and_pin_value_messages false
              (attach REPORT_ANALOG (Some echo_digital) sample_callbacks)
              3 1 5 (zero_object false 4))
    as (Hreport & _ & _);
    [reflexivity | vm_compute; lia | lia | lia | lia |].
  eexists. exact Hreport.
Defined.

(** ** Pin messages and the pin table *)

Lemma execute_set_pin_mode
    (cb : Callbacks) (pin config : Z) (t : Firmata) :
  executeMultiByteCommand t = SET_PIN_MODE ->
  storedInputData t !! 1%nat = Some pin ->
  storedInputData t !! 0%nat = Some config ->
  execute_command cb t = setPinMode cb pin config t.
Proof.
  intros Hcmd Hpin Hconfig. unfold execute_command. rewrite Hcmd.
  change (SET_PIN_MODE =? ANALOG_MESSAGE) with false.
  change (SET_PIN_MODE =? DIGITAL_MESSAGE) with false.
  change (SET_PIN_MODE =? SET_PIN_MODE) with true. cbn iota.
  rewrite (buf_get_ok 1 pin), (buf_get_ok 0 config) by (lia || assumption).
  reflexivity.
Qed.

Lemma set_pin_mode_dispatch
    (large : bool) (cb : Callbacks) (pin config : Z) (s : Firmata) :
  parsingSysex s = false -> (2 <= length (storedInputData s))%nat ->
  0 <= pin < 128 -> 0 <= config < 128 ->
  parse_bytes large cb [SET_PIN_MODE; pin; config] s =
    (s' <- setPinMode cb pin config
             (set_storedInputData
                (<[0%nat := config]> (<[1%nat := pin]> (storedInputData s)))
                (set_executeMultiByteCommand SET_PIN_MODE
                   (set_waitForData 0 s))) ;;
     Ok (set_executeMultiByteCommand 0 s')).
Proof.
  intros Hsys Hlen Hpin Hconfig.
  rewrite pin_message; cbn [In]; auto.
  rewrite (execute_set_pin_mode cb pin config); [reflexivity ..| |].
  - cbn [storedInputData set_storedInputData].
    rewrite list_lookup_insert_ne by lia.
    apply list_lookup_insert_eq. lia.
  - cbn [storedInputData set_storedInputData].
    apply list_lookup_insert_eq. rewrite length_insert. lia.
Qed.

(** X11. A complete pin-mode message names a pin and a mode: unless the
    pin is marked [PIN_MODE_IGNORE] the mode is stored, the pin's state
    is zeroed, the other pins keep mode and state, and the pin-mode
    handler, if any, is then applied to pin, mode and the state in which
    both are in place. *)
Theorem set_pin_mode_message
    (large : bool) (cb : Callbacks) (pin config mode : Z) (s : Firmata) :
  parsingSysex s = false -> (2 <= length (storedInputData s))%nat ->
  0 <= pin < 128 -> 0 <= config < 128 ->
  length (pinState s) = length (pinConfig s) ->
  pinConfig s !! Z.to_nat pin = Some mode -> mode <> PIN_MODE_IGNORE ->
  exists t,
    (forall h, currentPinModeCallback cb = Some h ->
       parse_bytes large cb [SET_PIN_MODE; pin; config] s =
         Ok (set_executeMultiByteCommand 0 (h pin config t))) /\
    (currentPinModeCallback cb = None ->
       parse_bytes large cb [SET_PIN_MODE; pin; config] s =
         Ok (set_executeMultiByteCommand 0 t)) /\
    getPinMode pin t = Ok config /\ getPinState pin t = Ok 0 /\
    (forall other, other <> pin -> 0 <= other ->
       getPinMode other t = getPinMode other s /\
       getPinState other t = getPinState other s) /\
    out t = out s /\ waitForData t = 0 /\ parsingSysex t = false.
Proof.
  intros Hsys Hlen Hpin Hconfig Htable Hmode Hne.
  pose proof (lookup_lt_Some _ _ _ Hmode) as Hlt.
  rewrite set_pin_mode_dispatch by assumption.
  unfold setPinMode. cbn [pinConfig set_storedInputData
    set_executeMultiByteCommand set_waitForData].
  rewrite (pin_get_lookup _ _ _ (proj1 Hpin) Hmode). cbn [bind].
  apply Z.eqb_neq in Hne. rewrite Hne.
  unfold setPinState. cbn [pinState set_storedInputData
    set_executeMultiByteCommand set_waitForData].
  rewrite in_range_true by lia. cbn [bind].
  eexists.
  split; [intros h Eh; rewrite Eh; reflexivity |].
  split; [intros Eh; rewrite Eh; reflexivity |].
  unfold getPinMode, getPinState.
  cbn [pinConfig pinState set_pinConfig set_pinState set_storedInputData
       set_executeMultiByteCommand set_waitForData out waitForData
       parsingSysex].
  split; [| split; [| split]].
  - apply pin_get_lookup; [lia |]. now apply list_lookup_insert_eq.
  - apply pin_get_lookup; [lia |]. apply list_lookup_insert_eq. lia.
  - intros other Hother Hpos. unfold pin_get, in_range.
    rewrite !length_insert.
    rewrite !list_lookup_insert_ne by lia. split; reflexivity.
  - repeat split. exact Hsys.
Qed.

Lemma set_pin_mode_message_witness :
  exists t,
    parse_bytes false pin_mode_callbacks [SET_PIN_MODE; 2; 3] sample_state =
      Ok (set_executeMultiByteCommand 0 (echo_pin_mode 2 3 t)) /\
    getPinMode 2 t = Ok 3 /\ getPinState 0 t = Ok 5 /\
    written sample_state (echo_pin_mode 2 3 t) = [SET_PIN_MODE; 2; 3].
Proof.
  destruct (set_pin_mode_message false pin_mode_callbacks 2 3 0 sample_state)
    as (t & Hfire & _ & Hmode & _ & Hothers & Hout & _);
    [reflexivity | vm_compute; lia | lia | lia | reflexivity | reflexivity
    | discriminate |].
  exists t. split; [exact (Hfire echo_pin_mode eq_refl) |].
  split; [exact Hmode |].
  split; [destruct (Hothers 0) as [_ Hstate]; [lia | lia | exact Hstate] |].
  apply written_app. unfold echo_pin_mode, write. cbn [out set_out].
  rewrite Hout. reflexivity.
Defined.

(** X12. The pin of a pin-mode message is not checked against the size
    of the pin table: a message naming a pin beyond the table reads
    [pinConfig] outside its bounds. *)
Theorem set_pin_mode_message_beyond_table
    (large : bool) (cb : Callbacks) (pin config : Z) (s : Firmata) :
  parsingSysex s = false -> (2 <= length (storedInputData s))%nat ->
  0 <= pin < 128 -> 0 <= config < 128 ->
  Z.of_nat (length (pinConfig s)) <= pin ->
  parse_bytes large cb [SET_PIN_MODE; pin; config] s = Err PinOutOfBounds.
Proof.
  intros Hsys Hlen Hpin Hconfig Hbeyond.
  rewrite set_pin_mode_dispatch by assumption.
  unfold setPinMode, pin_get, in_range.
  cbn [pinConfig set_storedInputData set_executeMultiByteCommand
       set_waitForData].
  replace (pin <? Z.of_nat (length (pinConfig s))) with false
    by (symmetry; apply Z.ltb_ge; lia).
  rewrite andb_false_r. reflexivity.
Qed.

Lemma set_pin_mode_message_beyond_table_witness :
  parse_bytes false sample_callbacks [SET_PIN_MODE; 4; 1] sample_state
    = Err PinOutOfBounds.
Proof.
  apply set_pin_mode_message_beyond_table;
    try reflexivity; vm_compute; try lia; intuition discriminate.
Defined.

(** X13. The pin state accessors round-trip: after [setPinState] the
    pin reads back the value written, every other pin keeps its state and
    every pin its mode; unlike [setPinMode] the write is not held back by
    [PIN_MODE_IGNORE]. A pin beyond the table is an access out of
    bounds. *)
Theorem pin_state_round_trip (pin state : Z) (s : Firmata) :
  0 <= pin < 256 -> 0 <= state < 256 ->
  (pin < Z.of_nat (length (pinState s)) ->
   exists t,
     setPinState pin state s = Ok t /\
     getPinState pin t = Ok state /\
     (forall other, other <> pin -> 0 <= other ->
        getPinState other t = getPinState other s) /\
     (forall other, getPinMode other t = getPinMode other s)) /\
  (Z.of_nat (length (pinState s)) <= pin ->
   setPinState pin state s = Err PinOutOfBounds /\
   getPinState pin s = Err PinOutOfBounds).
Proof.
  intros [Hpin _] _. split.
  - intros Hlt. unfold setPinState. rewrite in_range_true by lia.
    eexists. split; [reflexivity |]. unfold getPinState, getPinMode.
    cbn [pinState pinConfig set_pinState]. split; [| split].
    + apply pin_get_lookup; [lia |]. apply list_lookup_insert_eq. lia.
    + intros other Hother Hpos. unfold pin_get, in_range.
      rewrite length_insert, list_lookup_insert_ne by lia. reflexivity.
    + reflexivity.
  - intros Hbeyond. unfold setPinState, getPinState, pin_get, in_range.
    replace (pin <? Z.of_nat (length (pinState s))) with false
      by (symmetry; apply Z.ltb_ge; lia).
    rewrite andb_false_r. split; reflexivity.
Qed.

Lemma pin_state_round_trip_witness :
  (exists t, setPinState 1 9 sample_state = Ok t /\
             getPinState 1 t = Ok 9 /\ getPinState 0 t = Ok 5 /\
             getPinMode 1 t = Ok PIN_MODE_IGNORE) /\
  setPinState 4 9 sample_state = Err PinOutOfBounds.
Proof.
  destruct (pin_state_round_trip 1 9 sample_state) as [Hin _]; [lia | lia |].
  destruct (pin_state_round_trip 4 9 sample_state) as [_ Hout]; [lia | lia |].
  split.
  - destruct Hin as (t & Eset & Eget & Hothers & Hmodes);
      [vm_compute; reflexivity |].
    exists t. split; [exact Eset |]. split; [exact Eget |].
    split; [rewrite Hothers by lia | rewrite Hmodes]; reflexivity.
  - apply Hout. vm_compute. discriminate.
Defined.

(** ** Sysex edge cases *)

Lemma low_byte_unrecognized (b : Z) :
  0 <= b < 128 -> recognized (Z.land b 0xF0) = false.
Proof.
  intros Hb.
  assert (Hall : Forall (fun n => recognized (Z.land n 0xF0) = false)
                        (seqZ 0 128))
    by (vm_compute; repeat constructor).
  rewrite Forall_forall in Hall. apply Hall, elem_of_seqZ. lia.
Qed.

Lemma parse_idle_data_byte
    (large : bool) (cb : Callbacks) (b : Z) (s : Firmata) :
  Idle s -> seven_bit b ->
  parse large cb b s = Ok (set_multiByteChannel (Z.land b 0x0F) s).
Proof.
  intros [Hsys Hwait] Hb. unfold seven_bit in Hb. unfold parse.
  replace (b =? SYSTEM_RESET) with false
    by (symmetry; apply Z.eqb_neq; unfold SYSTEM_RESET; lia).
  rewrite Hsys, Hwait. cbn [Z.ltb Z.compare andb].
  replace (b <? 0xF0) with true by (symmetry; apply Z.ltb_lt; lia).
  apply start_command_unrecognized, low_byte_unrecognized, Hb.
Qed.

Lemma parse_idle_data_bytes
    (large : bool) (cb : Callbacks) (data : list Z) (s : Firmata) :
  Idle s -> Forall seven_bit data ->
  exists channel,
    parse_bytes large cb data s = Ok (set_multiByteChannel channel s).
Proof.
  revert s. induction data as [| b data IH]; intros s Hidle Hdata.
  - exists (multiByteChannel s). now destruct s.
  - apply Forall_cons in Hdata as [Hb Hdata]. cbn [parse_bytes].
    rewrite parse_idle_data_byte by assumption. cbn [bind].
    destruct (IH (set_multiByteChannel (Z.land b 0x0F) s)) as (c & ->);
      [exact Hidle | exact Hdata |].
    exists c. reflexivity.
Qed.

(** X14. A sysex message longer than the buffer is dropped as a whole:
    the overflow diagnostic goes out once, when the buffer fills, and the
    rest of the message (bytes with the top bit clear, then the end
    marker) is read in the idle parser, where it reaches no handler and
    writes nothing. *)
Theorem oversized_sysex_dropped
    (large : bool) (cb : Callbacks) (filling rest : list Z) (s : Firmata) :
  parsingSysex s = false ->
  Z.of_nat (length (storedInputData s)) = MAX_DATA_BYTES large ->
  Forall data_byte filling ->
  Z.of_nat (length filling) = MAX_DATA_BYTES large ->
  Forall seven_bit rest ->
  exists s',
    parse_bytes large cb
      (START_SYSEX :: filling ++ rest ++ [END_SYSEX]) s = Ok s' /\
    overflowed s s'.
Proof.
  intros Hsys Hlen Hfilling Hfull Hrest.
  destruct (overflow_at_capacity large cb filling s Hsys Hfilling Hlen Hfull)
    as (u & Eu & Hu).
  change (START_SYSEX :: filling ++ rest ++ [END_SYSEX])
    with ((START_SYSEX :: filling) ++ rest ++ [END_SYSEX]).
  rewrite parse_bytes_app, Eu. cbn [bind].
  destruct Hu as (Hout & Hcon & Hidle & Hread & Hcfg & Hst).
  destruct (parse_idle_data_bytes large cb rest u Hidle Hrest) as (c & Ec).
  rewrite parse_bytes_app, Ec. cbn [bind parse_bytes].
  rewrite parse_end_sysex_idle by apply Hidle. cbn [bind].
  eexists. split; [reflexivity |].
  unfold overflowed, Idle in *.
  cbn [out console parsingSysex waitForData sysexBytesRead pinConfig
       pinState set_multiByteChannel].
  tauto.
Qed.

Lemma oversized_sysex_dropped_witness :
  exists s',
    parse_bytes false sample_callbacks
      (START_SYSEX :: replicate 64 5 ++ replicate 70 6 ++ [END_SYSEX])
      (zero_object false 4) = Ok s' /\
    out s' = overflow_message.
Proof.
  destruct (oversized_sysex_dropped false sample_callbacks
              (replicate 64 5) (replicate 70 6) (zero_object false 4))
    as (s' & Erun & Hout & _); try reflexivity.
  - apply Forall_replicate. repeat split; discriminate.
  - apply Forall_replicate. unfold seven_bit. lia.
  - exists s'. split; [exact Erun | exact Hout].
Defined.

Lemma printFirmwareVersion_written (s : Firmata) :
  0 <= firmwareVersionMajor s < 256 -> 0 <= firmwareVersionMinor s < 256 ->
  written s (printFirmwareVersion s)
    = if firmwareVersionMajor s =? 0 then []
      else START_SYSEX :: REPORT_FIRMWARE :: firmwareVersionMajor s
             :: firmwareVersionMinor s
             :: flat_map two7bit (firmwareVersionName s) ++ [END_SYSEX].
Proof.
  intros Hmajor Hminor. apply written_app. unfold printFirmwareVersion.
  destruct (firmwareVersionMajor s =? 0) eqn:Ezero; cbn [negb].
  - now rewrite app_nil_r.
  - unfold endSysex, startSysex, write.
    cbn [out set_out firmwareVersionMajor firmwareVersionMinor
         firmwareVersionName].
    rewrite send_chars_written. cbn [out set_out].
    rewrite (to_byte_small (firmwareVersionMajor s)) by assumption.
    rewrite (to_byte_small (firmwareVersionMinor s)) by assumption.
    norm_app. reflexivity.
Qed.

(** X15. The firmware query [F0 79 F7], with or without further payload,
    is answered by the engine itself, whatever handlers are attached: the
    reply carries the version and name given to
    [setFirmwareNameAndVersion], the name as two bytes a character; while
    the major version is 0 no reply is written at all. The name is a C
    string of ASCII characters: no NUL inside, which [strlen] would stop
    at, and no character above 127, which a signed [char] would widen to
    a negative [int]. *)
Theorem firmware_query_answered
    (large : bool) (cb : Callbacks) (name extra : list Z) (major minor : Z)
    (s : Firmata) :
  Forall (fun c => 1 <= c < 128) name ->
  0 <= major < 256 -> 0 <= minor < 256 ->
  parsingSysex s = false ->
  Z.of_nat (length (storedInputData s)) = MAX_DATA_BYTES large ->
  Forall data_byte extra ->
  1 + Z.of_nat (length extra) < MAX_DATA_BYTES large ->
  let named := setFirmwareNameAndVersion name major minor s in
  exists t,
    parse_bytes large cb
      (START_SYSEX :: REPORT_FIRMWARE :: extra ++ [END_SYSEX]) named
      = Ok t /\
    written named t
      = (if major =? 0 then []
         else START_SYSEX :: REPORT_FIRMWARE :: major :: minor
                :: flat_map two7bit name ++ [END_SYSEX]) /\
    pinConfig t = pinConfig s /\ pinState t = pinState s /\
    console t = console s /\ parsingSysex t = false.
Proof.
  intros _ Hmajor Hminor Hsys Hlen Hextra Hroom named.
  change (START_SYSEX :: REPORT_FIRMWARE :: extra ++ [END_SYSEX])
    with (START_SYSEX :: (REPORT_FIRMWARE :: extra) ++ [END_SYSEX]).
  rewrite sysex_message; try assumption.
  2:{ constructor; [repeat split; discriminate | assumption]. }
  2:{ cbn [length]. lia. }
  unfold processSysexMessage.
  rewrite (buf_get_ok 0 REPORT_FIRMWARE) by (first [lia | reflexivity]).
  cbn [bind]. change (REPORT_FIRMWARE =? REPORT_FIRMWARE) with true.
  cbn iota. eexists. split; [reflexivity |].
  set (u := collected (REPORT_FIRMWARE :: extra) named).
  assert (Hu : out u = out named /\ firmwareVersionMajor u = major /\
               firmwareVersionMinor u = minor /\ firmwareVersionName u = name)
    by (repeat split).
  destruct Hu as (Uout & Umajor & Uminor & Uname).
  split.
  - unfold written. rewrite <- Uout.
    pose proof (printFirmwareVersion_written u) as Hw. unfold written in Hw.
    rewrite Hw, Umajor, Uminor, Uname by (rewrite ?Umajor, ?Uminor; assumption).
    reflexivity.
  - unfold printFirmwareVersion. rewrite Umajor.
    destruct (major =? 0); cbn [negb]; [repeat split |].
    unfold endSysex, startSysex, write.
    match goal with
    | |- context [send_chars ?text ?v] =>
        destruct (send_chars_frame text v) as ((_ & _ & _ & _ & E5 & _)
                                                & E7 & E8 & E9 & _);
        generalize dependent (send_chars text v)
    end.
    intros w E5 E7 E8 E9.
    cbn [pinConfig pinState console parsingSysex set_out] in *.
    rewrite E5, E7, E8, E9. repeat split.
Qed.

Lemma firmware_query_answered_witness :
  (exists t,
     parse_bytes false sample_callbacks
       [START_SYSEX; REPORT_FIRMWARE; END_SYSEX]
       (setFirmwareNameAndVersion (chars "fw") 2 7 (zero_object false 4))
       = Ok t /\
     out t = [START_SYSEX; REPORT_FIRMWARE; 2; 7; 102; 0; 119; 0; END_SYSEX]) /\
  (exists t,
     parse_bytes false sample_callbacks
       [START_SYSEX; REPORT_FIRMWARE; END_SYSEX]
       (setFirmwareNameAndVersion (chars "fw") 0 7 (zero_object false 4))
       = Ok t /\
     out t = []).
Proof.
  split.
  - destruct (firmware_query_answered false sample_callbacks (chars "fw") []
                2 7 (zero_object false 4))
      as (t & Erun & Hw & _);
      [repeat constructor; vm_compute; congruence | lia | lia | reflexivity
      | reflexivity | constructor | reflexivity |].
    exists t. split; [exact Erun | exact Hw].
  - destruct (firmware_query_answered false sample_callbacks (chars "fw") []
                0 7 (zero_object false 4))
      as (t & Erun & Hw & _);
      [repeat constructor; vm_compute; congruence | lia | lia | reflexivity
      | reflexivity | constructor | reflexivity |].
    exists t. split; [exact Erun | exact Hw].
Defined.

(** X16. An empty sysex message [F0 F7] stores nothing, so the dispatch
    reads the command left in the buffer by earlier input: a buffer that
    still starts with [REPORT_FIRMWARE] answers the firmware query again,
    and a leftover command other than [REPORT_FIRMWARE] and [STRING_DATA]
    goes to the sysex handler with an argument count of 255, the byte
    that [0 - 1] becomes. *)
Theorem empty_sysex_reads_leftover
    (large : bool) (cb : Callbacks) (leftover : Z) (rest : list Z)
    (s : Firmata) :
  parsingSysex s = false ->
  Z.of_nat (length (storedInputData s)) = MAX_DATA_BYTES large ->
  storedInputData s = leftover :: rest ->
  (leftover = REPORT_FIRMWARE ->
   parse_bytes large cb [START_SYSEX; END_SYSEX] s
     = Ok (printFirmwareVersion (collected [] s))) /\
  (leftover <> REPORT_FIRMWARE -> leftover <> STRING_DATA ->
   forall h, currentSysexCallback cb = Some h ->
     parse_bytes large cb [START_SYSEX; END_SYSEX] s
       = Ok (h leftover 255 rest (collected [] s))).
Proof.
  intros Hsys Hlen Hbuf.
  pose proof (MAX_DATA_BYTES_pos large) as Hmax.
  assert (Erun : parse_bytes large cb [START_SYSEX; END_SYSEX] s
                 = processSysexMessage cb (collected [] s)).
  { change [START_SYSEX; END_SYSEX] with (START_SYSEX :: [] ++ [END_SYSEX]).
    apply sysex_message; try assumption; [constructor | cbn [length]; lia]. }
  rewrite Erun. unfold processSysexMessage.
  rewrite (buf_get_ok 0 leftover);
    [| lia | cbn [collected storedInputData set_parsingSysex
                  set_sysexBytesRead set_storedInputData length drop app];
             now rewrite Hbuf].
  cbn [bind]. split.
  - intros ->. reflexivity.
  - intros Hfw Hstr h Hcb. apply Z.eqb_neq in Hfw, Hstr.
    rewrite Hfw, Hstr, Hcb.
    cbn [collected sysexBytesRead storedInputData set_parsingSysex
         set_sysexBytesRead set_storedInputData length drop app].
    rewrite Hbuf. reflexivity.
Qed.

Lemma empty_sysex_reads_leftover_witness :
  exists t u,
    parse_bytes false sample_callbacks
      [START_SYSEX; REPORT_FIRMWARE; END_SYSEX]
      (setFirmwareNameAndVersion (chars "fw") 2 7 (zero_object false 4))
      = Ok t /\
    parse_bytes false sample_callbacks [START_SYSEX; END_SYSEX] t = Ok u /\
    written t u = [START_SYSEX; REPORT_FIRMWARE; 2; 7; 102; 0; 119; 0; END_SYSEX].
Proof.
  eexists. eexists. split; [vm_compute; reflexivity |].
  split.
  - match goal with
    | |- parse_bytes _ _ _ ?t = _ =>
        destruct (empty_sysex_reads_leftover false sample_callbacks
                    REPORT_FIRMWARE (replicate 63 0) t) as [Hagain _];
          [reflexivity .. | exact (Hagain eq_refl)]
    end.
  - vm_compute. reflexivity.
Defined.

(** ** Attaching and detaching handlers *)

Lemma sysex_slot_kept_by_detach
    (command : Z) (cb : Callbacks) :
  command <> START_SYSEX ->
  currentSysexCallback (detach command cb) = currentSysexCallback cb.
Proof.
  intros Hne. apply Z.eqb_neq in Hne. unfold detach, attach. rewrite Hne.
  repeat match goal with
         | |- context [if ?c then _ else _] => destruct c
         end; reflexivity.
Qed.

(** X17. The sysex form of [attach] does not look at its command: a
    handler attached under any command receives every sysex message
    other than the firmware query and the string message. Only
    [detach(START_SYSEX)] removes it; [detach] with the command it was
    attached under leaves it in place, and the messages keep reaching
    it. *)
Theorem attach_sysex_any_command
    (large : bool) (cb : Callbacks)
    (h : Z -> Z -> list Z -> Firmata -> Firmata)
    (attached command : Z) (args : list Z) (s : Firmata) :
  parsingSysex s = false ->
  Z.of_nat (length (storedInputData s)) = MAX_DATA_BYTES large ->
  seven_bit command -> command <> REPORT_FIRMWARE -> command <> STRING_DATA ->
  Forall seven_bit args ->
  1 + Z.of_nat (length args) < MAX_DATA_BYTES large ->
  let message := START_SYSEX :: command :: args ++ [END_SYSEX] in
  let delivered :=
    Ok (h command (Z.of_nat (length args))
          (args ++ drop (S (length args)) (storedInputData s))
          (collected (command :: args) s)) in
  parse_bytes large (attach_sysex attached (Some h) cb) message s
    = delivered /\
  (attached <> START_SYSEX ->
   parse_bytes large (detach attached (attach_sysex attached (Some h) cb))
     message s = delivered) /\
  parse_bytes large (detach START_SYSEX (attach_sysex attached (Some h) cb))
    message s = Ok (collected (command :: args) s).
Proof.
  intros Hsys Hlen Hcmd Hfw Hstr Hargs Hroom message delivered.
  pose proof (MAX_DATA_BYTES_pos large) as Hmax.
  assert (Hdata : Forall data_byte (command :: args)).
  { constructor; [now apply seven_bit_data_byte |].
    now apply Forall_seven_bit_data_byte. }
  assert (Hrun : forall registry,
            parse_bytes large registry message s
            = Ok (match currentSysexCallback registry with
                  | Some f =>
                      f command (Z.of_nat (length args))
                        (args ++ drop (S (length args)) (storedInputData s))
                        (collected (command :: args) s)
                  | None => collected (command :: args) s
                  end)).
  { intros registry. unfold message.
    change (START_SYSEX :: command :: args ++ [END_SYSEX])
      with (START_SYSEX :: (command :: args) ++ [END_SYSEX]).
    rewrite sysex_message; try assumption; [| cbn [length]; lia].
    apply processSysexMessage_generic; (assumption || lia). }
  split; [| split].
  - rewrite Hrun. reflexivity.
  - intros Hne. rewrite Hrun, sysex_slot_kept_by_detach by assumption.
    reflexivity.
  - rewrite Hrun. reflexivity.
Qed.

Lemma attach_sysex_any_command_witness :
  parse_bytes false
    (detach 0x50 (attach_sysex 0x50 (Some echo_sysex) no_callbacks))
    [START_SYSEX; 0x51; 1; 2; END_SYSEX] (zero_object false 4)
  = Ok (echo_sysex 0x51 2 ([1; 2] ++ replicate 61 0)
          (collected [0x51; 1; 2] (zero_object false 4))).
Proof.
  destruct (attach_sysex_any_command false no_callbacks echo_sysex 0x50 0x51
              [1; 2] (zero_object false 4))
    as (_ & Hkept & _);
    [reflexivity | reflexivity | unfold seven_bit; lia | discriminate
    | discriminate | repeat constructor; lia | reflexivity |].
  apply Hkept. discriminate.
Defined.

Lemma slot_commands_distinct (command : Z) (a b : Z) :
  a <> b -> (command =? a) = true -> (command =? b) = true -> False.
Proof. intros Hne Ha Hb. apply Z.eqb_eq in Ha, Hb. congruence. Qed.

Ltac slot_cases :=
  repeat match goal with
         | |- context [if ?c =? ?k then _ else _] =>
             let E := fresh "E" in destruct (c =? k) eqn:E
         end;
  try reflexivity;
  try (exfalso;
       match goal with
       | Ha : (?c =? ?a) = true, Hb : (?c =? ?b) = true |- _ =>
           apply (slot_commands_distinct c a b); [discriminate | exact Ha | exact Hb]
       end).

(** X18. The handler registry behaves as a map from commands to slots:
    attaching twice under one command keeps the later handler,
    [detach] after [attach] under the same command leaves what [detach]
    alone leaves, attaching under two different commands commutes, and a
    command without a slot ([ANALOG_MESSAGE] among them) is stored
    nowhere. *)
Theorem attach_detach_laws
    (command other : Z) (f g : option (Z -> Z -> Firmata -> Firmata))
    (cb : Callbacks) :
  attach command f (attach command g cb) = attach command f cb /\
  detach command (attach command f cb) = detach command cb /\
  (command <> other ->
   attach command f (attach other g cb)
     = attach other g (attach command f cb)) /\
  (~ In command [DIGITAL_MESSAGE; REPORT_ANALOG; REPORT_DIGITAL;
                 SET_PIN_MODE; SET_DIGITAL_PIN_VALUE] ->
   attach command f cb = cb) /\
  attach ANALOG_MESSAGE f cb = cb.
Proof.
  repeat match goal with |- _ /\ _ => split end.
  - unfold attach. slot_cases.
  - unfold detach, attach. slot_cases.
  - intros Hne. unfold attach.
    repeat match goal with
           | |- context [if ?c =? ?k then _ else _] =>
               let E := fresh "E" in destruct (c =? k) eqn:E
           end;
      try reflexivity;
      exfalso; apply Hne;
      repeat match goal with
             | H : (_ =? _) = true |- _ => apply Z.eqb_eq in H
             end; congruence.
  - intros Hnone. cbn [In] in Hnone. unfold attach.
    repeat match goal with
           | |- context [if ?c =? ?k then _ else _] =>
               let E := fresh "E" in destruct (c =? k) eqn:E
           end;
      try reflexivity;
      exfalso; apply Hnone;
      repeat match goal with
             | H : (_ =? _) = true |- _ => apply Z.eqb_eq in H
             end; auto 10.
  - reflexivity.
Qed.

Lemma attach_detach_laws_witness :
  attach DIGITAL_MESSAGE (Some echo_digital)
    (attach SET_PIN_MODE None sample_callbacks)
  = attach SET_PIN_MODE None
      (attach DIGITAL_MESSAGE (Some echo_digital) sample_callbacks) /\
  attach 0x42 (Some echo_digital) sample_callbacks = sample_callbacks.
Proof.
  destruct (attach_detach_laws DIGITAL_MESSAGE SET_PIN_MODE
              (Some echo_digital) None sample_callbacks)
    as (_ & _ & Hcomm & _).
  destruct (attach_detach_laws 0x42 0 (Some echo_digital) None
              sample_callbacks)
    as (_ & _ & _ & Hnone & _).
  split.
  - apply Hcomm. discriminate.
  - apply Hnone. cbn [In]. intuition discriminate.
Defined.

(** ** Reading the transport *)

Lemma poll_empty (large : bool) (cb : Callbacks) (calls : nat) (s : Firmata) :
  poll large cb calls [] s = Ok ([], s).
Proof.
  induction calls as [| calls IH]; [reflexivity |].
  cbn [poll]. unfold processInput. destruct large.
  - rewrite take_nil, drop_nil. cbn [fast_scan bind parse_bytes fst snd].
    exact IH.
  - cbn [bind fst snd]. exact IH.
Qed.

Lemma poll_single_bytes
    (cb : Callbacks) (calls : nat) (rx : list Z) (s : Firmata) :
  poll false cb calls rx s =
    (s' <- parse_bytes false cb (take calls rx) s ;; Ok (drop calls rx, s')).
Proof.
  revert rx s. induction calls as [| calls IH]; intros rx s; [reflexivity |].
  destruct rx as [| b rx].
  - rewrite poll_empty. reflexivity.
  - cbn [poll take drop parse_bytes]. unfold processInput.
    destruct (parse false cb b s) as [t | e]; cbn [bind fst snd];
      [apply IH | reflexivity].
Qed.

(** X19. Calling [processInput] repeatedly consumes the transport in
    order. Without [LARGE_MEM_DEVICE] each call parses one byte, so
    [calls] calls parse the first [calls] bytes and leave the rest; with
    it, a block of up to 4096 bytes arriving outside a sysex message is
    parsed whole by the first call. On an empty transport a call does
    nothing, in either build. *)
Theorem poll_consumes_in_order
    (large : bool) (cb : Callbacks) (calls : nat) (rx : list Z) (s : Firmata) :
  poll false cb calls rx s =
    (s' <- parse_bytes false cb (take calls rx) s ;; Ok (drop calls rx, s')) /\
  poll large cb calls [] s = Ok ([], s) /\
  (parsingSysex s = false ->
   (length rx <= Z.to_nat LARGE_MEM_RCV_BUF_SIZE)%nat ->
   poll true cb (S calls) rx s =
     (s' <- parse_bytes true cb rx s ;; Ok ([], s'))).
Proof.
  split; [apply poll_single_bytes |]. split; [apply poll_empty |].
  intros Hsys Hlen. cbn [poll].
  rewrite processInput_outside_sysex by assumption.
  destruct (parse_bytes true cb rx s) as [t | e]; cbn [bind fst snd];
    [apply poll_empty | reflexivity].
Qed.

Lemma poll_consumes_in_order_witness :
  poll true sample_callbacks 3 [DIGITAL_MESSAGE + 2; 0x2B; 0x01]
    (zero_object true 4)
  = (s' <- parse_bytes true sample_callbacks [DIGITAL_MESSAGE + 2; 0x2B; 0x01]
             (zero_object true 4) ;;
     Ok ([], s')).
Proof.
  apply (poll_consumes_in_order true sample_callbacks 2
           [DIGITAL_MESSAGE + 2; 0x2B; 0x01] (zero_object true 4)).
  - reflexivity.
  - cbn [length]. vm_compute. lia.
Defined.

(** ** Messages that interrupt one another *)

Lemma parse_channel_command
    (large : bool) (cb : Callbacks) (command channel : Z) (s : Firmata) :
  In command [ANALOG_MESSAGE; DIGITAL_MESSAGE; REPORT_ANALOG; REPORT_DIGITAL] ->
  0 <= channel < 16 -> parsingSysex s = false ->
  parse large cb (command + channel) s =
    Ok (set_executeMultiByteCommand command
          (set_waitForData
             (if (command =? REPORT_ANALOG) || (command =? REPORT_DIGITAL)
              then 1 else 2)
             (set_multiByteChannel channel s))).
Proof.
  intros Hc Hn Hsys. cbn [In] in Hc.
  destruct Hc as [<- | [<- | [<- | [<- | []]]]].
  - rewrite parse_two_byte_command; cbn [In]; auto.
  - rewrite parse_two_byte_command; cbn [In]; auto.
  - rewrite parse_one_byte_command; cbn [In]; auto.
  - rewrite parse_one_byte_command; cbn [In]; auto.
Qed.

(** X20. A command byte that arrives while argument bytes are awaited
    starts its own message: the interrupted message is abandoned without
    its handler being called, and what follows is read as if only the
    argument byte already received had been put in the buffer. *)
Theorem interrupted_message_abandoned
    (large : bool) (cb : Callbacks)
    (first channel argument second channel' : Z) (following : list Z)
    (s : Firmata) :
  In first [ANALOG_MESSAGE; DIGITAL_MESSAGE] ->
  In second [ANALOG_MESSAGE; DIGITAL_MESSAGE; REPORT_ANALOG; REPORT_DIGITAL] ->
  0 <= channel < 16 -> 0 <= channel' < 16 -> 0 <= argument < 128 ->
  parsingSysex s = false -> (2 <= length (storedInputData s))%nat ->
  parse_bytes large cb
    (first + channel :: argument :: second + channel' :: following) s
  = parse_bytes large cb (second + channel' :: following)
      (set_storedInputData (<[1%nat := argument]> (storedInputData s)) s).
Proof.
  intros Hfirst Hsecond Hch Hch' Harg Hsys Hlen.
  cbn [parse_bytes].
  rewrite parse_two_byte_command by assumption. cbn [bind].
  rewrite parse_argument_byte; cbn; try lia; try assumption.
  rewrite !parse_channel_command by assumption.
  reflexivity.
Qed.

Lemma interrupted_message_abandoned_witness :
  parse_bytes false sample_callbacks
    [DIGITAL_MESSAGE + 1; 0x11; DIGITAL_MESSAGE + 2; 0x2B; 0x01]
    (zero_object false 4)
  = parse_bytes false sample_callbacks [DIGITAL_MESSAGE + 2; 0x2B; 0x01]
      (set_storedInputData
         (<[1%nat := 0x11]> (storedInputData (zero_object false 4)))
         (zero_object false 4)).
Proof.
  apply (interrupted_message_abandoned false sample_callbacks
           DIGITAL_MESSAGE 1 0x11 DIGITAL_MESSAGE 2 [0x2B; 0x01]
           (zero_object false 4));
    cbn [In]; auto; try lia; try reflexivity.
  vm_compute. lia.
Defined.

Lemma printVersion_written (s : Firmata) :
  written s (printVersion s)
    = [REPORT_VERSION; FIRMATA_PROTOCOL_MAJOR_VERSION;
       FIRMATA_PROTOCOL_MINOR_VERSION].
Proof.
  apply written_app. unfold printVersion, write. cbn [out set_out].
  norm_app. reflexivity.
Qed.

(** X21. Outside a sysex message the version query [F9] is answered at
    once with the protocol version 2.7, also between the argument bytes of
    another message, which is then completed as if it had not been
    interrupted; inside a sysex message the byte is payload and nothing
    is answered. *)
Theorem version_query_answered
    (large : bool) (cb : Callbacks) (command channel first second : Z)
    (s : Firmata) :
  In command [ANALOG_MESSAGE; DIGITAL_MESSAGE] ->
  0 <= channel < 16 -> 0 <= first < 128 -> 0 <= second < 128 ->
  (2 <= length (storedInputData s))%nat ->
  written s (printVersion s) = [REPORT_VERSION; 2; 7] /\
  (parsingSysex s = false ->
   parse large cb REPORT_VERSION s = Ok (printVersion s) /\
   parse_bytes large cb [command + channel; first; REPORT_VERSION; second] s
     = parse_bytes large cb [command + channel; first; second]
         (printVersion s)) /\
  (parsingSysex s = true -> 0 <= sysexBytesRead s ->
   sysexBytesRead s + 1 < Z.of_nat (length (storedInputData s)) ->
   Z.of_nat (length (storedInputData s)) = MAX_DATA_BYTES large ->
   parse large cb REPORT_VERSION s
     = Ok (set_sysexBytesRead (sysexBytesRead s + 1)
             (set_storedInputData
                (<[Z.to_nat (sysexBytesRead s) := REPORT_VERSION]>
                   (storedInputData s)) s))).
Proof.
  intros Hc Hch H1 H2 Hlen.
  split; [apply printVersion_written |]. split.
  - intros Hsys.
    assert (Hquery : forall t, parsingSysex t = false ->
              parse large cb REPORT_VERSION t = Ok (printVersion t)).
    { intros t Ht. rewrite parse_command_byte;
        [reflexivity | assumption | discriminate | discriminate]. }
    split; [now apply Hquery |].
    cbn [parse_bytes].
    rewrite !parse_two_byte_command by assumption. cbn [bind].
    rewrite !parse_argument_byte; cbn -[REPORT_VERSION];
      try lia; try assumption.
    rewrite Hquery by assumption. cbn [bind].
    rewrite !parse_argument_byte; cbn; rewrite ?length_insert;
      try lia; try assumption.
    reflexivity.
  - intros Hsys Hread Hroom Hfull.
    rewrite parse_sysex_byte; try assumption;
      [| repeat split; discriminate | lia].
    replace (sysexBytesRead s + 1 =? MAX_DATA_BYTES large) with false
      by (symmetry; apply Z.eqb_neq; lia).
    reflexivity.
Qed.

Lemma version_query_answered_witness :
  parse_bytes false sample_callbacks
    [DIGITAL_MESSAGE + 2; 0x2B; REPORT_VERSION; 0x01] (zero_object false 4)
  = parse_bytes false sample_callbacks [DIGITAL_MESSAGE + 2; 0x2B; 0x01]
      (printVersion (zero_object false 4)).
Proof.
  destruct (version_query_answered false sample_callbacks DIGITAL_MESSAGE 2
              0x2B 0x01 (zero_object false 4))
    as (_ & Hidle & _);
    [cbn [In]; auto | lia | lia | lia | vm_compute; lia |].
  apply Hidle. reflexivity.
Defined.

(** ** Packed integers inside a sysex message *)

Lemma packed32_seven_bit (v : Z) :
  Forall seven_bit
    [v mod 128; (v / 2 ^ 7) mod 128; (v / 2 ^ 14) mod 128;
     (v / 2 ^ 21) mod 128; (v / 2 ^ 28) mod 16].
Proof.
  pose proof (Z.mod_pos_bound (v / 2 ^ 28) 16).
  repeat constructor; try (apply Z.mod_pos_bound; lia); lia.
Qed.

Lemma sysex_frame_written (command : Z) (body : Firmata -> Firmata)
    (payload : list Z) (s : Firmata) :
  seven_bit command ->
  (forall t, out (body t) = out t ++ payload) ->
  written s (endSysex (body (write command (startSysex s))))
    = START_SYSEX :: command :: payload ++ [END_SYSEX].
Proof.
  intros Hcmd Hbody. apply written_app.
  unfold endSysex, write at 1. cbn [out set_out]. rewrite Hbody.
  unfold startSysex, write. cbn [out set_out].
  rewrite (to_byte_small command) by (unfold seven_bit in Hcmd; lia).
  norm_app. reflexivity.
Qed.

Lemma sendPackedUInt64_out (v : Z) (s : Firmata) :
  0 <= v < 2 ^ 64 ->
  out (sendPackedUInt64 v s) =
    out s ++
      [(v mod 2 ^ 32) mod 128; (v mod 2 ^ 32 / 2 ^ 7) mod 128;
       (v mod 2 ^ 32 / 2 ^ 14) mod 128; (v mod 2 ^ 32 / 2 ^ 21) mod 128;
       (v mod 2 ^ 32 / 2 ^ 28) mod 16;
       (v / 2 ^ 32) mod 128; (v / 2 ^ 32 / 2 ^ 7) mod 128;
       (v / 2 ^ 32 / 2 ^ 14) mod 128; (v / 2 ^ 32 / 2 ^ 21) mod 128;
       (v / 2 ^ 32 / 2 ^ 28) mod 16].
Proof.
  intros Hv. unfold sendPackedUInt64.
  rewrite !sendPackedUInt32_out, mask32, Z.shiftr_div_pow2 by lia.
  unfold to_uint32. rewrite Z.mod_mod by lia.
  rewrite (Z.mod_small (v / 2 ^ 32)).
  - norm_app. reflexivity.
  - split; [apply Z.div_pos; lia |].
    apply Z.div_lt_upper_bound; [lia |].
    change (2 ^ 32 * 2 ^ 32) with (2 ^ 64). lia.
Qed.

Lemma decodePackedUInt64_packed (v : Z) (rest : list Z) :
  0 <= v < 2 ^ 64 ->
  decodePackedUInt64
    ([(v mod 2 ^ 32) mod 128; (v mod 2 ^ 32 / 2 ^ 7) mod 128;
      (v mod 2 ^ 32 / 2 ^ 14) mod 128; (v mod 2 ^ 32 / 2 ^ 21) mod 128;
      (v mod 2 ^ 32 / 2 ^ 28) mod 16;
      (v / 2 ^ 32) mod 128; (v / 2 ^ 32 / 2 ^ 7) mod 128;
      (v / 2 ^ 32 / 2 ^ 14) mod 128; (v / 2 ^ 32 / 2 ^ 21) mod 128;
      (v / 2 ^ 32 / 2 ^ 28) mod 16] ++ rest) = Some v.
Proof.
  intros Hv.
  assert (Hlo : 0 <= v mod 2 ^ 32 < 2 ^ 32) by (apply Z.mod_pos_bound; lia).
  assert (Hhi : 0 <= v / 2 ^ 32 < 2 ^ 32).
  { split; [apply Z.div_pos; lia |].
    apply Z.div_lt_upper_bound; [lia |].
    change (2 ^ 32 * 2 ^ 32) with (2 ^ 64). lia. }
  unfold decodePackedUInt64.
  pose proof (decodePackedUInt32_packed _
                ([(v / 2 ^ 32) mod 128; (v / 2 ^ 32 / 2 ^ 7) mod 128;
                  (v / 2 ^ 32 / 2 ^ 14) mod 128;
                  (v / 2 ^ 32 / 2 ^ 21) mod 128;
                  (v / 2 ^ 32 / 2 ^ 28) mod 16] ++ rest) Hlo) as Elo.
  cbn [app] in Elo |- *. rewrite Elo.
  cbn [drop mbind option_bind].
  pose proof (decodePackedUInt32_packed _ rest Hhi) as Ehi.
  cbn [app] in Ehi. rewrite Ehi.
  cbn [mbind option_bind]. f_equal.
  unfold to_uint64. rewrite Z.shiftl_mul_pow2 by lia.
  rewrite Z.add_0_l.
  rewrite (Z.mod_small (v mod 2 ^ 32)) by lia.
  rewrite (Z.mod_small (_ * 2 ^ 32)) by lia.
  rewrite Z.mod_small by lia.
  pose proof (Z.div_mod v (2 ^ 32)). lia.
Qed.

Lemma MAX_DATA_BYTES_room (large : bool) : 64 <= MAX_DATA_BYTES large.
Proof. destruct large; vm_compute; discriminate. Qed.

(** X22. Packed integers pass through the sysex framing: a message built
    from [startSysex], a command byte, [sendPackedUInt32] or
    [sendPackedUInt64] and [endSysex] reaches the receiver's sysex
    handler with five or ten arguments, from which [decodePackedUInt32]
    or [decodePackedUInt64] recovers the value sent. *)
Theorem packed_integers_through_sysex
    (large : bool) (cb : Callbacks)
    (h : Z -> Z -> list Z -> Firmata -> Firmata)
    (command v32 v64 : Z) (sender s : Firmata) :
  currentSysexCallback cb = Some h ->
  seven_bit command -> command <> REPORT_FIRMWARE -> command <> STRING_DATA ->
  0 <= v32 < 2 ^ 32 -> 0 <= v64 < 2 ^ 64 ->
  parsingSysex s = false ->
  Z.of_nat (length (storedInputData s)) = MAX_DATA_BYTES large ->
  (exists argv t,
     parse_bytes large cb
       (written sender
          (endSysex (sendPackedUInt32 v32 (write command (startSysex sender)))))
       s = Ok (h command 5 argv t) /\
     decodePackedUInt32 argv = Some v32 /\ same_io s t) /\
  (exists argv t,
     parse_bytes large cb
       (written sender
          (endSysex (sendPackedUInt64 v64 (write command (startSysex sender)))))
       s = Ok (h command 10 argv t) /\
     decodePackedUInt64 argv = Some v64 /\ same_io s t).
Proof.
  intros Hcb Hcmd Hfw Hstr H32 H64 Hsys Hlen.
  pose proof (MAX_DATA_BYTES_room large) as Hroom.
  assert (Hrun : forall payload,
            Forall seven_bit payload ->
            Z.of_nat (length payload) <= 10 ->
            parse_bytes large cb
              (START_SYSEX :: command :: payload ++ [END_SYSEX]) s
            = Ok (h command (Z.of_nat (length payload))
                    (payload ++ drop (S (length payload)) (storedInputData s))
                    (collected (command :: payload) s))).
  { intros payload Hseven Hshort.
    change (START_SYSEX :: command :: payload ++ [END_SYSEX])
      with (START_SYSEX :: (command :: payload) ++ [END_SYSEX]).
    rewrite sysex_message; try assumption.
    - rewrite processSysexMessage_generic, Hcb by (assumption || lia).
      reflexivity.
    - constructor; [now apply seven_bit_data_byte |].
      now apply Forall_seven_bit_data_byte.
    - cbn [length]. lia. }
  split.
  - rewrite (sysex_frame_written command (sendPackedUInt32 v32) _ sender Hcmd
               (sendPackedUInt32_out v32)).
    rewrite Hrun; [| apply packed32_seven_bit | cbn [length]; lia].
    eexists. eexists. split; [reflexivity |].
    split; [apply decodePackedUInt32_packed, H32 | repeat split].
  - rewrite (sysex_frame_written command (sendPackedUInt64 v64) _ sender Hcmd
               (fun t => sendPackedUInt64_out v64 t H64)).
    rewrite Hrun; [| | cbn [length]; lia].
    + eexists. eexists. split; [reflexivity |].
      split; [apply decodePackedUInt64_packed, H64 | repeat split].
    + pose proof (packed32_seven_bit (v64 mod 2 ^ 32)) as Hlo.
      pose proof (packed32_seven_bit (v64 / 2 ^ 32)) as Hhi.
      exact (proj2 (Forall_app _ _ _) (conj Hlo Hhi)).
Qed.

Lemma packed_integers_through_sysex_witness :
  exists argv t,
    parse_bytes false sample_callbacks
      (written (zero_object false 4)
         (endSysex (sendPackedUInt32 0xDEADBEEF
                      (write 0x50 (startSysex (zero_object false 4))))))
      (zero_object false 4)
    = Ok (echo_sysex 0x50 5 argv t) /\
    decodePackedUInt32 argv = Some 0xDEADBEEF.
Proof.
  destruct (packed_integers_through_sysex false sample_callbacks echo_sysex
              0x50 0xDEADBEEF 0 (zero_object false 4) (zero_object false 4))
    as ((argv & t & Erun & Edec & _) & _);
    [reflexivity | unfold seven_bit; lia | discriminate | discriminate
    | lia | lia | reflexivity | reflexivity |].
  exists argv, t. split; [exact Erun | exact Edec].
Defined.

(** ** Abandoning a message *)

(** X23. [resetParser] abandons a message in progress: a sysex message
    cut off after its payload is forgotten, the end marker that arrives
    afterwards reaches no handler, [isParsingMessage], which was true
    while the message was being collected, is false, and nothing has been
    written. *)
Theorem resetParser_abandons_sysex
    (large : bool) (cb : Callbacks) (data : list Z) (s : Firmata) :
  parsingSysex s = false -> Forall data_byte data ->
  Z.of_nat (length (storedInputData s)) = MAX_DATA_BYTES large ->
  Z.of_nat (length data) < MAX_DATA_BYTES large ->
  exists t,
    parse_bytes large cb (START_SYSEX :: data) s = Ok t /\
    isParsingMessage t = true /\
    isParsingMessage (resetParser t) = false /\
    parse_bytes large cb [END_SYSEX] (resetParser t) = Ok (resetParser t) /\
    same_io s (resetParser t).
Proof.
  intros Hsys Hdata Hlen Hroom.
  rewrite collect_message by assumption.
  eexists. split; [reflexivity |].
  split; [apply orb_true_r |]. split; [reflexivity |].
  split; [| repeat split].
  cbn [parse_bytes]. rewrite parse_end_sysex_idle by reflexivity.
  reflexivity.
Qed.

Lemma resetParser_abandons_sysex_witness :
  exists t,
    parse_bytes false sample_callbacks [START_SYSEX; 0x50; 1] 
      (zero_object false 4) = Ok t /\
    parse_bytes false sample_callbacks [END_SYSEX] (resetParser t)
      = Ok (resetParser t).
Proof.
  destruct (resetParser_abandons_sysex false sample_callbacks [0x50; 1]
              (zero_object false 4))
    as (t & Erun & _ & _ & Eend & _);
    [reflexivity | repeat constructor; (lia || discriminate) | reflexivity
    | reflexivity |].
  exists t. split; [exact Erun | exact Eend].
Defined.

(** ** Block reads inside a sysex message *)

(** X24. With [LARGE_MEM_DEVICE], a block read while a sysex message is
    being collected goes through the word-wise copy; as long as the
    buffer has room for the whole block the result is that of parsing the
    block byte by byte, and the transport is left empty. *)
Theorem block_read_with_room
    (cb : Callbacks) (block : list Z) (s : Firmata) :
  (length block <= Z.to_nat LARGE_MEM_RCV_BUF_SIZE)%nat ->
  parsingSysex s = true -> Forall (fun b => 0 <= b < 256) block ->
  0 <= sysexBytesRead s ->
  Z.of_nat (length (storedInputData s)) = MAX_DATA_BYTES true ->
  sysexBytesRead s + Z.of_nat (length block) < MAX_DATA_BYTES true ->
  processInput true cb block s =
    (s' <- parse_bytes true cb block s ;; Ok ([], s')) /\
  poll true cb 1 block s = processInput true cb block s.
Proof.
  intros Hblock Hsys Hbytes Hn Hlen Hroom.
  split; [now apply processInput_with_room |].
  cbn [poll]. destruct (processInput true cb block s) as [[rest t] | e];
    reflexivity.
Qed.

Lemma block_read_with_room_witness :
  processInput true sample_callbacks
    [0x50; 1; 2; 3; 4; 5; 6; 7; 8; END_SYSEX; DIGITAL_MESSAGE; 1; 0]
    (set_parsingSysex true (zero_object true 4))
  = (s' <- parse_bytes true sample_callbacks
             [0x50; 1; 2; 3; 4; 5; 6; 7; 8; END_SYSEX; DIGITAL_MESSAGE; 1; 0]
             (set_parsingSysex true (zero_object true 4)) ;;
     Ok ([], s')).
Proof.
  assert (Hblock : (13 <= Z.to_nat LARGE_MEM_RCV_BUF_SIZE)%nat)
    by (vm_compute; lia).
  assert (Hbytes : Forall (fun b => 0 <= b < 256)
            [0x50; 1; 2; 3; 4; 5; 6; 7; 8; END_SYSEX; DIGITAL_MESSAGE; 1; 0])
    by (repeat constructor; vm_compute; discriminate).
  assert (Hread : 0 <= sysexBytesRead
                         (set_parsingSysex true (zero_object true 4)))
    by (vm_compute; discriminate).
  exact (proj1 (block_read_with_room sample_callbacks
                  [0x50; 1; 2; 3; 4; 5; 6; 7; 8; END_SYSEX; DIGITAL_MESSAGE;
                   1; 0]
                  (set_parsingSysex true (zero_object true 4))
                  Hblock eq_refl Hbytes Hread eq_refl eq_refl)).
Defined.

(** ** A sysex message between argument bytes *)

(** X25. [START_SYSEX] does not end a pending wait for argument bytes.
    A sysex message that arrives after the first argument of a digital
    message is collected over that argument, and the data byte after its
    end marker completes the digital message: with no sysex handler
    attached, the digital handler is called with the last byte as high
    part and the first sysex argument as low part. *)
Theorem sysex_inside_digital_message
    (large : bool) (cb : Callbacks) (h : Z -> Z -> Firmata -> Firmata)
    (port first second command argument : Z) (args : list Z) (s : Firmata) :
  currentDigitalCallback cb = Some h ->
  currentSysexCallback cb = None ->
  parsingSysex s = false ->
  Z.of_nat (length (storedInputData s)) = MAX_DATA_BYTES large ->
  0 <= port < 16 -> 0 <= first < 128 -> 0 <= second < 128 ->
  seven_bit command -> command <> REPORT_FIRMWARE -> command <> STRING_DATA ->
  seven_bit argument -> Forall seven_bit args ->
  2 + Z.of_nat (length args) < MAX_DATA_BYTES large ->
  exists t,
    parse_bytes large cb
      ([DIGITAL_MESSAGE + port; first]
         ++ (START_SYSEX :: command :: argument :: args ++ [END_SYSEX])
         ++ [second]) s
    = Ok (set_executeMultiByteCommand 0
            (h port (Z.shiftl second 7 + argument) t)) /\
    same_io s t.
Proof.
  intros Hcb Hnone Hsys Hlen Hport H1 H2 Hcmd Hfw Hstr Harg Hargs Hroom.
  pose proof (MAX_DATA_BYTES_pos large) as Hmax.
  assert (Efirst :
    parse_bytes large cb [DIGITAL_MESSAGE + port; first] s =
      Ok (set_storedInputData (<[1%nat := first]> (storedInputData s))
            (set_waitForData 1
               (set_executeMultiByteCommand DIGITAL_MESSAGE
                  (set_waitForData 2 (set_multiByteChannel port s)))))).
  { cbn [parse_bytes].
    rewrite parse_two_byte_command by (cbn [In]; auto). cbn [bind].
    rewrite parse_argument_byte; cbn; try lia; try assumption.
    reflexivity. }
  rewrite parse_bytes_app, Efirst. cbn [bind].
  set (pending := set_storedInputData _ _).
  assert (Hpending : parsingSysex pending = false /\
            Z.of_nat (length (storedInputData pending))
              = MAX_DATA_BYTES large).
  { unfold pending. cbn [parsingSysex storedInputData set_storedInputData].
    rewrite length_insert. now split. }
  destruct Hpending as [Psys Plen].
  rewrite parse_bytes_app.
  change (START_SYSEX :: command :: argument :: args ++ [END_SYSEX])
    with (START_SYSEX :: (command :: argument :: args) ++ [END_SYSEX]).
  rewrite sysex_message; try assumption.
  2:{ constructor; [now apply seven_bit_data_byte |].
      constructor; [now apply seven_bit_data_byte |].
      now apply Forall_seven_bit_data_byte. }
  2:{ cbn [length]. lia. }
  rewrite processSysexMessage_generic, Hnone
    by (assumption || (cbn [length]; lia)).
  cbn [bind parse_bytes].
  set (closed := collected _ pending).
  assert (Hclosed : parsingSysex closed = false /\ waitForData closed = 1 /\
            executeMultiByteCommand closed = DIGITAL_MESSAGE /\
            multiByteChannel closed = port /\
            storedInputData closed !! 1%nat = Some argument /\
            (2 <= length (storedInputData closed))%nat /\
            same_io s closed).
  { unfold closed, pending, same_io.
    cbn [collected parsingSysex waitForData executeMultiByteCommand
         multiByteChannel storedInputData pinConfig pinState out console
         set_parsingSysex set_sysexBytesRead set_storedInputData
         set_waitForData set_executeMultiByteCommand set_multiByteChannel
         app length].
    repeat split. lia. }
  destruct Hclosed as (Csys & Cwait & Ccmd & Cch & Carg & Clen & Cio).
  generalize dependent closed. intros closed Csys Cwait Ccmd Cch Carg Clen Cio.
  rewrite parse_argument_byte by (rewrite ?Cwait; (assumption || lia)).
  cbv zeta. rewrite Cwait, Ccmd.
  change (1 =? 1) with true. change (DIGITAL_MESSAGE =? 0) with false.
  cbn [andb negb]. change (1 - 1) with 0. change (Z.to_nat 0) with 0%nat.
  unfold execute_command.
  cbn [executeMultiByteCommand set_storedInputData set_waitForData].
  rewrite Ccmd.
  change (DIGITAL_MESSAGE =? ANALOG_MESSAGE) with false.
  change (DIGITAL_MESSAGE =? DIGITAL_MESSAGE) with true.
  cbn iota. rewrite Hcb.
  rewrite (buf_get_ok 0 second).
  2: lia.
  2:{ cbn [storedInputData set_storedInputData].
      apply list_lookup_insert_eq. lia. }
  rewrite (buf_get_ok 1 argument).
  2: lia.
  2:{ cbn [storedInputData set_storedInputData].
      rewrite list_lookup_insert_ne by lia. exact Carg. }
  cbn [bind multiByteChannel set_storedInputData set_waitForData].
  rewrite Cch.
  eexists. split; [reflexivity |].
  unfold same_io in *.
  cbn [pinConfig pinState out console set_storedInputData set_waitForData].
  exact Cio.
Qed.

Lemma sysex_inside_digital_message_witness :
  exists t,
    parse_bytes false (attach DIGITAL_MESSAGE (Some echo_digital) no_callbacks)
      [DIGITAL_MESSAGE + 2; 0x2B; START_SYSEX; 0x50; 0x11; END_SYSEX; 0x01]
      (zero_object false 4)
    = Ok (set_executeMultiByteCommand 0 (echo_digital 2 (128 + 0x11) t)).
Proof.
  destruct (sysex_inside_digital_message false
              (attach DIGITAL_MESSAGE (Some echo_digital) no_callbacks)
              echo_digital 2 0x2B 0x01 0x50 0x11 [] (zero_object false 4))
    as (t & Erun & _);
    [reflexivity | reflexivity | reflexivity | reflexivity | lia | lia | lia
    | unfold seven_bit; lia | discriminate | discriminate
    | unfold seven_bit; lia | constructor | reflexivity |].
  exists t. exact Erun.
Defined.
